(** * Element schemas of spatialdata: a shallow embedding of
    [spatialdata/_core/models.py] and the properties of its parsers and
    validators.

    Python objects that are mutated in place (a [GeoDataFrame], an [AnnData]
    table, the [attrs] of an array) are modelled by explicit state passing:
    a call is a function from the object before the call to a result
    together with the object after the call, and the object after the call
    is reported for raised exceptions too. *)

From Stdlib Require Import ZArith Lia DecimalString DecimalNat DecimalFacts.
From stdpp Require Import base option list strings gmap.

Local Open Scope string_scope.

(** ** Exceptions *)

(** The [raise] sites of [models.py], one constructor per site (several
    sites with the same message share one). *)
Inductive Reason :=
  | TransformationsTwice      (* "Transformations are both specified for the element and also passed ..." *)
  | NameNotSupported          (* "The `name` argument is not (yet) supported for raster data." *)
  | DimsMismatchData          (* "`dims`: .. does not match `data.dims`: .." *)
  | WrongDims                 (* "Wrong `dims`: ... Expected ..." *)
  | UnsupportedDataType       (* "Unsupported data type: ..." *)
  | CannotTranspose           (* "Cannot transpose arrays to match `dims`: ..." *)
  | WrongMultiscaleKey        (* "Wrong key for multiscale data, found: .., expected: .." *)
  | WrongDatatreeName         (* "Wrong name for datatree: .." *)
  | GeometryNotGeoSeries      (* "Column `geometry` must be a GeoSeries." *)
  | GeometryKindUnsupported   (* "Column `geometry` can only contain `Point`, `Polygon` or `MultiPolygon` shapes ..." *)
  | RadiusColumnNotFound      (* "Column `radius` not found." *)
  | TransformNotInAttrs       (* "... does not contain `transform`." *)
  | RadiusMustBeProvided      (* "If `geometry` is `Circles`, `radius` must be provided." *)
  | NotAGeometryCollection    (* "`..` does not contain a `GeometryCollection`." *)
  | GeometryColumnNotFound    (* "`geometry` column not found in `GeoDataFrame`." *)
  | EitherArgumentsOrUns      (* "Either pass `region`, `region_key` and `instance_key` as arguments or have them in `adata.uns[..]`." *)
  | RegionKeyRedundant        (* "If `region` is of type `str`, `region_key` must be `None` as it is redundant." *)
  | InstanceKeyMustBeProvided (* "`instance_key` must be provided if `region` is of type `List`." *)
  | RegionKeyMustBeProvided   (* "`region_key` must be provided if `region` is of type `List`." *)
  | RegionValuesDoNotMatch    (* "`adata.obs[..]` values do not match with `region` values." *)
  | RegionWrongType           (* "`region` must be of type `str` or `List`." *)
  | RegionNotInAttrs          (* "`region` not found in `adata.uns['spatialdata_attr']`." *)
  | RegionKeyNotInAttrs       (* "`region` is of type `list` but `region_key` not found ..." *)
  | InstanceKeyNotInAttrs     (* "`instance_key` not found in `adata.uns['spatialdata_attr']`." *)
  | LibraryValueError.        (* a ValueError raised inside a library call *)

Inductive PyError :=
  | ValueError (why : Reason)
  | KeyError
  | IndexError
  | TypeError
  | AssertionError
  | SchemaError.

(** A call that returns [A] or raises. *)
Inductive Result (A : Type) :=
  | Ok (a : A)
  | Raise (e : PyError).
Arguments Ok {A} a.
Arguments Raise {A} e.

Global Instance Result_ret : MRet Result := fun _ a => Ok a.
Global Instance Result_bind : MBind Result := fun _ _ f m =>
  match m with
  | Ok a => f a
  | Raise e => Raise e
  end.

Definition is_ok {A} (r : Result A) : bool :=
  match r with Ok _ => true | Raise _ => false end.

(** A call on a mutable object of type [S]: the outcome and the object as
    the call leaves it. *)
Definition Py (S A : Type) : Type := S → Result A * S.

Definition py_ret {S A} (a : A) : Py S A := λ s, (Ok a, s).
Definition py_raise {S A} (e : PyError) : Py S A := λ s, (Raise e, s).
Definition py_bind {S A B} (m : Py S A) (f : A → Py S B) : Py S B :=
  λ s, match m s with
       | (Ok a, s') => f a s'
       | (Raise e, s') => (Raise e, s')
       end.
Definition py_get {S} : Py S S := λ s, (Ok s, s).
Definition py_put {S} (s : S) : Py S unit := λ _, (Ok tt, s).
Definition py_lift {S A} (r : Result A) : Py S A := λ s, (r, s).

(** The object as a call on it leaves it, when the call returns. *)
Definition run {S A} (m : Py S A) (s : S) : Result S :=
  match m s with
  | (Ok _, s') => Ok s'
  | (Raise e, _) => Raise e
  end.

Global Instance Py_ret {S} : MRet (Py S) := λ _ a, py_ret a.
Global Instance Py_bind {S} : MBind (Py S) := λ _ _ f m, py_bind m f.

(** ** Transformations and coordinate systems *)

Local Set Warnings "-register-all".

(** Modelled from the spec: [spatialdata/_core/transformations.py] is not
    among the sources; the variants are those of the data model (identity,
    scale, affine, sequence).  Numeric entries are kept as integers: no
    operation of [models.py] computes with them. *)
Inductive BaseTransformation :=
  | Identity
  | Scale (scale : list Z) (axes : list string)
  | Affine (matrix : list (list Z)) (axes : list string)
  | Sequence (transformations : list BaseTransformation).

(** [MappingToCoordinateSystem_t]: coordinate-system name to transformation. *)
Abbreviation MappingToCoordinateSystem_t := (gmap string BaseTransformation).

Definition DEFAULT_COORDINATE_SYSTEM : string := "global".

(** Python's [m is not None and len(m) > 0]. *)
Definition non_empty (m : option MappingToCoordinateSystem_t) : bool :=
  match m with
  | Some d => bool_decide (0 < size d)
  | None => false
  end.

(** Modelled from the spec: [_get_transformations] and [_set_transformations]
    of [core_utils.py] (not among the sources) read and overwrite the
    transformation mapping kept in the element's metadata; they dispatch on
    the element type, which is rendered here by a type class with one
    instance per element type. *)
Class SpatialElement (E : Type) := {
  _get_transformations : E → Result (option MappingToCoordinateSystem_t);
  _set_transformations : E → MappingToCoordinateSystem_t → Result E;
}.

(** [_validate_mapping_to_coordinate_system_type] raises [TypeError] unless
    its argument is [None] or a [dict] from [str] to [BaseTransformation];
    the argument's type here admits nothing else. *)
Definition _validate_mapping_to_coordinate_system_type
    (transformations : option MappingToCoordinateSystem_t) : Result unit :=
  Ok tt.

(** The choice of lines 96-101: the mapping of the element if it has one,
    else the mapping passed, else the default. *)
Definition parsed_transformations
    (transformations_in_element transformations : option MappingToCoordinateSystem_t)
    : MappingToCoordinateSystem_t :=
  if non_empty transformations_in_element then default ∅ transformations_in_element
  else if non_empty transformations then default ∅ transformations
  else {[ DEFAULT_COORDINATE_SYSTEM := Identity ]}.

(** [_parse_transformations(element, transformations)], models.py 81-103. *)
Definition _parse_transformations `{SpatialElement E}
    (transformations : option MappingToCoordinateSystem_t) : Py E unit :=
  _ ← py_lift (_validate_mapping_to_coordinate_system_type transformations);
  element ← py_get;
  transformations_in_element ← py_lift (_get_transformations element);
  if non_empty transformations_in_element && non_empty transformations then
    py_raise (ValueError TransformationsTwice)
  else
    element' ← py_lift (_set_transformations element
                          (parsed_transformations transformations_in_element transformations));
    py_put element'.
Global Arguments _parse_transformations : simpl never.

(** ** Raster data *)

(** Axis names of [core_utils.py]. *)
Definition C : string := "c".
Definition Z_ : string := "z".
Definition Y : string := "y".
Definition X : string := "x".

(** What [.data] of a labelled array is: a numpy array or a dask array. *)
Inductive Backing := NumpyArray | DaskArray.

(** An [xarray.DataArray].  [SpatialImage] is a subclass of it, told apart by
    [da_spatial_image].  Of [attrs] only the entry under ["transform"] is
    read or written by [models.py].  Cell values are not represented: an
    array is known by the extent of each of its axes, so that a
    transposition is visible as a permutation of [da_shape]. *)
Record DataArray := {
  da_spatial_image : bool;
  da_dims : list string;
  da_shape : list nat;
  da_data : Backing;
  da_transform : option MappingToCoordinateSystem_t;
}.

Definition set_da_data (b : Backing) (da : DataArray) : DataArray :=
  {| da_spatial_image := da_spatial_image da; da_dims := da_dims da;
     da_shape := da_shape da; da_data := b; da_transform := da_transform da |}.

Definition set_da_transform (t : option MappingToCoordinateSystem_t)
    (da : DataArray) : DataArray :=
  {| da_spatial_image := da_spatial_image da; da_dims := da_dims da;
     da_shape := da_shape da; da_data := da_data da; da_transform := t |}.

(** A [MultiscaleSpatialImage] is a tree whose children, in order, are the
    levels; each level is a dataset, i.e. its data variables in order. *)
Definition Dataset : Type := list (string * DataArray).

Record MultiscaleSpatialImage := {
  children : list (string * Dataset);
}.

(** [d[k]] on an ordered dictionary. *)
Fixpoint getitem {A} (d : list (string * A)) (k : string) : Result A :=
  match d with
  | [] => Raise KeyError
  | (k', v) :: d' => if decide (k' = k) then Ok v else getitem d' k
  end.

Definition keys {A} (d : list (string * A)) : list string := d.*1.

(** Modelled from the spec: the [SpatialImage] register of
    [_get_transformations] / [_set_transformations] reads and writes
    [attrs["transform"]]; other types are not registered. *)
Global Instance SpatialImage_element : SpatialElement DataArray := {
  _get_transformations e :=
    if da_spatial_image e then Ok (da_transform e) else Raise TypeError;
  _set_transformations e t :=
    if da_spatial_image e then Ok (set_da_transform (Some t) e) else Raise TypeError;
}.

(** The extent of the axis labelled [d]. *)
Fixpoint extent (dims : list string) (shape : list nat) (d : string) : option nat :=
  match dims, shape with
  | d' :: dims', n :: shape' =>
      if decide (d' = d) then Some n else extent dims' shape' d
  | _, _ => None
  end.

(** The ratio of two shapes, axis by axis (the scale that maps a level of a
    pyramid onto its first level). *)
Definition shape_ratio (full level : list nat) : list Z :=
  zip_with (λ a b, (Z.of_nat a / Z.of_nat b)%Z) full level.

(** [f"scale{i}"]. *)
Definition scale_key (i : nat) : string :=
  "scale" ++ NilZero.string_of_uint (Nat.to_uint i).

(** Modelled from the spec: the [MultiscaleSpatialImage] register.  The
    mapping is read from the single variable of [scale0].  It is written
    level by level: the levels are expected in the order [scale0], [scale1],
    ..., each with one variable; the first level takes the mapping as it is,
    a deeper level takes it composed with the scale of that level. *)
Fixpoint set_levels (full : list nat) (t : MappingToCoordinateSystem_t)
    (i : nat) (l : list (string * Dataset)) : Result (list (string * Dataset)) :=
  match l with
  | [] => Ok []
  | (k, ds) :: l' =>
      if bool_decide (k ≠ scale_key i) then Raise AssertionError
      else
        match ds with
        | [(name, xdata)] =>
            let t_i :=
              match i with
              | 0 => t
              | _ => (λ b, Sequence [Scale (shape_ratio full (da_shape xdata))
                                           (da_dims xdata); b]) <$> t
              end in
            l' ← set_levels full t (S i) l';
            Ok ((k, [(name, set_da_transform (Some t_i) xdata)]) :: l')
        | _ => Raise AssertionError
        end
  end.

Global Instance MultiscaleSpatialImage_element : SpatialElement MultiscaleSpatialImage := {
  _get_transformations e :=
    d ← getitem (children e) "scale0";
    match d with
    | [(_, xdata)] => Ok (da_transform xdata)
    | _ => Raise AssertionError
    end;
  _set_transformations e t :=
    d ← getitem (children e) "scale0";
    match d with
    | [(_, xdata)] =>
        l ← set_levels (da_shape xdata) t 0 (children e);
        Ok {| children := l |}
    | _ => Raise AssertionError
    end;
}.

(** The four raster schemas and their [dims] class attribute. *)
Inductive RasterModel :=
  | Labels2DModel
  | Labels3DModel
  | Image2DModel
  | Image3DModel.

Definition dims (cls : RasterModel) : list string :=
  match cls with
  | Labels2DModel => [Y; X]
  | Labels3DModel => [Z_; Y; X]
  | Image2DModel => [C; Y; X]
  | Image3DModel => [C; Z_; Y; X]
  end.

Global Instance Result_fmap : FMap Result := λ _ _ f m,
  match m with
  | Ok a => Ok (f a)
  | Raise e => Raise e
  end.

(** What [RasterSchema.parse] accepts as [data]: a labelled array
    ([DataArray] or [SpatialImage]), a numpy array, a dask array (both known
    by their shape), or an object of another type. *)
Inductive RasterInput :=
  | Labelled (da : DataArray)
  | NumpyInput (shape : list nat)
  | DaskInput (shape : list nat)
  | OtherInput.

(** A [Sequence[str]] argument: a tuple or a list.  A list never compares
    equal to a tuple. *)
Inductive PySeq :=
  | PyTuple (items : list string)
  | PyList (items : list string).

Definition items (s : PySeq) : list string :=
  match s with PyTuple l | PyList l => l end.

(** [s != t] for a tuple [t]. *)
Definition ne_tuple (s : PySeq) (t : list string) : bool :=
  match s with
  | PyTuple l => bool_decide (l ≠ t)
  | PyList _ => true
  end.

(** [set(a).symmetric_difference(b)] and the truth value of a set. *)
Definition symmetric_difference (a b : list string) : gset string :=
  (list_to_set a ∖ list_to_set b) ∪ (list_to_set b ∖ list_to_set a).

Definition truthy (s : gset string) : bool := bool_decide (s ≠ ∅).

(** [l.index(d)]: the first position of [d], [ValueError] if there is none. *)
Fixpoint index (d : string) (l : list string) : Result nat :=
  match l with
  | [] => Raise (ValueError LibraryValueError)
  | d' :: l' => if decide (d' = d) then Ok 0 else S <$> index d l'
  end.

(** [DataArray.transpose] by names: the names must be a permutation of the
    array's dims; the axes are reordered, metadata and backing are kept. *)
Definition DataArray_transpose (da : DataArray) (names : list string) : Result DataArray :=
  if bool_decide (names ≡ₚ da_dims da) then
    Ok {| da_spatial_image := da_spatial_image da;
          da_dims := names;
          da_shape := (λ d, default 0 (extent (da_dims da) (da_shape da) d)) <$> names;
          da_data := da_data da;
          da_transform := da_transform da |}
  else Raise (ValueError LibraryValueError).

(** [Array.transpose] of dask by axis numbers: the axes must be a permutation of
    [range(ndim)]. *)
Definition dask_transpose (shape : list nat) (axes : list nat) : Result (list nat) :=
  if bool_decide (axes ≡ₚ seq 0 (length shape)) then
    Ok ((λ i, default 0 (shape !! i)) <$> axes)
  else Raise (ValueError LibraryValueError).

(** The parameters of [to_spatial_image] other than [array_like] and
    [dims]. *)
Definition to_spatial_image_keywords : list string :=
  ["scale"; "translation"; "name"; "axis_names"; "axis_units"; "t_coords"; "c_coords"].

(** [to_spatial_image(array_like=.., dims=.., **kwargs)] of the
    [spatial_image] package; [kwargs] is known by its keys.  A keyword that
    the function does not have, or that it is given already ([array_like],
    [dims]), is a [TypeError] of the call.  The array is wrapped and its
    axes are labelled [dims], in the order they have; the metadata of a
    labelled input is carried over.  The coordinates of an axis are computed
    from [array_like.shape[dims.index(d)]], which is an [IndexError] when
    the array has fewer axes than there are labels; an array with more axes
    than labels is refused by xarray with a [ValueError].  The keywords that
    the function has set coordinates, names and units, which are not
    represented; neither is a value of theirs that the library refuses. *)
Definition to_spatial_image (array_like : RasterInput) (dims_ : list string)
    (kwargs : list string) : Result DataArray :=
  let wrap (shape : list nat) (data : Backing)
      (transform : option MappingToCoordinateSystem_t) : Result DataArray :=
    if bool_decide (length shape < length dims_) then Raise IndexError
    else if bool_decide (length dims_ < length shape)
    then Raise (ValueError LibraryValueError)
    else Ok {| da_spatial_image := true; da_dims := dims_; da_shape := shape;
               da_data := data; da_transform := transform |} in
  if bool_decide (Forall (λ k, k ∈ to_spatial_image_keywords) kwargs) then
    match array_like with
    | Labelled da => wrap (da_shape da) (da_data da) (da_transform da)
    | NumpyInput shape => wrap shape NumpyArray None
    | DaskInput shape => wrap shape DaskArray None
    | OtherInput => Raise TypeError
    end
  else Raise TypeError.

(** Modelled from the spec: the pyramid builder [to_multiscale] of the
    [multiscale_spatial_image] package gives, for an image and scale
    factors, the levels [scale0], [scale1], ... in this order: [scale0]
    holds the image, each further level the level before it, downsampled by
    the next factor.  Each level holds one variable, named as the image (the
    default name, since [parse] refuses a [name]), which is a plain
    [DataArray], not a [SpatialImage].  A factor divides the extent of every
    axis but the channel axis; a factor that is larger than the extent of
    such an axis, so that the axis would be left without an element, is
    refused with a [ValueError].  Scale factors are modelled as positive
    integers. *)
Definition as_DataArray (da : DataArray) : DataArray :=
  {| da_spatial_image := false; da_dims := da_dims da; da_shape := da_shape da;
     da_data := da_data da; da_transform := da_transform da |}.

Definition downsample (factor : positive) (da : DataArray) : Result DataArray :=
  if bool_decide (Forall (λ dn : string * nat, dn.1 = C ∨ (Pos.to_nat factor ≤ dn.2)%nat)
                         (zip (da_dims da) (da_shape da)))
  then Ok {| da_spatial_image := da_spatial_image da;
             da_dims := da_dims da;
             da_shape := zip_with (λ d n, if decide (d = C) then n
                                          else n / Pos.to_nat factor)
                                  (da_dims da) (da_shape da);
             da_data := da_data da;
             da_transform := da_transform da |}
  else Raise (ValueError LibraryValueError).

Fixpoint pyramid (da : DataArray) (scale_factors : list positive) (i : nat)
    : Result (list (string * Dataset)) :=
  match scale_factors with
  | [] => Ok []
  | f :: fs =>
      da' ← downsample f da;
      rest ← pyramid da' fs (S i);
      Ok ((scale_key i, [("image", da')]) :: rest)
  end.

Definition to_multiscale (da : DataArray) (scale_factors : list positive)
    : Result MultiscaleSpatialImage :=
  let da := as_DataArray da in
  rest ← pyramid da scale_factors 1;
  Ok {| children := (scale_key 0, [("image", da)]) :: rest |}.

(** What [parse] returns. *)
Inductive RasterElement :=
  | SingleScale (image : DataArray)
  | MultiScale (image : MultiscaleSpatialImage).

(** Modelled from the spec: [compute_coordinates] recomputes the coordinate
    vectors of the axes, which are not represented here. *)
Definition compute_coordinates (data : RasterElement) : RasterElement := data.

(** [del data.attrs["transform"]]. *)
Definition del_transform (da : DataArray) : Result DataArray :=
  match da_transform da with
  | Some _ => Ok (set_da_transform None da)
  | None => Raise KeyError
  end.

(** [list(d.keys())[0]] and [list(s)[0]]. *)
Definition first {A} (l : list A) : Result A :=
  match l with
  | x :: _ => Ok x
  | [] => Raise IndexError
  end.

Module RasterSchema.

(** Lines 146-174 of [RasterSchema.parse]: the dims are resolved.  The
    result is the pair of [data] and [dims] as the code goes on with them;
    the second component is the caller's object, whose [.data] has been
    replaced by a dask array when it is a labelled array (line 148). *)
Definition resolve_dims (cls : RasterModel) (data : RasterInput) (dims_ : option PySeq)
    : Result (RasterInput * PySeq) * RasterInput :=
  match data with
  | Labelled da =>
      let data := Labelled (set_da_data DaskArray da) in
      (dims_ ← match dims_ with
               | Some dims_ =>
                   if truthy (symmetric_difference (items dims_) (da_dims da))
                   then Raise (ValueError DimsMismatchData)
                   else Ok dims_
               | None => Ok (PyTuple (da_dims da))
               end;
       if truthy (symmetric_difference (items dims_) (dims cls))
       then Raise (ValueError WrongDims)
       else Ok (data, dims_),
       data)
  | NumpyInput shape | DaskInput shape =>
      (match dims_ with
       | None => Ok (DaskInput shape, PyTuple (dims cls))
       | Some dims_ =>
           if bool_decide (0 < size (symmetric_difference (items dims_) (dims cls)))
           then Raise (ValueError WrongDims)
           else Ok (DaskInput shape, dims_)
       end,
       data)
  | OtherInput => (Raise (ValueError UnsupportedDataType), data)
  end.

(** Lines 176-187: transpose if possible.  A [ValueError] of the library is
    re-raised as the parser's own. *)
Definition transpose_to_canonical (cls : RasterModel) (data : RasterInput) (dims_ : PySeq)
    : Result RasterInput :=
  if ne_tuple dims_ (dims cls) then
    match
      match data with
      | Labelled da => Labelled <$> DataArray_transpose da (dims cls)
      | DaskInput shape =>
          axes ← mapM (λ d, index d (items dims_)) (dims cls);
          DaskInput <$> dask_transpose shape axes
      | _ => Raise (ValueError UnsupportedDataType)
      end
    with
    | Raise (ValueError _) => Raise (ValueError CannotTranspose)
    | r => r
    end
  else Ok data.

(** Lines 189-207: conversion to a spatial image, to which the keyword
    arguments are handed on, transformations, multiscale. *)
Definition finish_parse (cls : RasterModel) (data : RasterInput)
    (transformations : option MappingToCoordinateSystem_t)
    (scale_factors : option (list positive)) (kwargs : list string)
    : Result RasterElement :=
  data ← to_spatial_image data (dims cls) kwargs;
  data ← run (_parse_transformations transformations) data;
  match scale_factors with
  | Some scale_factors =>
      parsed_transform ← _get_transformations data;
      data ← del_transform data;
      data ← to_multiscale data scale_factors;
      data ← run (_parse_transformations parsed_transform) data;
      Ok (compute_coordinates (MultiScale data))
  | None => Ok (compute_coordinates (SingleScale data))
  end.

(** [RasterSchema.parse] with its arguments [data], [dims], [transformations],
    [scale_factors] and the keyword arguments, models.py 108-207.  [kwargs]
    holds the keywords of the call that are not parameters of [parse], and
    is known by its keys; [method] and [chunks] only choose how the levels
    of a pyramid are computed and stored.  The second component is the
    caller's [data] object as the call leaves it. *)
Definition parse (cls : RasterModel) (data : RasterInput) (dims_ : option PySeq)
    (transformations : option MappingToCoordinateSystem_t)
    (scale_factors : option (list positive)) (kwargs : list string)
    : Result RasterElement * RasterInput :=
  if bool_decide ("name" ∈ kwargs) then (Raise (ValueError NameNotSupported), data)
  else
    let '(r, caller_data) := resolve_dims cls data dims_ in
    ('(data, dims_) ← r;
     data ← transpose_to_canonical cls data dims_;
     finish_parse cls data transformations scale_factors kwargs,
     caller_data).

(** The schema of a raster class, from its class attributes: [dims] is a
    [DimsSchema] of the class's dims, [array_type] is
    [ArrayTypeSchema(DaskArray)], [attrs] asks for the key ["transform"].
    [DataArraySchema.validate] of [xarray_schema] checks them in this
    order. *)
Definition DataArraySchema_validate (cls : RasterModel) (da : DataArray) : Result unit :=
  if bool_decide (da_dims da ≠ dims cls) then Raise SchemaError
  else if bool_decide (da_transform da = None) then Raise SchemaError
  else match da_data da with
       | DaskArray => Ok tt
       | NumpyArray => Raise SchemaError
       end.

(** [RasterSchema.validate], the [SpatialImage] register (lines 227-229);
    an array that is not a [SpatialImage] falls to the default (line 225). *)
Definition validate_SpatialImage (cls : RasterModel) (data : DataArray) : Result unit :=
  if da_spatial_image data then DataArraySchema_validate cls data
  else Raise (ValueError UnsupportedDataType).

(** [RasterSchema.validate], the [MultiscaleSpatialImage] register (lines
    231-241). *)
Definition validate_MultiscaleSpatialImage (cls : RasterModel)
    (data : MultiscaleSpatialImage) : Result unit :=
  let data := children data in
  _ ← mapM (λ jk : string * string,
              if bool_decide (jk.1 ≠ jk.2)
              then Raise (ValueError WrongMultiscaleKey) else Ok tt)
           (zip (keys data) (scale_key <$> seq 0 (length (keys data))));
  names ← mapM (λ i, ds ← getitem data i; first (keys ds)) (keys data);
  let name : gset string := list_to_set names in
  if bool_decide (1 < size name) then Raise (ValueError WrongDatatreeName)
  else
    name ← first (elements name);
    _ ← mapM (λ d, ds ← getitem data d;
                   da ← getitem ds name;
                   DataArraySchema_validate cls da)
             (keys data);
    Ok tt.

(** [validate] dispatches on the type of the element. *)
Definition validate (cls : RasterModel) (data : RasterElement) : Result unit :=
  match data with
  | SingleScale image => validate_SpatialImage cls image
  | MultiScale image => validate_MultiscaleSpatialImage cls image
  end.

End RasterSchema.

(** ** Shapes *)

(** The geometry types of shapely ([GeometryType], codes 0 to 7). *)
Inductive GeometryType :=
  | POINT
  | LINESTRING
  | LINEARRING
  | POLYGON
  | MULTIPOINT
  | MULTILINESTRING
  | MULTIPOLYGON
  | GEOMETRYCOLLECTION.

(** [GeometryType(code)]. *)
Definition GeometryType_of_code (code : Z) : Result GeometryType :=
  match code with
  | 0 => Ok POINT
  | 1 => Ok LINESTRING
  | 2 => Ok LINEARRING
  | 3 => Ok POLYGON
  | 4 => Ok MULTIPOINT
  | 5 => Ok MULTILINESTRING
  | 6 => Ok MULTIPOLYGON
  | 7 => Ok GEOMETRYCOLLECTION
  | _ => Raise (ValueError LibraryValueError)
  end%Z.

(** A column of a data frame: a [GeoSeries] of geometries, each known by its
    type (its coordinates are read by no operation here), or a plain series
    of numbers. *)
Inductive Column :=
  | GeoSeries (values : list GeometryType)
  | Series (values : list Z).

Definition column_length (c : Column) : nat :=
  match c with
  | GeoSeries values => length values
  | Series values => length values
  end.

(** A [GeoDataFrame]: its columns by name, the labels of its rows (its
    index, modelled for integer labels: the default index [0, 1, ...] of a
    fresh frame, or what is left of it after rows are selected or
    reordered), and of [attrs] the entry under ["transform"]. *)
Record GeoDataFrame := {
  columns : gmap string Column;
  row_labels : list Z;
  attrs_transform : option MappingToCoordinateSystem_t;
}.

(** The number of rows. *)
Definition n_rows (df : GeoDataFrame) : nat := length (row_labels df).

(** The default index of a frame of [n] rows. *)
Definition RangeIndex (n : nat) : list Z := Z.of_nat <$> seq 0 n.

(** [series[label]] on a series with integer row labels looks the label
    up: a label that no row carries is a [KeyError], a label that one row
    carries gives the value of that row, a label that several rows carry
    gives the series of their values. *)
Inductive Located (A : Type) :=
  | Scalar (v : A)
  | SubSeries (vs : list A).
Arguments Scalar {A} v.
Arguments SubSeries {A} vs.

Definition loc {A} (label : Z) (labels : list Z) (values : list A) : Result (Located A) :=
  match (filter (λ lv : Z * A, lv.1 = label) (zip labels values)).*2 with
  | [] => Raise KeyError
  | [v] => Ok (Scalar v)
  | vs => Ok (SubSeries vs)
  end.

(** Modelled from the spec: the [GeoDataFrame] register of
    [_get_transformations] / [_set_transformations]. *)
Global Instance GeoDataFrame_element : SpatialElement GeoDataFrame := {
  _get_transformations e := Ok (attrs_transform e);
  _set_transformations e t :=
    Ok {| columns := columns e; row_labels := row_labels e; attrs_transform := Some t |};
}.

(** [isinstance(g, (Polygon, MultiPolygon, Point))]. *)
Definition supported (g : GeometryType) : bool :=
  match g with
  | POLYGON | MULTIPOLYGON | POINT => true
  | _ => false
  end.

Definition is_Point (g : GeometryType) : bool :=
  match g with POINT => true | _ => false end.

(** [GeoDataFrame({"geometry": geoms})]. *)
Definition new_GeoDataFrame (geoms : list GeometryType) : GeoDataFrame :=
  {| columns := {[ "geometry" := GeoSeries geoms ]};
     row_labels := RangeIndex (length geoms);
     attrs_transform := None |}.

(** [df[key] = values]: pandas refuses values whose length is not the
    number of rows. *)
Definition setitem (key : string) (values : list Z) (df : GeoDataFrame) : Result GeoDataFrame :=
  if bool_decide (length values = n_rows df) then
    Ok {| columns := <[ key := Series values ]> (columns df);
          row_labels := row_labels df;
          attrs_transform := attrs_transform df |}
  else Raise (ValueError LibraryValueError).

(** The number of offsets arrays by which shapely lays out the geometries
    of a type over a flat array of coordinates. *)
Definition n_offsets (geometry_type : GeometryType) : option nat :=
  match geometry_type with
  | LINESTRING | MULTIPOINT => Some 1
  | POLYGON | MULTILINESTRING => Some 2
  | MULTIPOLYGON => Some 3
  | _ => None
  end.

(** [from_ragged_array(geometry_type, coords, offsets)] of shapely.  Points
    take no offsets (an assertion) and are one per row of [coords], whose
    rows hold two or three numbers.  For the other types that have a ragged
    layout the offsets arrays are passed on as positional arguments, a
    [TypeError] when they are [None] or not as many as the type needs; the
    last of them delimits the geometries, one less than it has entries.
    That the library refuses coordinates and offsets which describe no
    geometry of the type is not represented. *)
Definition from_ragged_array (geometry_type : GeometryType) (coords : list (list Z))
    (offsets : option (list (list nat))) : Result (list GeometryType) :=
  match geometry_type with
  | POINT =>
      if bool_decide (offsets = None ∨ offsets = Some []) then
        if bool_decide (Forall (λ row, length row = 2) coords
                        ∨ Forall (λ row, length row = 3) coords)
        then Ok (replicate (length coords) POINT)
        else Raise (ValueError LibraryValueError)
      else Raise AssertionError
  | LINESTRING | POLYGON | MULTIPOINT | MULTILINESTRING | MULTIPOLYGON =>
      match offsets with
      | None => Raise TypeError
      | Some offsets =>
          if bool_decide (Some (length offsets) ≠ n_offsets geometry_type)
          then Raise TypeError
          else
            match last offsets with
            | Some (_ :: geom_offsets) =>
                Ok (replicate (length geom_offsets) geometry_type)
            | _ => Raise (ValueError LibraryValueError)
            end
      end
  | _ => Raise (ValueError LibraryValueError)
  end.

(** What [from_geojson] gives for the bytes of a file: a geometry
    collection or a single geometry. *)
Inductive GeoJSON :=
  | Collection (geoms : list GeometryType)
  | Geometry (g : GeometryType).

Module ShapesModel.

Definition GEOMETRY_KEY : string := "geometry".
Definition RADIUS_KEY : string := "radius".

(** [ShapesModel.validate], lines 313-328. *)
Definition validate (data : GeoDataFrame) : Result unit :=
  match columns data !! GEOMETRY_KEY with
  | None => Raise KeyError
  | Some (Series _) => Raise (ValueError GeometryNotGeoSeries)
  | Some (GeoSeries values) =>
      match values with
      | [] => Raise IndexError            (* [.values[0]] *)
      | geom_ :: _ =>
          if negb (supported geom_) then Raise (ValueError GeometryKindUnsupported)
          else if is_Point geom_ && bool_decide (columns data !! RADIUS_KEY = None)
          then Raise (ValueError RadiusColumnNotFound)
          else if bool_decide (attrs_transform data = None)
          then Raise (ValueError TransformNotInAttrs)
          else Ok tt
      end
  end.

(** The rest of the two registers that build a fresh frame, from the
    assignment of the radius on: lines 384-390 and 410-416. *)
Definition finish_parse (is_point : bool) (radius : option (list Z))
    (transformations : option MappingToCoordinateSystem_t) (geo_df : GeoDataFrame)
    : Result GeoDataFrame :=
  geo_df ← (if is_point then
              match radius with
              | None => Raise (ValueError RadiusMustBeProvided)
              | Some radius => setitem RADIUS_KEY radius geo_df
              end
            else Ok geo_df);
  geo_df ← run (_parse_transformations transformations) geo_df;
  _ ← validate geo_df;
  Ok geo_df.

(** [ShapesModel.parse], the [np.ndarray] register (lines 371-390). *)
Definition parse_ndarray (data : list (list Z)) (geometry : Z)
    (offsets : option (list (list nat))) (radius : option (list Z))
    (transformations : option MappingToCoordinateSystem_t) : Result GeoDataFrame :=
  geometry ← GeometryType_of_code geometry;
  data ← from_ragged_array geometry data offsets;
  finish_parse (is_Point geometry) radius transformations (new_GeoDataFrame data).

(** [ShapesModel.parse], the [str] / [Path] register (lines 392-416); [data]
    is the content of the file as [from_geojson] reads it.
    [geo_df["geometry"][0]] looks up the row labelled 0. *)
Definition parse_path (data : GeoJSON) (radius : option (list Z))
    (transformations : option MappingToCoordinateSystem_t) : Result GeoDataFrame :=
  match data with
  | Geometry _ => Raise (ValueError NotAGeometryCollection)
  | Collection geoms =>
      match geoms with
      | [] => Raise KeyError
      | g :: _ => finish_parse (is_Point g) radius transformations (new_GeoDataFrame geoms)
      end
  end.

(** [ShapesModel.parse], the [GeoDataFrame] register (lines 418-432): the
    frame is checked and annotated in place.  [data["geometry"][0]] looks
    up the row labelled 0, which need not be the first row, and need not
    be there.  The second component is the caller's frame as the call
    leaves it. *)
Definition parse_GeoDataFrame
    (transformations : option MappingToCoordinateSystem_t) : Py GeoDataFrame unit :=
  data ← py_get;
  match columns data !! GEOMETRY_KEY with
  | None => py_raise (ValueError GeometryColumnNotFound)
  | Some column =>
      first_is_point ← py_lift (match column with
                                | GeoSeries values =>
                                    g ← loc 0 (row_labels data) values;
                                    Ok (match g with
                                        | Scalar g => is_Point g
                                        | SubSeries _ => false
                                        end)
                                | Series values =>
                                    _ ← loc 0 (row_labels data) values;
                                    Ok false
                                end);
      if first_is_point && bool_decide (columns data !! RADIUS_KEY = None)
      then py_raise (ValueError RadiusColumnNotFound)
      else
        _ ← _parse_transformations transformations;
        data ← py_get;
        py_lift (validate data)
  end.

End ShapesModel.

(** ** Points *)

Inductive DType := Float32 | Float64 | Int64 | Category | OtherDType.

(** A dask [DataFrame]: the dtype of each column, and of [attrs] the
    entries under ["transform"] and ["spatialdata_attrs"]. *)
Record DaskDataFrame := {
  df_columns : gmap string DType;
  df_transform : option MappingToCoordinateSystem_t;
  df_spatialdata_attrs : option (gmap string string);
}.


(** Modelled from the spec: the [DaskDataFrame] register of
    [_get_transformations] / [_set_transformations]. *)
Global Instance DaskDataFrame_element : SpatialElement DaskDataFrame := {
  _get_transformations e := Ok (df_transform e);
  _set_transformations e t :=
    Ok {| df_columns := df_columns e; df_transform := Some t;
          df_spatialdata_attrs := df_spatialdata_attrs e |};
}.

Module PointsModel.

Definition FEATURE_KEY : string := "feature_key".
Definition INSTANCE_KEY : string := "instance_key".

Definition numeric (t : DType) : bool :=
  match t with Float32 | Float64 | Int64 => true | _ => false end.

(** [data[key]], read for its dtype. *)
Definition column (data : DaskDataFrame) (key : string) : Result DType :=
  match df_columns data !! key with
  | Some t => Ok t
  | None => Raise KeyError
  end.

(** [PointsModel.validate], lines 442-459.  The messages logged for columns
    that are not categorical leave no trace. *)
Definition validate (data : DaskDataFrame) : Result unit :=
  _ ← mapM (λ ax, match df_columns data !! ax with
                  | Some t => if numeric t then Ok tt else Raise AssertionError
                  | None => Ok tt
                  end) [X; Y; Z_];
  if bool_decide (df_transform data = None) then Raise (ValueError TransformNotInAttrs)
  else
    match df_spatialdata_attrs data with
    | Some attrs =>
        _ ← match attrs !! FEATURE_KEY with
            | Some feature_key => _ ← column data feature_key; Ok tt
            | None => Ok tt
            end;
        match attrs !! INSTANCE_KEY with
        | Some instance_key => _ ← column data instance_key; Ok tt
        | None => Ok tt
        end
    | None => Ok tt
    end.

Definition set_spatialdata_attrs (a : gmap string string) (data : DaskDataFrame) : DaskDataFrame :=
  {| df_columns := df_columns data; df_transform := df_transform data;
     df_spatialdata_attrs := Some a |}.

(** [PointsModel._add_metadata_and_validate], lines 578-599, on the table
    that the registers of [parse] have built. *)
Definition _add_metadata_and_validate (data : DaskDataFrame)
    (feature_key instance_key : option string)
    (transformations : option MappingToCoordinateSystem_t) : Result DaskDataFrame :=
  let data := if bool_decide (feature_key ≠ None ∨ instance_key ≠ None)
              then set_spatialdata_attrs ∅ data else data in
  data ← match feature_key with
         | Some feature_key =>
             if bool_decide (df_columns data !! feature_key = None) then Raise AssertionError
             else Ok (set_spatialdata_attrs
                        (<[ FEATURE_KEY := feature_key ]> (default ∅ (df_spatialdata_attrs data)))
                        data)
         | None => Ok data
         end;
  data ← match instance_key with
         | Some instance_key =>
             if bool_decide (df_columns data !! instance_key = None) then Raise AssertionError
             else Ok (set_spatialdata_attrs
                        (<[ INSTANCE_KEY := instance_key ]> (default ∅ (df_spatialdata_attrs data)))
                        data)
         | None => Ok data
         end;
  data ← run (_parse_transformations transformations) data;
  _ ← validate data;
  Ok data.

(** [table[key] = series]. *)
Definition assign (key : string) (t : DType) (table : DaskDataFrame) : DaskDataFrame :=
  {| df_columns := <[ key := t ]> (df_columns table); df_transform := df_transform table;
     df_spatialdata_attrs := df_spatialdata_attrs table |}.

(** [PointsModel.parse], the register for data frames, in the branch of a
    dask [DataFrame] (lines 541-576).  [data[[...]]] selects the coordinate
    columns into a new frame, which keeps the [attrs] of [data]; the columns
    are renamed to the axes. *)
Definition parse_DaskDataFrame (data : DaskDataFrame)
    (coordinates : gmap string string) (feature_key instance_key : option string)
    (transformations : option MappingToCoordinateSystem_t) : Result DaskDataFrame :=
  let ndim := size coordinates in
  let axes := take ndim [X; Y; Z_] in
  selected ← mapM (λ ax, match coordinates !! ax with
                         | Some c => t ← column data c; Ok (ax, t)
                         | None => Raise KeyError
                         end) axes;
  let table := {| df_columns := list_to_map selected;
                  df_transform := df_transform data;
                  df_spatialdata_attrs := df_spatialdata_attrs data |} in
  table ← match feature_key with
          | Some feature_key =>
              t ← column data feature_key;
              Ok (match t with
                  | Category => table
                  | _ => assign feature_key Category table
                  end)
          | None => Ok table
          end;
  table ← match instance_key with
          | Some instance_key =>
              t ← column data instance_key;
              Ok (assign instance_key t table)
          | None => Ok table
          end;
  let others :=
    filter (λ kt : string * DType,
              Some kt.1 ≠ feature_key ∧ Some kt.1 ≠ instance_key
              ∧ kt.1 ∉ (map_to_list coordinates).*2)
           (map_to_list (df_columns data)) in
  let table := foldr (λ kt, assign kt.1 kt.2) table others in
  _add_metadata_and_validate table feature_key instance_key transformations.

(** A numpy array, known by its shape and its dtype, and a pandas
    [DataFrame], known by the dtype of each column. *)
Record NDArray := {
  nd_shape : list nat;
  nd_dtype : DType;
}.

(** [annotation[key]], read for its dtype. *)
Definition annotation_column (annotation : gmap string DType) (key : string) : Result DType :=
  match annotation !! key with
  | Some t => Ok t
  | None => Raise KeyError
  end.

(** [table[c] = annotation[c]] for every [c] of [cs]. *)
Definition copy_columns (cs : list (string * DType)) (table : DaskDataFrame) : DaskDataFrame :=
  foldr (λ kt, assign kt.1 kt.2) table cs.

(** [PointsModel.parse], the [np.ndarray] register (lines 509-539).  The
    table is built from the array, one column per axis, with the dtype of
    the array; pandas refuses an array with more columns than there are
    axis names.  The keyword arguments only set the partitions of the
    table, which are not represented. *)
Definition parse_ndarray (data : NDArray) (annotation : option (gmap string DType))
    (feature_key instance_key : option string)
    (transformations : option MappingToCoordinateSystem_t) : Result DaskDataFrame :=
  match nd_shape data with
  | [_; ndim] =>
      let axes := take ndim [X; Y; Z_] in
      if bool_decide (ndim ≠ length axes) then Raise (ValueError LibraryValueError)
      else
        let table := {| df_columns := list_to_map ((λ ax, (ax, nd_dtype data)) <$> axes);
                        df_transform := None;
                        df_spatialdata_attrs := None |} in
        match annotation with
        | Some annotation =>
            table ← match feature_key with
                    | Some feature_key =>
                        _ ← annotation_column annotation feature_key;
                        Ok (assign feature_key Category table)
                    | None => Ok table
                    end;
            table ← match instance_key with
                    | Some instance_key =>
                        t ← annotation_column annotation instance_key;
                        Ok (assign instance_key t table)
                    | None => Ok table
                    end;
            let others :=
              filter (λ kt : string * DType,
                        Some kt.1 ≠ feature_key ∧ Some kt.1 ≠ instance_key)
                     (map_to_list annotation) in
            _add_metadata_and_validate (copy_columns others table)
              feature_key instance_key transformations
        | None => _add_metadata_and_validate table None None transformations
        end
  | _ => Raise AssertionError
  end.

End PointsModel.

(** ** Tables *)

(** The values that [region], [region_key] and [instance_key] take, as
    arguments and as entries of the metadata block: [None], a string, a list
    of strings, or a value of another type. *)
Inductive PyVal :=
  | VNone
  | VStr (s : string)
  | VList (l : list string)
  | VOther.

Global Instance PyVal_eq_dec : EqDecision PyVal.
Proof. solve_decision. Defined.

(** A column of [adata.obs]: its values and whether its dtype is
    categorical. *)
Record ObsColumn := {
  obs_values : list string;
  categorical : bool;
}.

(** An [AnnData] table: the columns of [obs] and the blocks of [uns]. *)
Record AnnData := {
  obs : gmap string ObsColumn;
  uns : gmap string (gmap string PyVal);
}.

Module TableModel.

Definition ATTRS_KEY : string := "spatialdata_attrs".
Definition REGION_KEY : string := "region".
Definition REGION_KEY_KEY : string := "region_key".
Definition INSTANCE_KEY : string := "instance_key".

(** [d[k]] on a dict. *)
Definition dict_getitem {A} (d : gmap string A) (k : string) : Result A :=
  match d !! k with
  | Some v => Ok v
  | None => Raise KeyError
  end.

(** [adata.obs[key]]; a key that is not a string names no column. *)
Definition obs_getitem (adata : AnnData) (key : PyVal) : Result ObsColumn :=
  match key with
  | VStr k => dict_getitem (obs adata) k
  | _ => Raise KeyError
  end.

(** [pd.Categorical(column)] *)
Definition Categorical (c : ObsColumn) : ObsColumn :=
  {| obs_values := obs_values c; categorical := true |}.

Definition set_obs (k : string) (c : ObsColumn) (adata : AnnData) : AnnData :=
  {| obs := <[ k := c ]> (obs adata); uns := uns adata |}.

Definition set_uns (k : string) (d : gmap string PyVal) (adata : AnnData) : AnnData :=
  {| obs := obs adata; uns := <[ k := d ]> (uns adata) |}.

(** The metadata block that [parse] writes. *)
Definition attr_of (region region_key instance_key : PyVal) : gmap string PyVal :=
  {[ REGION_KEY := region; REGION_KEY_KEY := region_key; INSTANCE_KEY := instance_key ]}.

(** [TableModel.parse], lines 629-674; the table is annotated in place. *)
Definition parse (region region_key instance_key : PyVal) : Py AnnData unit :=
  adata ← py_get;
  let n_args := length (filter (λ v, v ≠ VNone) [region; region_key; instance_key]) in
  '(region, region_key, instance_key) ←
    (if bool_decide (0 < n_args) then
       if bool_decide (is_Some (uns adata !! ATTRS_KEY))
       then py_raise (ValueError EitherArgumentsOrUns)
       else mret (region, region_key, instance_key)
     else
       match uns adata !! ATTRS_KEY with
       | Some attr =>
           region ← py_lift (dict_getitem attr REGION_KEY);
           region_key ← py_lift (dict_getitem attr REGION_KEY_KEY);
           instance_key ← py_lift (dict_getitem attr INSTANCE_KEY);
           mret (region, region_key, instance_key)
       | None => mret (region, region_key, instance_key)
       end);
  _ ← match region with
      | VStr _ =>
          if bool_decide (region_key ≠ VNone) then py_raise (ValueError RegionKeyRedundant)
          else if bool_decide (instance_key = VNone)
          then py_raise (ValueError InstanceKeyMustBeProvided)
          else mret tt
      | VList region =>
          if bool_decide (region_key = VNone) then py_raise (ValueError RegionKeyMustBeProvided)
          else
            column ← py_lift (obs_getitem adata region_key);
            if negb (forallb (λ v, bool_decide (v ∈ region)) (obs_values column))
            then py_raise (ValueError RegionValuesDoNotMatch)
            else
              _ ← (if negb (categorical column) then
                     match region_key with
                     | VStr k => py_put (set_obs k (Categorical column) adata)
                     | _ => mret tt
                     end
                   else mret tt);
              if bool_decide (instance_key = VNone)
              then py_raise (ValueError InstanceKeyMustBeProvided)
              else mret tt
      | VNone => mret tt
      | VOther => py_raise (ValueError RegionWrongType)
      end;
  adata ← py_get;
  py_put (set_uns ATTRS_KEY (attr_of region region_key instance_key) adata).

(** [TableModel.validate], lines 608-627. *)
Definition validate (data : AnnData) : Result unit :=
  match uns data !! ATTRS_KEY with
  | Some attr =>
      match attr !! REGION_KEY with
      | None => Raise (ValueError RegionNotInAttrs)
      | Some (VList _) =>
          if bool_decide (attr !! REGION_KEY_KEY = None)
          then Raise (ValueError RegionKeyNotInAttrs)
          else if bool_decide (attr !! INSTANCE_KEY = None)
          then Raise (ValueError InstanceKeyNotInAttrs)
          else Ok tt
      | Some (VStr _) =>
          region_key ← dict_getitem attr REGION_KEY_KEY;
          if bool_decide (region_key ≠ VNone) then Raise AssertionError
          else if bool_decide (attr !! INSTANCE_KEY = None)
          then Raise (ValueError InstanceKeyNotInAttrs)
          else Ok tt
      | Some _ => Ok tt
      end
  | None => Ok tt
  end.

End TableModel.

(** The laws that the registers of [_get_transformations] and
    [_set_transformations] obey: what has been set is what is read, and an
    element that took a mapping takes another one. *)
Class LawfulElement (E : Type) `{SpatialElement E} := {
  get_set (e e' : E) t :
    _set_transformations e t = Ok e' → _get_transformations e' = Ok (Some t);
  set_set (e e' : E) t t' :
    _set_transformations e t = Ok e' → is_ok (_set_transformations e' t') = true;
}.

(** ** The schema of an element *)

(** What [get_schema] is given: a raster element, a [GeoDataFrame], a dask
    [DataFrame], an [AnnData], or an object of another type. *)
Inductive Element :=
  | Raster (e : RasterElement)
  | Shapes (e : GeoDataFrame)
  | Points (e : DaskDataFrame)
  | Table (e : AnnData)
  | OtherElement.

(** [Schema_t]: the model classes. *)
Inductive Schema_t :=
  | RasterSchema_ (cls : RasterModel)
  | ShapesModel_
  | PointsModel_
  | TableModel_.

Section get_schema.

(** [get_dims] is imported from [core_utils.py], which is not among the
    sources: [get_schema] is modelled over any function that reads the axes
    of a raster element, or raises. *)
Variable get_dims : RasterElement → Result (list string).

(** [get_schema], lines 718-747.  A labelled array that is not a
    [SpatialImage] is of none of the types that are tested. *)
Definition get_schema (e : Element) : Result Schema_t :=
  let _validate_and_return (schema : Schema_t) (r : Result unit) : Result Schema_t :=
    _ ← r; Ok schema in
  match e with
  | Raster e =>
      if match e with SingleScale image => negb (da_spatial_image image) | _ => false end
      then Raise TypeError
      else
        axes ← get_dims e;
        if bool_decide ("c" ∈ axes) then
          if bool_decide ("z" ∈ axes)
          then _validate_and_return (RasterSchema_ Image3DModel)
                 (RasterSchema.validate Image3DModel e)
          else _validate_and_return (RasterSchema_ Image2DModel)
                 (RasterSchema.validate Image2DModel e)
        else
          if bool_decide ("z" ∈ axes)
          then _validate_and_return (RasterSchema_ Labels3DModel)
                 (RasterSchema.validate Labels3DModel e)
          else _validate_and_return (RasterSchema_ Labels2DModel)
                 (RasterSchema.validate Labels2DModel e)
  | Shapes e => _validate_and_return ShapesModel_ (ShapesModel.validate e)
  | Points e => _validate_and_return PointsModel_ (PointsModel.validate e)
  | Table e => _validate_and_return TableModel_ (TableModel.validate e)
  | OtherElement => Raise TypeError
  end.

End get_schema.

(** ** The assignment matrix *)

(** [var_names]: a list, or an array. *)
Inductive VarNames :=
  | NamesList (names : list string)
  | NamesArray (names : list string).

(** A categorical series: its categories and its values, [None] where the
    value is missing. *)
Record CategoricalSeries := {
  categories : list string;
  cat_values : list (option string);
}.

(** A sparse matrix of booleans: its shape and, in order, the positions of
    its entries. *)
Record csr_matrix := {
  csr_shape : nat * nat;
  csr_entries : list (nat * nat);
}.

(** [col[assignment == cat] = value]. *)
Definition set_where (cat : string) (value : nat) (values : list (option string))
    (col : list (option nat)) : list (option nat) :=
  zip_with (λ v c, if decide (v = Some cat) then Some value else c) values col.

(** The loop of lines 697-699 over the categories. *)
Fixpoint fill_columns (var_names : list string) (cats : list string)
    (values : list (option string)) (col : list (option nat))
    : Result (list (option nat)) :=
  match cats with
  | [] => Ok col
  | cat :: cats =>
      value ← index cat var_names;
      fill_columns var_names cats values (set_where cat value values col)
  end.

(** [csr_matrix((data, (row, col)), shape=...)] of scipy, for entries that
    are all [True]: the row numbers must be below the number of rows. *)
Definition new_csr_matrix (row col : list nat) (shape : nat * nat) : Result csr_matrix :=
  if bool_decide (Forall (λ i, i < shape.1) row ∧ Forall (λ j, j < shape.2) col)
  then Ok {| csr_shape := shape; csr_entries := zip row col |}
  else Raise (ValueError LibraryValueError).

(** [_sparse_matrix_from_assignment], lines 678-704. *)
Definition _sparse_matrix_from_assignment (n_obs : nat) (var_names : VarNames)
    (assignment : CategoricalSeries) : Result csr_matrix :=
  let n := length (cat_values assignment) in
  let row := seq 0 n in
  match var_names with
  | NamesList var_names =>
      col ← fill_columns var_names (categories assignment) (cat_values assignment)
             (replicate n None);
      if bool_decide (Exists (λ c, c = None) col) then Raise AssertionError
      else new_csr_matrix row (omap id col) (n_obs, length var_names)
  | NamesArray _ => Raise TypeError
  end.

(** ** The entry points that take an element *)

(** The registers of [parse] whose input is an object that can already carry
    a transformation mapping in its metadata, with their arguments other
    than [transformations]: [RasterSchema.parse] on a labelled array,
    [ShapesModel.parse] on a [GeoDataFrame], [PointsModel.parse] on a dask
    [DataFrame].  The other registers build their element from arrays or
    from a file, which carry no metadata, and [TableModel.parse] takes no
    transformations. *)
Inductive EntryPoint :=
  | Raster_parse (cls : RasterModel) (data : DataArray) (dims_ : option PySeq)
      (scale_factors : option (list positive)) (kwargs : list string)
  | Shapes_parse (data : GeoDataFrame)
  | Points_parse (data : DaskDataFrame) (coordinates : gmap string string)
      (feature_key instance_key : option string).

(** The mapping that the element of the call carries. *)
Definition carried (c : EntryPoint) : option MappingToCoordinateSystem_t :=
  match c with
  | Raster_parse _ data _ _ _ => da_transform data
  | Shapes_parse data => attrs_transform data
  | Points_parse data _ _ _ => df_transform data
  end.

(** The call, with [transformations]; of what it returns only the fact that
    it returned is kept. *)
Definition call (c : EntryPoint)
    (transformations : option MappingToCoordinateSystem_t) : Result unit :=
  match c with
  | Raster_parse cls data dims_ scale_factors kwargs =>
      _ ← (RasterSchema.parse cls (Labelled data) dims_ transformations
             scale_factors kwargs).1;
      Ok tt
  | Shapes_parse data => (ShapesModel.parse_GeoDataFrame transformations data).1
  | Points_parse data coordinates feature_key instance_key =>
      _ ← PointsModel.parse_DaskDataFrame data coordinates feature_key instance_key
             transformations;
      Ok tt
  end.

(** ** The dims of a raster input *)

(** The dims that lines 146-174 go on with: those passed, else those of a
    labelled array, else those of the model. *)
Definition resolved (cls : RasterModel) (data : RasterInput) (dims_ : option PySeq)
    : option (list string) :=
  match data with
  | Labelled da => Some (from_option items (da_dims da) dims_)
  | NumpyInput _ | DaskInput _ => Some (from_option items (dims cls) dims_)
  | OtherInput => None
  end.

(** The labels that the axes of the input have: its own if it is labelled,
    else the resolved ones; and its shape. *)
Definition axis_labels (data : RasterInput) (r : list string) : list string :=
  match data with
  | Labelled da => da_dims da
  | _ => r
  end.

Definition shape_of (data : RasterInput) : list nat :=
  match data with
  | Labelled da => da_shape da
  | NumpyInput shape | DaskInput shape => shape
  | OtherInput => []
  end.

(** The input has one label per axis; the labels of a labelled array are
    the resolved ones, up to their order. *)
Definition well_labelled (data : RasterInput) (r : list string) : Prop :=
  match data with
  | Labelled da => da_dims da ≡ₚ r ∧ length (da_shape da) = length (da_dims da)
  | NumpyInput shape | DaskInput shape => length shape = length r
  | OtherInput => False
  end.

(** Line 177 compares the dims passed, not those of the array, with those
    of the model.  This excludes the one case in which a labelled array that
    is not in the order of the model is not transposed: its dims are passed
    too, as the tuple of the model. *)
Definition transposed_by_own_labels (cls : RasterModel) (data : RasterInput)
    (dims_ : option PySeq) : Prop :=
  match data, dims_ with
  | Labelled da, Some d => ne_tuple d (dims cls) = true ∨ da_dims da = dims cls
  | _, _ => True
  end.

(** What lines 146-187 hand on to the conversion, for an input [data] with
    resolved dims [r]: an array in the order of the model, with the backing
    of dask and the metadata of the input, which has along each label the
    extent that the input has along it. *)
Definition in_canonical_order (cls : RasterModel) (data : RasterInput) (r : list string)
    (data' : RasterInput) : Prop :=
  match data' with
  | Labelled da =>
      da_dims da = dims cls ∧ da_data da = DaskArray
      ∧ da_transform da = match data with Labelled da0 => da_transform da0 | _ => None end
      ∧ length (da_shape da) = length (dims cls)
      ∧ ∀ d, extent (dims cls) (da_shape da) d
             = extent (axis_labels data r) (shape_of data) d
  | DaskInput shape =>
      match data with Labelled _ => False | _ => True end
      ∧ length shape = length (dims cls)
      ∧ ∀ d, extent (dims cls) shape d = extent (axis_labels data r) (shape_of data) d
  | _ => False
  end.

(** The product of the scale factors. *)
Definition product (scale_factors : list positive) : nat :=
  Pos.to_nat (foldr Pos.mul 1%positive scale_factors).

(** Every axis of the input but the channel axis has at least as many
    elements as the product of the scale factors: no level of the pyramid
    is left without an element along an axis. *)
Definition levels_fit (data : RasterInput) (r : list string)
    (scale_factors : option (list positive)) : Prop :=
  match scale_factors with
  | Some scale_factors =>
      ∀ d n, d ≠ C → extent (axis_labels data r) (shape_of data) d = Some n →
             (product scale_factors ≤ n)%nat
  | None => True
  end.

(** The mapping that the input carries. *)
Definition carried_by (data : RasterInput) : option MappingToCoordinateSystem_t :=
  match data with
  | Labelled da => da_transform da
  | _ => None
  end.

(** The image of an element: the image itself, or the variable of the
    first level of a pyramid. *)
Definition base_image (data : RasterElement) : option DataArray :=
  match data with
  | SingleScale image => Some image
  | MultiScale image =>
      match children image with
      | (_, (_, da) :: _) :: _ => Some da
      | _ => None
      end
  end.

(** ** The ragged array of points *)


(** ** Concrete inputs *)

(** A frame of one polygon, before and after the first call. *)
Definition one_polygon : GeoDataFrame := new_GeoDataFrame [POLYGON].

Definition default_mapping : MappingToCoordinateSystem_t :=
  {[ DEFAULT_COORDINATE_SYSTEM := Identity ]}.

Definition one_polygon_parsed : GeoDataFrame :=
  {| columns := columns one_polygon; row_labels := RangeIndex 1;
     attrs_transform := Some default_mapping |}.


(** A labelled 3 x 5 array with dims (y, x) that carries the default mapping. *)
Definition image_yx : DataArray :=
  {| da_spatial_image := true; da_dims := [Y; X]; da_shape := [3; 5];
     da_data := DaskArray; da_transform := Some default_mapping |}.

(** A table of points with columns x and y that carries the default mapping. *)
Definition points_xy : DaskDataFrame :=
  {| df_columns := {[ X := Float64; Y := Float64 ]};
     df_transform := Some default_mapping;
     df_spatialdata_attrs := None |}.

Definition my_space : MappingToCoordinateSystem_t := {[ "my_space0" := Identity ]}.


(** [data] with the geometry column replaced by [values]. *)
Definition with_geometry (values : list GeometryType) (data : GeoDataFrame) : GeoDataFrame :=
  {| columns := <[ ShapesModel.GEOMETRY_KEY := GeoSeries values ]> (columns data);
     row_labels := RangeIndex (length values);
     attrs_transform := attrs_transform data |}.

(** A frame with a geometry column of no row, which carries a mapping. *)
Definition empty_frame : GeoDataFrame :=
  {| columns := {[ ShapesModel.GEOMETRY_KEY := GeoSeries [] ]}; row_labels := RangeIndex 0;
     attrs_transform := Some default_mapping |}.

(** A frame of a polygon and a line string, and a frame of a polygon and a
    point without a radius column; both carry a mapping. *)
Definition polygon_then_linestring : GeoDataFrame :=
  with_geometry [POLYGON; LINESTRING] one_polygon_parsed.

Definition polygon_then_point : GeoDataFrame :=
  with_geometry [POLYGON; POINT] one_polygon_parsed.


(** A table with a column of regions, not categorical, and no metadata
    block; and the same table with the block that a parse without
    arguments writes. *)
Definition table_ab : AnnData :=
  {| obs := {[ "annotated_region" :=
                 {| obs_values := ["sample1"; "sample2"; "sample1"]; categorical := false |} ]};
     uns := ∅ |}.

Definition no_linkage : gmap string PyVal := TableModel.attr_of VNone VNone VNone.

Definition table_ab_parsed : AnnData :=
  {| obs := obs table_ab; uns := {[ TableModel.ATTRS_KEY := no_linkage ]} |}.


(** A labelled 3 x 5 array on a numpy array, with dims that no raster model
    has. *)
Definition image_ab : DataArray :=
  {| da_spatial_image := false; da_dims := ["a"; "b"]; da_shape := [3; 5];
     da_data := NumpyArray; da_transform := None |}.






(** A labelled 3 x 5 array that the schema of 2D labels accepts, and a
    pyramid of one level that holds it next to a second variable. *)
Definition labels_yx : DataArray :=
  {| da_spatial_image := true; da_dims := [Y; X]; da_shape := [3; 5];
     da_data := DaskArray; da_transform := Some default_mapping |}.

Definition two_variables : MultiscaleSpatialImage :=
  {| children := [("scale0", [("image", labels_yx); ("extra", image_ab)])] |}.

Definition one_level : MultiscaleSpatialImage :=
  {| children := [("scale0", [("image", labels_yx)])] |}.


(** A labelled 3 x 5 array with dims (x, y): 3 along x, 5 along y. *)
Definition image_xy : DataArray :=
  {| da_spatial_image := false; da_dims := [X; Y]; da_shape := [3; 5];
     da_data := NumpyArray; da_transform := None |}.


(** A labelled 16 x 8 array with dims (x, y). *)
Definition image_xy_16 : DataArray :=
  {| da_spatial_image := false; da_dims := [X; Y]; da_shape := [16; 8];
     da_data := NumpyArray; da_transform := None |}.


(** A call without keyword arguments. *)
Definition no_kwargs : list string := [].


(** * Properties *)

(** ** Attaching transformations *)

Lemma non_empty_Some (m : MappingToCoordinateSystem_t) :
  non_empty (Some m) = true ↔ 0 < size m.
Proof. unfold non_empty. apply bool_decide_eq_true. Qed.

Lemma non_empty_parsed_transformations m t :
  0 < size (parsed_transformations m t).
Proof.
  unfold parsed_transformations.
  destruct (non_empty m) eqn:Hm.
  - destruct m as [m|]; [|done]. by apply non_empty_Some.
  - destruct (non_empty t) eqn:Ht.
    + destruct t as [t|]; [|done]. by apply non_empty_Some.
    + rewrite map_size_singleton. lia.
Qed.

Section parse_transformations.
Context `{SpatialElement E}.

(** The three outcomes of [_parse_transformations], spelled out. *)
Lemma _parse_transformations_eq t (e : E) :
  _parse_transformations t e =
    match _get_transformations e with
    | Raise err => (Raise err, e)
    | Ok m =>
        if non_empty m && non_empty t
        then (Raise (ValueError TransformationsTwice), e)
        else match _set_transformations e (parsed_transformations m t) with
             | Ok e' => (Ok tt, e')
             | Raise err => (Raise err, e)
             end
    end.
Proof.
  unfold _parse_transformations, mbind, Py_bind, py_bind, py_lift, py_get,
    py_raise, py_put; simpl.
  destruct (_get_transformations e) as [m|err]; [|done].
  destruct (non_empty m && non_empty t); [done|].
  by destruct (_set_transformations e _).
Qed.

Lemma _parse_transformations_twice t m (e : E) :
  _get_transformations e = Ok (Some m) → 0 < size m → 0 < size t →
  _parse_transformations (Some t) e = (Raise (ValueError TransformationsTwice), e).
Proof.
  intros Hget Hm Ht. rewrite _parse_transformations_eq, Hget.
  apply non_empty_Some in Hm, Ht. by rewrite Hm, Ht.
Qed.

Lemma run_parse_transformations_eq t (e : E) :
  run (_parse_transformations t) e =
    match _get_transformations e with
    | Raise err => Raise err
    | Ok m =>
        if non_empty m && non_empty t
        then Raise (ValueError TransformationsTwice)
        else _set_transformations e (parsed_transformations m t)
    end.
Proof.
  unfold run. rewrite _parse_transformations_eq.
  destruct (_get_transformations e) as [m|]; [|done].
  destruct (non_empty m && non_empty t); [done|].
  by destruct (_set_transformations e _).
Qed.

Lemma run_parse_transformations_twice t m (e : E) :
  _get_transformations e = Ok (Some m) → 0 < size m → 0 < size t →
  run (_parse_transformations (Some t)) e = Raise (ValueError TransformationsTwice).
Proof.
  intros. unfold run. by erewrite _parse_transformations_twice.
Qed.
End parse_transformations.

Global Instance SpatialImage_lawful : LawfulElement DataArray.
Proof.
  split; simpl.
  - intros e e' t. destruct (da_spatial_image e) eqn:He; [|done].
    intros [= <-]. simpl. by rewrite He.
  - intros e e' t t'. destruct (da_spatial_image e) eqn:He; [|done].
    intros [= <-]. simpl. by rewrite He.
Qed.

Global Instance GeoDataFrame_lawful : LawfulElement GeoDataFrame.
Proof. split; simpl; [by intros e e' t [= <-] | done]. Qed.

Global Instance DaskDataFrame_lawful : LawfulElement DaskDataFrame.
Proof. split; simpl; [by intros e e' t [= <-] | done]. Qed.

Lemma set_levels_again full t i l l' full' t' :
  set_levels full t i l = Ok l' → is_ok (set_levels full' t' i l') = true.
Proof.
  revert i l'. induction l as [|[k ds] l IH]; intros i l'; simpl.
  - by intros [= <-].
  - case_bool_decide as Hk; [done|].
    destruct ds as [|[name xdata] [|]]; try done.
    destruct (set_levels full t (S i) l) as [l0|] eqn:Hl; [|done].
    simpl. intros [= <-]. simpl.
    rewrite bool_decide_eq_false_2 by (intros Hne; by apply Hne).
    specialize (IH _ _ Hl). by destruct (set_levels full' t' (S i) l0).
Qed.

Global Instance MultiscaleSpatialImage_lawful : LawfulElement MultiscaleSpatialImage.
Proof.
  split; simpl.
  - intros [l] [l'] t; simpl.
    destruct (getitem l "scale0") as [d|] eqn:Hd; [|done]. simpl.
    destruct d as [|[n xdata] [|]]; try done.
    destruct l as [|[k ds] l]; [done|]. simpl.
    case_bool_decide as Hk; [done|].
    destruct ds as [|[name x] [|]]; try done.
    destruct (set_levels _ t 1 l) as [l0|]; [|done]. simpl.
    intros [= <-]. simpl.
    subst k.
    by rewrite decide_True by done.
  - intros [l] [l'] t t'; simpl.
    destruct (getitem l "scale0") as [d|] eqn:Hd; [|done]. simpl.
    destruct d as [|[n xdata] [|]]; try done.
    destruct (set_levels _ t 0 l) as [l0|] eqn:Hl; [|done]. simpl.
    intros [= <-].
    destruct l as [|[k ds] l]; [done|]. simpl in Hl.
    case_bool_decide as Hk; [done|].
    destruct ds as [|[name x] [|]]; try done.
    destruct (set_levels _ t 1 l) as [l1|] eqn:Hl1; [|done]. simpl in Hl.
    injection Hl as <-. subst k.
    change (scale_key 0) with "scale0" in *. simpl.
    pose proof (set_levels_again _ _ _ _ _ (da_shape (set_da_transform (Some t) x)) t' Hl1) as Hok.
    simpl in Hok. by destruct (set_levels _ t' 1 l1).
Qed.

(** After a call that returned, the element holds a mapping, and the
    mapping is not empty. *)
Lemma _parse_transformations_attaches `{LawfulElement E} (e e' : E) t :
  run (_parse_transformations t) e = Ok e' →
  ∃ m e0, _set_transformations e0 m = Ok e' ∧ _get_transformations e' = Ok (Some m)
          ∧ 0 < size m.
Proof.
  unfold run. rewrite _parse_transformations_eq.
  destruct (_get_transformations e) as [m|]; [|done].
  destruct (non_empty m && non_empty t); [done|].
  destruct (_set_transformations e _) as [e1|] eqn:Hset; [|done].
  intros [= <-]. eexists _, e. split; [done|]. split.
  - by eapply get_set.
  - apply non_empty_parsed_transformations.
Qed.

(** C7, counterexample.  A first call attaches the default mapping to a
    frame of one polygon; the mapping now stored is read back; the second
    call, passing that very mapping, raises. *)
Lemma C7_counterexample :
  run (_parse_transformations None) one_polygon = Ok one_polygon_parsed
  ∧ _get_transformations one_polygon_parsed = Ok (Some default_mapping)
  ∧ run (_parse_transformations (Some default_mapping)) one_polygon_parsed
    = Raise (ValueError TransformationsTwice).
Proof. repeat split; reflexivity. Qed.

(** C7, amended.  After a first call has attached a mapping, the element
    holds a non-empty mapping [m]; a further call that passes no mapping
    ([None] or an empty one) returns and leaves [m] in the metadata; a
    further call that passes [m] itself raises the [ValueError] of the
    double specification and leaves the element as it is. *)
Theorem C7_reparse_after_first_call `{LawfulElement E} (e e' : E) t :
  run (_parse_transformations t) e = Ok e' →
  ∃ m, _get_transformations e' = Ok (Some m) ∧ 0 < size m
       ∧ (∀ t', non_empty t' = false →
            ∃ e'', run (_parse_transformations t') e' = Ok e''
                   ∧ _get_transformations e'' = Ok (Some m))
       ∧ _parse_transformations (Some m) e'
         = (Raise (ValueError TransformationsTwice), e').
Proof.
  intros Hrun.
  destruct (_parse_transformations_attaches _ _ _ Hrun) as (m & e0 & Hset & Hget & Hm).
  exists m. repeat split; [done..| |].
  - intros t' Ht'. unfold run. rewrite _parse_transformations_eq, Hget, Ht'.
    rewrite andb_false_r.
    assert (parsed_transformations (Some m) t' = m) as ->.
    { unfold parsed_transformations.
      by rewrite (proj2 (non_empty_Some m) Hm). }
    pose proof (set_set _ _ _ m Hset) as Hok.
    destruct (_set_transformations e' m) as [e''|] eqn:Hset'; [|done].
    exists e''. split; [done|]. by eapply get_set.
  - by eapply _parse_transformations_twice.
Qed.

Lemma C7_reparse_after_first_call_witness :
  run (_parse_transformations None) one_polygon = Ok one_polygon_parsed
  ∧ ∃ m, _get_transformations one_polygon_parsed = Ok (Some m) ∧ 0 < size m
       ∧ (∀ t', non_empty t' = false →
            ∃ e'', run (_parse_transformations t') one_polygon_parsed = Ok e''
                   ∧ _get_transformations e'' = Ok (Some m))
       ∧ _parse_transformations (Some m) one_polygon_parsed
         = (Raise (ValueError TransformationsTwice), one_polygon_parsed).
Proof.
  split; [reflexivity|].
  apply (C7_reparse_after_first_call one_polygon one_polygon_parsed None).
  reflexivity.
Defined.

(** ** Raster: the transformation metadata on the way through [parse] *)

Lemma resolve_dims_Labelled cls da dims_ :
  ∃ r, RasterSchema.resolve_dims cls (Labelled da) dims_
       = (r, Labelled (set_da_data DaskArray da))
       ∧ ((∃ why, r = Raise (ValueError why))
          ∨ ∃ d, r = Ok (Labelled (set_da_data DaskArray da), d)).
Proof.
  unfold RasterSchema.resolve_dims. eexists; split; [done|].
  destruct dims_ as [d|]; simpl.
  - destruct (truthy (symmetric_difference (items d) (da_dims da))); simpl; [eauto|].
    destruct (truthy _); eauto.
  - destruct (truthy _); eauto.
Qed.

Lemma transpose_to_canonical_Labelled cls da d :
  RasterSchema.transpose_to_canonical cls (Labelled da) d = Raise (ValueError CannotTranspose)
  ∨ ∃ da', RasterSchema.transpose_to_canonical cls (Labelled da) d = Ok (Labelled da')
           ∧ da_transform da' = da_transform da.
Proof.
  unfold RasterSchema.transpose_to_canonical, DataArray_transpose.
  destruct (ne_tuple d (dims cls)); [|eauto].
  case_bool_decide; simpl; eauto.
Qed.

Lemma to_spatial_image_Labelled da d kwargs :
  (∃ e, to_spatial_image (Labelled da) d kwargs = Raise e)
  ∨ ∃ da', to_spatial_image (Labelled da) d kwargs = Ok da'
           ∧ da_spatial_image da' = true ∧ da_transform da' = da_transform da.
Proof.
  unfold to_spatial_image. repeat case_bool_decide; simpl; eauto.
Qed.

Lemma finish_parse_twice cls da t sf kwargs m :
  da_transform da = Some m → 0 < size m → 0 < size t →
  (∃ e, RasterSchema.finish_parse cls (Labelled da) (Some t) sf kwargs = Raise e)
  ∧ (is_ok (RasterSchema.finish_parse cls (Labelled da) None sf kwargs) = true →
     RasterSchema.finish_parse cls (Labelled da) (Some t) sf kwargs
     = Raise (ValueError TransformationsTwice)).
Proof.
  intros Hda Hm Ht. unfold RasterSchema.finish_parse.
  destruct (to_spatial_image_Labelled da (dims cls) kwargs)
    as [[e ->]|(da' & -> & Hsi & Htr)]; simpl; [split; [eauto|done]|].
  rewrite (run_parse_transformations_twice t m); [simpl; eauto| |done..].
  simpl. by rewrite Hsi, Htr, Hda.
Qed.

Lemma raster_parse_twice cls da dims_ t sf kwargs m :
  da_transform da = Some m → 0 < size m → 0 < size t →
  (∃ e, (RasterSchema.parse cls (Labelled da) dims_ (Some t) sf kwargs).1 = Raise e)
  ∧ (is_ok (RasterSchema.parse cls (Labelled da) dims_ None sf kwargs).1 = true →
     (RasterSchema.parse cls (Labelled da) dims_ (Some t) sf kwargs).1
     = Raise (ValueError TransformationsTwice)).
Proof.
  intros Hda Hm Ht. unfold RasterSchema.parse.
  case_bool_decide; [simpl; split; [eauto|done]|].
  destruct (resolve_dims_Labelled cls da dims_) as (r & -> & [[why ->]|[d ->]]);
    simpl; [split; [eauto|done]|].
  destruct (transpose_to_canonical_Labelled cls (set_da_data DaskArray da) d)
    as [->|(da' & -> & Htr)]; simpl; [split; [eauto|done]|].
  apply (finish_parse_twice _ _ _ _ _ m); [|done..]. by rewrite Htr.
Qed.

(** ** Shapes and points: a mapping in the metadata and one passed *)

Lemma shapes_parse_twice (data : GeoDataFrame) t m :
  attrs_transform data = Some m → 0 < size m → 0 < size t →
  (∃ e, ShapesModel.parse_GeoDataFrame (Some t) data = (Raise e, data))
  ∧ (is_ok (ShapesModel.parse_GeoDataFrame None data).1 = true →
     ShapesModel.parse_GeoDataFrame (Some t) data
     = (Raise (ValueError TransformationsTwice), data)).
Proof.
  intros Hda Hm Ht.
  assert (_parse_transformations (Some t) data
          = (Raise (ValueError TransformationsTwice), data)) as Htwice.
  { apply (_parse_transformations_twice t m); [|done..]. simpl. by rewrite Hda. }
  unfold ShapesModel.parse_GeoDataFrame, mbind, Py_bind, py_bind, py_get, py_lift,
    py_raise; simpl.
  destruct (columns data !! ShapesModel.GEOMETRY_KEY) as [column|]; [|split; [eauto|done]].
  destruct (match column with GeoSeries _ => _ | Series _ => _ end) as [b|];
    simpl; [|split; [eauto|done]].
  destruct (b && _); [split; [eauto|done]|].
  rewrite Htwice. split; [eauto|done].
Qed.

Lemma df_transform_foldr_assign (l : list (string * DType)) table :
  df_transform (foldr (λ kt, PointsModel.assign kt.1 kt.2) table l) = df_transform table.
Proof. induction l as [|kt l IH]; [done|]. simpl. apply IH. Qed.

Lemma _add_metadata_and_validate_twice table fk ik t m :
  df_transform table = Some m → 0 < size m → 0 < size t →
  (∃ e, PointsModel._add_metadata_and_validate table fk ik (Some t) = Raise e)
  ∧ (is_ok (PointsModel._add_metadata_and_validate table fk ik None) = true →
     PointsModel._add_metadata_and_validate table fk ik (Some t)
     = Raise (ValueError TransformationsTwice)).
Proof.
  intros Hda Hm Ht. unfold PointsModel._add_metadata_and_validate.
  set (data0 := if bool_decide _ then _ else table).
  assert (df_transform data0 = Some m) as H0 by (subst data0; by case_bool_decide).
  clearbody data0.
  set (s1 := match fk with Some _ => _ | None => _ end).
  assert (match s1 with Ok d => df_transform d = Some m | Raise _ => True end) as H1.
  { subst s1. destruct fk; [|done]. by case_bool_decide. }
  destruct s1 as [data1|]; simpl; [|split; [eauto|done]].
  set (s2 := match ik with Some _ => _ | None => _ end).
  assert (match s2 with Ok d => df_transform d = Some m | Raise _ => True end) as H2.
  { subst s2. destruct ik; [|done]. by case_bool_decide. }
  destruct s2 as [data2|]; simpl; [|split; [eauto|done]].
  rewrite (run_parse_transformations_twice t m); [|simpl; by rewrite H2|done..].
  simpl. eauto.
Qed.

Lemma points_parse_twice data coordinates fk ik t m :
  df_transform data = Some m → 0 < size m → 0 < size t →
  (∃ e, PointsModel.parse_DaskDataFrame data coordinates fk ik (Some t) = Raise e)
  ∧ (is_ok (PointsModel.parse_DaskDataFrame data coordinates fk ik None) = true →
     PointsModel.parse_DaskDataFrame data coordinates fk ik (Some t)
     = Raise (ValueError TransformationsTwice)).
Proof.
  intros Hda Hm Ht. unfold PointsModel.parse_DaskDataFrame.
  destruct (mapM _ _) as [selected|]; simpl; [|split; [eauto|done]].
  set (table0 := {| df_columns := list_to_map selected |}).
  assert (df_transform table0 = Some m) as H0 by done.
  clearbody table0.
  set (s1 := match fk with Some _ => _ | None => _ end).
  assert (match s1 with Ok d => df_transform d = Some m | Raise _ => True end) as H1.
  { subst s1. destruct fk as [k|]; [|done].
    destruct (PointsModel.column data k) as [[]|]; done. }
  destruct s1 as [table1|]; simpl; [|split; [eauto|done]].
  set (s2 := match ik with Some _ => _ | None => _ end).
  assert (match s2 with Ok d => df_transform d = Some m | Raise _ => True end) as H2.
  { subst s2. destruct ik as [k|]; [|done].
    destruct (PointsModel.column data k); done. }
  destruct s2 as [table2|]; simpl; [|split; [eauto|done]].
  apply (_add_metadata_and_validate_twice _ _ _ _ m); [|done..].
  by rewrite df_transform_foldr_assign.
Qed.

(** C1, counterexample.  The error of a parse with two mappings is not
    always a [ValueError]: a check that comes before the mappings are
    compared may raise first.  A frame whose geometry column has no row has
    no row labelled 0, so that line 427 raises [KeyError] before line 430 is
    reached; a labelled array parsed with a keyword that the conversion
    takes from the parser itself raises [TypeError] at line 190, before
    line 192. *)
Lemma C1_counterexample :
  carried (Shapes_parse empty_frame) = Some default_mapping
  ∧ carried (Raster_parse Labels2DModel image_yx None None ["array_like"])
    = Some default_mapping
  ∧ 0 < size default_mapping ∧ 0 < size my_space
  ∧ call (Shapes_parse empty_frame) (Some my_space) = Raise KeyError
  ∧ call (Raster_parse Labels2DModel image_yx None None ["array_like"]) (Some my_space)
    = Raise TypeError.
Proof.
  split; [reflexivity|]. split; [reflexivity|].
  split; [unfold default_mapping; rewrite map_size_singleton; lia|].
  split; [unfold my_space; rewrite map_size_singleton; lia|].
  split; reflexivity.
Qed.

(** C1, amended.  For every entry point that takes an element: when the
    element carries a non-empty mapping in its metadata and a non-empty
    mapping is passed as well, the call raises; and whenever the same call
    without the [transformations] argument returns, what is raised is the
    [ValueError] of the double specification.  When the call without the
    argument raises too, the error may be the one of an earlier check. *)
Theorem C1_transformations_specified_twice (c : EntryPoint)
    (m t : MappingToCoordinateSystem_t) :
  carried c = Some m → 0 < size m → 0 < size t →
  (∃ e, call c (Some t) = Raise e)
  ∧ (is_ok (call c None) = true →
     call c (Some t) = Raise (ValueError TransformationsTwice)).
Proof.
  intros Hc Hm Ht. destruct c as [cls da d sf kw|data|data co fk ik]; simpl in *.
  - destruct (raster_parse_twice cls da d t sf kw m Hc Hm Ht) as [[e Hr] Hok].
    rewrite Hr. split; [eauto|].
    intros H. rewrite Hr in Hok. rewrite Hok; [done|].
    by destruct (RasterSchema.parse cls (Labelled da) d None sf kw).1.
  - destruct (shapes_parse_twice data t m Hc Hm Ht) as [[e Hr] Hok].
    rewrite Hr. split; [eauto|]. intros H. rewrite (Hok H) in Hr. by injection Hr as <-.
  - destruct (points_parse_twice data co fk ik t m Hc Hm Ht) as [[e Hr] Hok].
    rewrite Hr. split; [eauto|].
    intros H. rewrite Hr in Hok. rewrite Hok; [done|].
    by destruct (PointsModel.parse_DaskDataFrame data co fk ik None).
Qed.

(** The same on a labelled array and on a table of points that carry the
    default mapping. *)
Example raster_specified_twice :
  call (Raster_parse Labels2DModel image_yx None None no_kwargs) None = Ok tt
  ∧ call (Raster_parse Labels2DModel image_yx None None no_kwargs) (Some my_space)
    = Raise (ValueError TransformationsTwice).
Proof. split; reflexivity. Qed.

Example points_specified_twice :
  call (Points_parse points_xy {[ X := X; Y := Y ]} None None) None = Ok tt
  ∧ call (Points_parse points_xy {[ X := X; Y := Y ]} None None) (Some my_space)
    = Raise (ValueError TransformationsTwice).
Proof. split; vm_compute; reflexivity. Qed.

Lemma C1_transformations_specified_twice_witness :
  (carried (Shapes_parse one_polygon_parsed) = Some default_mapping
   ∧ 0 < size default_mapping ∧ 0 < size my_space)
  ∧ (∃ e, call (Shapes_parse one_polygon_parsed) (Some my_space) = Raise e)
  ∧ call (Shapes_parse one_polygon_parsed) (Some my_space)
    = Raise (ValueError TransformationsTwice).
Proof.
  assert (0 < size default_mapping ∧ 0 < size my_space) as [H1 H2].
  { unfold default_mapping, my_space. rewrite !map_size_singleton. lia. }
  split; [done|].
  destruct (C1_transformations_specified_twice (Shapes_parse one_polygon_parsed)
              default_mapping my_space eq_refl H1 H2) as [Hfails Htwice].
  split; [done|]. apply Htwice. reflexivity.
Defined.

(** ** Shapes: validation *)

(** C10.  [ShapesModel.validate] reads the first row of the geometry column
    without a check that there is one: on a frame whose geometry column has
    no row it raises [IndexError], whatever else the frame holds; on a frame
    with rows, the rows after the first do not matter: replacing them leaves
    the outcome as it is. *)
Theorem C10_validate_reads_first_row (data : GeoDataFrame) (values : list GeometryType) :
  columns data !! ShapesModel.GEOMETRY_KEY = Some (GeoSeries values) →
  match values with
  | [] => ShapesModel.validate data = Raise IndexError
  | g :: _ =>
      ∀ rest, ShapesModel.validate (with_geometry (g :: rest) data)
              = ShapesModel.validate data
  end.
Proof.
  intros Hcol. unfold ShapesModel.validate. rewrite Hcol.
  destruct values as [|g values]; [done|].
  intros rest. simpl. rewrite lookup_insert_eq.
  by rewrite lookup_insert_ne.
Qed.

Lemma C10_validate_reads_first_row_witness :
  columns empty_frame !! ShapesModel.GEOMETRY_KEY = Some (GeoSeries [])
  ∧ ShapesModel.validate empty_frame = Raise IndexError.
Proof.
  split; [reflexivity|].
  apply (C10_validate_reads_first_row empty_frame []). reflexivity.
Defined.

(** C8, counterexample.  A frame whose second row is a line string, and a
    frame that mixes a polygon with a point, are both accepted. *)
Lemma C8_counterexample :
  (columns polygon_then_linestring !! ShapesModel.GEOMETRY_KEY
   = Some (GeoSeries [POLYGON; LINESTRING])
   ∧ supported LINESTRING = false
   ∧ ShapesModel.validate polygon_then_linestring = Ok tt)
  ∧ (columns polygon_then_point !! ShapesModel.GEOMETRY_KEY
     = Some (GeoSeries [POLYGON; POINT])
     ∧ ShapesModel.validate polygon_then_point = Ok tt).
Proof. repeat split; reflexivity. Qed.

(** C8, amended.  [ShapesModel.validate] accepts a frame only if the first
    row of its geometry column is a Point, a Polygon or a MultiPolygon: a
    frame whose first geometry is of another kind is refused with the
    [ValueError] of the unsupported kind.  The rows after the first are not
    looked at. *)
Theorem C8_validate_first_row_supported (data : GeoDataFrame) :
  (ShapesModel.validate data = Ok tt →
   ∃ g rest, columns data !! ShapesModel.GEOMETRY_KEY = Some (GeoSeries (g :: rest))
             ∧ supported g = true)
  ∧ (∀ g rest, columns data !! ShapesModel.GEOMETRY_KEY = Some (GeoSeries (g :: rest)) →
               supported g = false →
               ShapesModel.validate data = Raise (ValueError GeometryKindUnsupported)).
Proof.
  unfold ShapesModel.validate. split.
  - destruct (columns data !! ShapesModel.GEOMETRY_KEY) as [[[|g rest]|]|]; try done.
    destruct (supported g) eqn:Hg; [|done]. eauto.
  - intros g rest -> Hg. by rewrite Hg.
Qed.

Lemma C8_validate_first_row_supported_witness :
  columns (with_geometry [LINESTRING; POLYGON] one_polygon_parsed)
    !! ShapesModel.GEOMETRY_KEY = Some (GeoSeries [LINESTRING; POLYGON])
  ∧ supported LINESTRING = false
  ∧ ShapesModel.validate (with_geometry [LINESTRING; POLYGON] one_polygon_parsed)
    = Raise (ValueError GeometryKindUnsupported).
Proof.
  split; [reflexivity|]. split; [reflexivity|].
  apply (proj2 (C8_validate_first_row_supported
                  (with_geometry [LINESTRING; POLYGON] one_polygon_parsed))
           LINESTRING [POLYGON]); reflexivity.
Defined.

(** ** Shapes: points and their radius *)

Lemma finish_parse_no_radius t geo_df :
  ShapesModel.finish_parse true None t geo_df = Raise (ValueError RadiusMustBeProvided).
Proof. done. Qed.

Lemma length_RangeIndex n : length (RangeIndex n) = n.
Proof. unfold RangeIndex. by rewrite length_fmap, length_seq. Qed.

Lemma n_rows_new_GeoDataFrame geoms : n_rows (new_GeoDataFrame geoms) = length geoms.
Proof. apply length_RangeIndex. Qed.








(** ** Tables *)

Ltac unfold_py :=
  unfold mbind, mret, Py_bind, Py_ret, py_bind, py_ret, py_get, py_put, py_lift,
    py_raise in *.

(** [TableModel.parse] on a table without a metadata block, when [region]
    is a list. *)
Lemma TableModel_parse_list adata l k column instance_key :
  uns adata !! TableModel.ATTRS_KEY = None →
  obs adata !! k = Some column →
  TableModel.parse (VList l) (VStr k) instance_key adata =
    if negb (forallb (λ v, bool_decide (v ∈ l)) (obs_values column))
    then (Raise (ValueError RegionValuesDoNotMatch), adata)
    else
      let adata1 := if categorical column then adata
                    else TableModel.set_obs k (TableModel.Categorical column) adata in
      if bool_decide (instance_key = VNone)
      then (Raise (ValueError InstanceKeyMustBeProvided), adata1)
      else (Ok tt, TableModel.set_uns TableModel.ATTRS_KEY
                     (TableModel.attr_of (VList l) (VStr k) instance_key) adata1).
Proof.
  intros Huns Hobs. unfold TableModel.parse. unfold_py. simpl.
  rewrite Huns. simpl. unfold TableModel.dict_getitem. rewrite Hobs. simpl.
  destruct (forallb _ _); simpl; [|done].
  destruct (categorical column); simpl; by case_bool_decide.
Qed.

(** C3, counterexample.  A table that already has a metadata block (here the
    block of a parse without arguments) is refused when the triple is
    passed, although the column of regions holds members of [region] only
    and [instance_key] is given. *)
Lemma C3_counterexample :
  obs table_ab_parsed !! "annotated_region"
    = Some {| obs_values := ["sample1"; "sample2"; "sample1"]; categorical := false |}
  ∧ Forall (λ v, v ∈ ["sample1"; "sample2"]) ["sample1"; "sample2"; "sample1"]
  ∧ TableModel.parse (VList ["sample1"; "sample2"]) (VStr "annotated_region")
      (VStr "instance_id") table_ab_parsed
    = (Raise (ValueError EitherArgumentsOrUns), table_ab_parsed).
Proof.
  split; [reflexivity|]. split; [|reflexivity].
  repeat constructor; set_solver.
Qed.

(** With an argument given, a table that has a metadata block is refused. *)
Lemma TableModel_parse_list_block adata l region_key instance_key :
  is_Some (uns adata !! TableModel.ATTRS_KEY) →
  TableModel.parse (VList l) region_key instance_key adata
  = (Raise (ValueError EitherArgumentsOrUns), adata).
Proof.
  intros Huns. unfold TableModel.parse. unfold_py. simpl.
  by rewrite bool_decide_eq_true_2.
Qed.

Lemma forallb_elem_of (l values : list string) :
  forallb (λ v, bool_decide (v ∈ l)) values = true ↔ Forall (λ v, v ∈ l) values.
Proof.
  rewrite forallb_forall, Forall_forall. split; intros H v Hv.
  - eapply bool_decide_eq_true, H. by apply list_elem_of_In.
  - apply bool_decide_eq_true, H. by apply list_elem_of_In.
Qed.

(** C3, amended.  For [TableModel.parse] with [region] given as a list: if
    [region_key] is [None] the parse raises; if the observation column
    named by [region_key] holds a value that is not in [region] the parse
    raises; and when the table has no metadata block yet, [region_key]
    names an observation column whose values are all members of [region],
    and [instance_key] is given, the parse returns and the metadata block
    read afterwards is exactly the triple passed in. *)
Theorem C3_region_list (adata : AnnData) (l : list string) (instance_key : PyVal) :
  (∃ why, (TableModel.parse (VList l) VNone instance_key adata).1
          = Raise (ValueError why))
  ∧ (∀ k column v,
       obs adata !! k = Some column → v ∈ obs_values column → v ∉ l →
       ∃ why, (TableModel.parse (VList l) (VStr k) instance_key adata).1
              = Raise (ValueError why))
  ∧ (∀ k column,
       uns adata !! TableModel.ATTRS_KEY = None →
       obs adata !! k = Some column →
       Forall (λ v, v ∈ l) (obs_values column) →
       instance_key ≠ VNone →
       ∃ adata', TableModel.parse (VList l) (VStr k) instance_key adata = (Ok tt, adata')
                 ∧ uns adata' !! TableModel.ATTRS_KEY
                   = Some (TableModel.attr_of (VList l) (VStr k) instance_key)).
Proof.
  repeat apply conj.
  - destruct (uns adata !! TableModel.ATTRS_KEY) as [attr|] eqn:Huns.
    + rewrite TableModel_parse_list_block by (rewrite Huns; eauto). eauto.
    + unfold TableModel.parse. unfold_py. simpl.
      rewrite Huns. rewrite bool_decide_eq_false_2 by (by intros [? ?]).
      simpl. eauto.
  - intros k column v Hobs Hv Hl.
    destruct (uns adata !! TableModel.ATTRS_KEY) as [attr|] eqn:Huns.
    + rewrite TableModel_parse_list_block by (rewrite Huns; eauto). eauto.
    + rewrite (TableModel_parse_list _ _ _ column) by done.
      destruct (forallb _ _) eqn:Hall; simpl; [|eauto].
      apply forallb_elem_of in Hall. rewrite Forall_forall in Hall.
      destruct Hl. by apply Hall.
  - intros k column Huns Hobs Hall Hik.
    rewrite (TableModel_parse_list _ _ _ column) by done.
    apply forallb_elem_of in Hall. rewrite Hall. simpl.
    rewrite bool_decide_eq_false_2 by done.
    eexists. split; [done|]. simpl. by rewrite lookup_insert_eq.
Qed.

Lemma C3_region_list_witness :
  (uns table_ab !! TableModel.ATTRS_KEY = None
   ∧ obs table_ab !! "annotated_region"
     = Some {| obs_values := ["sample1"; "sample2"; "sample1"]; categorical := false |}
   ∧ Forall (λ v, v ∈ ["sample1"; "sample2"]) ["sample1"; "sample2"; "sample1"]
   ∧ VStr "instance_id" ≠ VNone)
  ∧ ∃ adata',
      TableModel.parse (VList ["sample1"; "sample2"]) (VStr "annotated_region")
        (VStr "instance_id") table_ab = (Ok tt, adata')
      ∧ uns adata' !! TableModel.ATTRS_KEY
        = Some (TableModel.attr_of (VList ["sample1"; "sample2"])
                  (VStr "annotated_region") (VStr "instance_id")).
Proof.
  assert (Forall (λ v, v ∈ ["sample1"; "sample2"]) ["sample1"; "sample2"; "sample1"])
    as Hall by (repeat constructor; set_solver).
  split; [by repeat split|].
  apply (proj2 (proj2 (C3_region_list table_ab ["sample1"; "sample2"]
                         (VStr "instance_id")))
           "annotated_region"
           {| obs_values := ["sample1"; "sample2"; "sample1"]; categorical := false |});
    done.
Defined.

(** C6, counterexample.  On a table without a metadata block, the parse
    without arguments returns a table that has one. *)
Lemma C6_counterexample :
  uns table_ab !! TableModel.ATTRS_KEY = None
  ∧ TableModel.parse VNone VNone VNone table_ab = (Ok tt, table_ab_parsed)
  ∧ uns table_ab_parsed !! TableModel.ATTRS_KEY = Some no_linkage.
Proof. repeat split; reflexivity. Qed.

(** C6, amended.  For [TableModel.parse] called with [region], [region_key]
    and [instance_key] all [None] on a table without a metadata block, the
    parse returns; the table is as before but for the metadata block, which
    is now present and records [None] for the region, the region key and
    the instance key; [TableModel.validate] accepts the table. *)
Theorem C6_no_region (adata : AnnData) :
  uns adata !! TableModel.ATTRS_KEY = None →
  ∃ adata',
    TableModel.parse VNone VNone VNone adata = (Ok tt, adata')
    ∧ obs adata' = obs adata
    ∧ uns adata' = <[ TableModel.ATTRS_KEY := TableModel.attr_of VNone VNone VNone ]> (uns adata)
    ∧ TableModel.validate adata' = Ok tt.
Proof.
  intros Huns. unfold TableModel.parse. unfold_py. simpl. rewrite Huns.
  eexists. split; [done|]. split; [done|]. split; [done|].
  unfold TableModel.validate. simpl. by rewrite lookup_insert_eq.
Qed.

Lemma C6_no_region_witness :
  uns table_ab !! TableModel.ATTRS_KEY = None
  ∧ ∃ adata',
      TableModel.parse VNone VNone VNone table_ab = (Ok tt, adata')
      ∧ obs adata' = obs table_ab
      ∧ uns adata' = <[ TableModel.ATTRS_KEY := TableModel.attr_of VNone VNone VNone ]>
                       (uns table_ab)
      ∧ TableModel.validate adata' = Ok tt.
Proof. split; [reflexivity|]. apply (C6_no_region table_ab). reflexivity. Defined.

(** ** What a failing parse leaves behind *)








(** ** Lists of calls, ordered dictionaries, level names *)

Section mapM.
Context {A B : Type}.
Implicit Types (f g : A → Result B) (l : list A).

Lemma mapM_Ok f l r :
  mapM f l = Ok r ↔ Forall2 (λ x y, f x = Ok y) l r.
Proof.
  revert r. induction l as [|x l IH]; intros r; simpl.
  - split; [intros [= <-]; constructor | by inversion 1].
  - split.
    + destruct (f x) as [y|] eqn:Hx; [|done]. simpl.
      destruct (mapM f l) as [k|] eqn:Hl; [|done]. simpl.
      intros [= <-]. constructor; [done|]. by apply IH.
    + inversion 1 as [|? y ? k Hx Hl]; subst. rewrite Hx. simpl.
      apply IH in Hl. by rewrite Hl.
Qed.

Lemma mapM_ext_in f g l :
  (∀ x, x ∈ l → f x = g x) → mapM f l = mapM g l.
Proof.
  induction l as [|x l IH]; intros Hfg; [done|]. simpl.
  rewrite (Hfg x) by left. rewrite IH; [done|].
  intros y Hy. apply Hfg. by right.
Qed.

Lemma mapM_fmap {A'} (h : A' → A) f (l : list A') :
  mapM f (h <$> l) = mapM (f ∘ h) l.
Proof.
  induction l as [|x l IH]; [done|]. csimpl.
  destruct (f (h x)); simpl; [|done]. f_equal. apply IH.
Qed.
End mapM.

(** A list of checks returns exactly when each check does. *)
Lemma mapM_unit_Ok {A} (f : A → Result unit) l :
  (∃ r, mapM f l = Ok r) ↔ Forall (λ x, f x = Ok tt) l.
Proof.
  split.
  - intros [r Hr]. apply mapM_Ok in Hr.
    induction Hr as [|x [] l r Hx _ IH]; by constructor.
  - intros Hall. exists (replicate (length l) tt). apply mapM_Ok.
    induction Hall; simpl; by constructor.
Qed.

Lemma getitem_elem_of {A} (d : list (string * A)) k v :
  NoDup (keys d) → (k, v) ∈ d → getitem d k = Ok v.
Proof.
  unfold keys. induction d as [|[k' v'] d IH]; simpl; [by inversion 2|].
  rewrite NoDup_cons. intros [Hk' Hd]. rewrite elem_of_cons.
  intros [[= -> ->]|Hin].
  - by rewrite decide_True.
  - rewrite decide_False; [by apply IH|].
    intros ->. apply Hk'. apply list_elem_of_fmap. by exists (k, v).
Qed.

(** A loop over the keys that looks each key up is a loop over the
    entries. *)
Lemma mapM_keys_getitem {A B} (d : list (string * A)) (f : A → Result B) :
  NoDup (keys d) →
  mapM (λ k, v ← getitem d k; f v) (keys d) = mapM (λ kv, f kv.2) d.
Proof.
  intros Hd. unfold keys at 1. rewrite mapM_fmap. apply mapM_ext_in.
  intros [k v] Hkv. simpl. by rewrite (getitem_elem_of d k v).
Qed.

Lemma to_uint_nonnil n : Nat.to_uint n ≠ Decimal.Nil.
Proof.
  rewrite <- (DecimalNat.Unsigned.of_to n), DecimalNat.Unsigned.to_of.
  apply DecimalFacts.unorm_nonnil.
Qed.

Global Instance scale_key_inj : Inj (=) (=) scale_key.
Proof.
  intros i j Hij. unfold scale_key in Hij. cbv [String.append] in Hij.
  injection Hij as Hij.
  apply DecimalNat.Unsigned.to_uint_inj.
  pose proof (NilZero.usu _ (to_uint_nonnil i)) as Hi.
  pose proof (NilZero.usu _ (to_uint_nonnil j)) as Hj.
  rewrite Hij in Hi. congruence.
Qed.

Lemma NoDup_scale_keys n : NoDup (scale_key <$> seq 0 n).
Proof. apply (NoDup_fmap_2 _), NoDup_seq. Qed.

(** The check of the level names (line 233-235) passes exactly when the
    names are [scale0], [scale1], ... in this order. *)
Lemma level_names_Ok (ks : list string) :
  (∃ r, mapM (λ jk : string * string,
                if bool_decide (jk.1 ≠ jk.2)
                then Raise (ValueError WrongMultiscaleKey) else Ok tt)
             (zip ks (scale_key <$> seq 0 (length ks))) = Ok r)
  ↔ ks = scale_key <$> seq 0 (length ks).
Proof.
  rewrite mapM_unit_Ok.
  generalize 0. induction ks as [|k ks IH]; intros i; simpl.
  - split; [done|constructor].
  - rewrite Forall_cons, IH. simpl. split.
    + intros [Hk Hks]. case_bool_decide as Hne; [done|]. by f_equal.
    + intros [= Hk Hks]. split; [|done].
      by rewrite bool_decide_eq_false_2 by (intros Hne; by apply Hne).
Qed.

(** ** Raster: validation of a multiscale image *)

Lemma first_Ok {A} (l : list A) x : first l = Ok x ↔ ∃ l', l = x :: l'.
Proof.
  destruct l as [|y l]; simpl; split; try done.
  - by intros [? ?].
  - intros [= ->]. eauto.
  - by intros [l' [= -> ->]].
Qed.

Lemma list_to_set_replicate (name : string) n :
  list_to_set (replicate (S n) name) =@{gset string} {[ name ]}.
Proof.
  induction n as [|n IH]; simpl in *.
  - by rewrite (right_id_L ∅ (∪)).
  - rewrite IH. by rewrite (idemp_L (∪)).
Qed.

Lemma first_keys_Ok (ds : Dataset) name :
  first (keys ds) = Ok name ↔ ∃ da rest, ds = (name, da) :: rest.
Proof.
  destruct ds as [|[n da] rest]; simpl; split; try done.
  - by intros (? & ? & ?).
  - intros [= ->]. eauto.
  - by intros (? & ? & [= -> _ _]).
Qed.

(** C4, counterexample.  A pyramid whose only level exposes two data
    variables is accepted. *)
Lemma C4_counterexample :
  RasterSchema.validate_MultiscaleSpatialImage Labels2DModel two_variables = Ok tt
  ∧ (length <$> getitem (children two_variables) "scale0") = Ok 2.
Proof. split; reflexivity. Qed.

(** When the validation of a multiscale element returns. *)
Lemma validate_MultiscaleSpatialImage_Ok cls (data : MultiscaleSpatialImage) :
  RasterSchema.validate_MultiscaleSpatialImage cls data = Ok tt ↔
    keys (children data) = scale_key <$> seq 0 (length (children data))
    ∧ children data ≠ []
    ∧ ∃ name, Forall (λ level : string * Dataset,
                        ∃ da rest, level.2 = (name, da) :: rest
                                   ∧ RasterSchema.DataArraySchema_validate cls da = Ok tt)
                     (children data).
Proof.
  unfold RasterSchema.validate_MultiscaleSpatialImage.
  destruct data as [l]. simpl.
  assert (length (keys l) = length l) as Hlen by (unfold keys; by rewrite length_fmap).
  rewrite Hlen. split.
  - destruct (mapM _ (zip _ _)) as [u|] eqn:H1; [|done]. simpl.
    assert (keys l = scale_key <$> seq 0 (length l)) as Hkeys.
    { rewrite <- Hlen. apply level_names_Ok. rewrite Hlen. eauto. }
    assert (NoDup (keys l)) as Hnodup by (rewrite Hkeys; apply NoDup_scale_keys).
    rewrite !mapM_keys_getitem by done.
    match goal with
    | |- context [mapM ?f l] => destruct (mapM f l) as [names|] eqn:H2; [|done]
    end. simpl.
    case_bool_decide as Hsize; [done|].
    destruct (first _) as [name|] eqn:H3; [|done]. simpl.
    rewrite mapM_keys_getitem by done.
    match goal with
    | |- context [mapM ?f l] => destruct (mapM f l) as [u'|] eqn:H4; [|done]
    end. intros _.
    apply mapM_Ok in H2.
    apply first_Ok in H3 as [rest Hrest].
    assert (name ∈ (list_to_set names : gset string)) as Hname.
    { apply elem_of_elements. rewrite Hrest. by left. }
    assert (∀ n, n ∈ names → n = name) as Hsame.
    { intros n Hn. apply (size_singleton_inv (list_to_set names : gset string)).
      - assert (size (list_to_set names : gset string) ≠ 0); [|lia].
        apply size_non_empty_iff. set_solver.
      - by apply elem_of_list_to_set.
      - done. }
    split; [done|]. split.
    { intros ->. inversion H2; subst. set_solver. }
    exists name.
    assert (∃ r, mapM (λ kv : string * Dataset,
                         da ← getitem kv.2 name;
                         RasterSchema.DataArraySchema_validate cls da) l = Ok r)
      as Hvalid by eauto.
    apply mapM_unit_Ok in Hvalid. clear H4.
    rewrite Forall_forall in Hvalid. apply Forall_forall. intros [k ds] Hkv.
    specialize (Hvalid _ Hkv). simpl in *.
    apply list_elem_of_lookup in Hkv as [i Hi].
    destruct (Forall2_lookup_l _ _ _ i _ H2 Hi) as (n & Hn & Hfirst).
    simpl in Hfirst. rewrite (Hsame n) in Hfirst by (by eapply list_elem_of_lookup_2).
    apply first_keys_Ok in Hfirst as (da & rest0 & ->).
    simpl in Hvalid. rewrite decide_True in Hvalid by done. eauto.
  - intros (Hkeys & Hne & name & Hall).
    assert (NoDup (keys l)) as Hnodup by (rewrite Hkeys; apply NoDup_scale_keys).
    destruct (proj2 (level_names_Ok (keys l))) as [u Hu];
      [by rewrite Hlen|].
    rewrite Hlen in Hu. rewrite Hu. simpl.
    rewrite mapM_keys_getitem by done.
    assert (mapM (λ kv : string * list (string * DataArray), first (keys kv.2)) l
            = Ok (replicate (length l) name)) as ->.
    { apply mapM_Ok. clear -Hall. induction Hall as [|[k ds] l (da & rest & Hds & _)];
        simpl in *; constructor; [|done]. by subst. }
    simpl. destruct (length l) as [|n] eqn:Hl; [by destruct l|].
    rewrite list_to_set_replicate.
    rewrite size_singleton. rewrite bool_decide_eq_false_2 by lia.
    rewrite elements_singleton. simpl.
    rewrite mapM_keys_getitem by done.
    match goal with
    | |- context [mapM ?f ?l'] =>
        destruct (proj2 (mapM_unit_Ok f l')) as [u' ->]; [|done]
    end.
    eapply Forall_impl; [exact Hall|].
    intros [k ds] (da & rest & Hds & Hda). simpl in *. subst ds. simpl.
    by rewrite decide_True.
Qed.

(** C4, amended.  [RasterSchema.validate] accepts a multiscale element
    exactly when it has at least one level, the level names are [scale0],
    [scale1], ... in this order, every level exposes at least one data
    variable, the name of the first variable is the same at all levels, and
    at each level that first variable passes the single-scale check.
    (Variables after the first are not looked at.) *)
Theorem C4_validate_multiscale cls (data : MultiscaleSpatialImage) :
  RasterSchema.validate_MultiscaleSpatialImage cls data = Ok tt ↔
    keys (children data) = scale_key <$> seq 0 (length (children data))
    ∧ children data ≠ []
    ∧ ∃ name, Forall (λ level : string * Dataset,
                        ∃ da rest, level.2 = (name, da) :: rest
                                   ∧ RasterSchema.DataArraySchema_validate cls da = Ok tt)
                     (children data).
Proof. apply validate_MultiscaleSpatialImage_Ok. Qed.

Lemma C4_validate_multiscale_witness :
  (keys (children one_level) = scale_key <$> seq 0 (length (children one_level))
   ∧ children one_level ≠ []
   ∧ ∃ name, Forall (λ level : string * Dataset,
                       ∃ da rest, level.2 = (name, da) :: rest
                                  ∧ RasterSchema.DataArraySchema_validate Labels2DModel da
                                    = Ok tt)
                    (children one_level))
  ∧ RasterSchema.validate_MultiscaleSpatialImage Labels2DModel one_level = Ok tt.
Proof.
  assert (keys (children one_level) = scale_key <$> seq 0 (length (children one_level))
          ∧ children one_level ≠ []
          ∧ ∃ name, Forall (λ level : string * Dataset,
                       ∃ da rest, level.2 = (name, da) :: rest
                                  ∧ RasterSchema.DataArraySchema_validate Labels2DModel da
                                    = Ok tt)
                    (children one_level)) as H.
  { split; [reflexivity|]. split; [done|]. exists "image".
    repeat constructor. by exists labels_yx, []. }
  split; [exact H|].
  by apply (proj2 (C4_validate_multiscale Labels2DModel one_level)).
Defined.

(** ** Raster: dims that do not match *)

Lemma symmetric_difference_empty (a b : list string) :
  symmetric_difference a b = ∅ ↔ list_to_set a =@{gset string} list_to_set b.
Proof.
  unfold symmetric_difference. split.
  - intros H. apply set_eq. intros x.
    assert (x ∉@{gset string}
              (list_to_set a ∖ list_to_set b) ∪ (list_to_set b ∖ list_to_set a))
      as Hx by (rewrite H; apply not_elem_of_empty).
    rewrite not_elem_of_union, !elem_of_difference in Hx.
    destruct Hx as [Hab Hba]. split; intros Hin.
    + destruct (decide (x ∈ (list_to_set b : gset string))); [done|]. by destruct Hab.
    + destruct (decide (x ∈ (list_to_set a : gset string))); [done|]. by destruct Hba.
  - intros ->. apply set_eq. intros x.
    rewrite elem_of_union, !elem_of_difference. split; [tauto|].
    by intros ?%not_elem_of_empty.
Qed.

Lemma truthy_symmetric_difference (a b : list string) :
  truthy (symmetric_difference a b) = true
  ↔ list_to_set a ≠@{gset string} list_to_set b.
Proof.
  unfold truthy. rewrite bool_decide_eq_true. by rewrite symmetric_difference_empty.
Qed.

Lemma size_symmetric_difference (a b : list string) :
  0 < size (symmetric_difference a b)
  ↔ list_to_set a ≠@{gset string} list_to_set b.
Proof.
  rewrite <- symmetric_difference_empty.
  pose proof (size_non_empty_iff (symmetric_difference a b)) as H.
  unfold_leibniz. rewrite <- H. lia.
Qed.

(** Dims that are not the set of the model's dims are refused. *)
Lemma parse_wrong_dims cls data dims_ t sf kwargs r :
  resolved cls data dims_ = Some r →
  list_to_set r ≠@{gset string} list_to_set (dims cls) →
  ∃ why, (RasterSchema.parse cls data dims_ t sf kwargs).1 = Raise (ValueError why).
Proof.
  intros Hr Hne. unfold RasterSchema.parse.
  case_bool_decide; [simpl; eauto|].
  destruct data as [da|shape|shape|]; simpl in *; simplify_eq.
  - destruct dims_ as [d|]; simpl in *.
    + destruct (truthy (symmetric_difference (items d) (da_dims da))); simpl; [eauto|].
      rewrite (proj2 (truthy_symmetric_difference _ _) Hne). simpl. eauto.
    + rewrite (proj2 (truthy_symmetric_difference _ _) Hne). simpl. eauto.
  - destruct dims_ as [d|]; simpl in *; [|done].
    rewrite bool_decide_eq_true_2 by (by apply size_symmetric_difference).
    simpl. eauto.
  - destruct dims_ as [d|]; simpl in *; [|done].
    rewrite bool_decide_eq_true_2 by (by apply size_symmetric_difference).
    simpl. eauto.
Qed.

(** ** Positions and extents *)

Lemma NoDup_dims cls : NoDup (dims cls).
Proof. destruct cls; apply (bool_decide_unpack _); by vm_compute. Qed.

Lemma Forall2_Permutation_l {A B} (R : A → B → Prop) l l' a :
  l ≡ₚ l' → Forall2 R l a → ∃ a', Forall2 R l' a' ∧ a ≡ₚ a'.
Proof.
  intros Hperm. revert a. induction Hperm as [|x l l' _ IH|x y l|l l' l'' _ IH1 _ IH2];
    intros a Ha.
  - inversion Ha; subst. exists []. by split.
  - inversion Ha as [|? b ? a0 Hx Hl]; subst.
    destruct (IH _ Hl) as (a' & Ha' & Hp). exists (b :: a'). split; [by constructor|].
    by constructor.
  - inversion Ha as [|? b ? a0 Hy Hl]; subst.
    inversion Hl as [|? c ? a1 Hx Hl']; subst.
    exists (c :: b :: a1). split; [by repeat constructor|]. apply perm_swap.
  - destruct (IH1 _ Ha) as (a' & Ha' & Hp).
    destruct (IH2 _ Ha') as (a'' & Ha'' & Hp').
    exists a''. split; [done|]. by etrans.
Qed.

Lemma index_cons_ne d x r : x ≠ d → index d (x :: r) = S <$> index d r.
Proof. intros Hne. simpl. by rewrite decide_False. Qed.

Lemma index_shift x r l a :
  Forall (λ d, d ≠ x) l →
  Forall2 (λ d i, index d r = Ok i) l a →
  Forall2 (λ d i, index d (x :: r) = Ok (S i)) l a.
Proof.
  intros Hne H2. induction H2 as [|d i l a Hd _ IH]; [constructor|].
  apply Forall_cons in Hne as [Hd' Hne]. constructor; [|by apply IH].
  rewrite index_cons_ne by done. by rewrite Hd.
Qed.

(** The positions of the elements of a list without repetition, in the
    list itself. *)
Lemma index_self r :
  NoDup r → Forall2 (λ d i, index d r = Ok i) r (seq 0 (length r)).
Proof.
  induction r as [|x r IH]; intros Hnd; simpl; [constructor|].
  apply NoDup_cons in Hnd as [Hx Hnd]. constructor.
  - by rewrite decide_True.
  - rewrite <- fmap_S_seq. apply Forall2_fmap_r.
    apply (index_shift x r r); [|by apply IH].
    apply Forall_forall. by intros d Hd ->.
Qed.

(** The positions of a permutation of the labels are a permutation of the
    axis numbers. *)
Lemma index_Permutation names r :
  NoDup r → names ≡ₚ r →
  ∃ axes, mapM (λ d, index d r) names = Ok axes ∧ axes ≡ₚ seq 0 (length r).
Proof.
  intros Hnd Hperm.
  destruct (Forall2_Permutation_l _ _ _ _ (symmetry Hperm) (index_self r Hnd))
    as (axes & Haxes & Hp).
  exists axes. split; [by apply mapM_Ok|done].
Qed.

Lemma extent_None dims_ shape d : d ∉ dims_ → extent dims_ shape d = None.
Proof.
  revert shape. induction dims_ as [|d' dims_ IH]; intros [|n shape] Hd; simpl; try done.
  apply not_elem_of_cons in Hd as [Hne Hd]. rewrite decide_False by done. by apply IH.
Qed.

Lemma extent_is_Some dims_ shape d :
  d ∈ dims_ → length shape = length dims_ → is_Some (extent dims_ shape d).
Proof.
  revert shape. induction dims_ as [|d' dims_ IH]; intros [|n shape] Hd Hlen;
    simpl in *; try done; [by apply elem_of_nil in Hd|].
  case_decide; [eauto|]. apply IH; [|lia].
  apply elem_of_cons in Hd as [->|Hd]; done.
Qed.

Lemma extent_fmap names (f : string → nat) d :
  extent names (f <$> names) d = if decide (d ∈ names) then Some (f d) else None.
Proof.
  destruct (decide (d ∈ names)) as [Hin|Hin].
  - induction names as [|d' names IH]; [by apply elem_of_nil in Hin|]. simpl.
    case_decide as Hd; subst; [done|]. apply IH.
    by apply elem_of_cons in Hin as [->|?].
  - induction names as [|d' names IH]; [done|]. simpl.
    apply not_elem_of_cons in Hin as [? ?]. rewrite decide_False by done. by apply IH.
Qed.

(** An array transposed by names has, along each label, the extent that it
    had. *)
Lemma extent_transpose_names dims_ shape names d :
  names ≡ₚ dims_ → length shape = length dims_ →
  extent names ((λ d, default 0 (extent dims_ shape d)) <$> names) d
  = extent dims_ shape d.
Proof.
  intros Hperm Hlen. rewrite extent_fmap. case_decide as Hd.
  - rewrite Hperm in Hd. by destruct (extent_is_Some dims_ shape d Hd Hlen) as [n ->].
  - rewrite Hperm in Hd. by rewrite extent_None.
Qed.

Lemma index_extent r shape d i :
  index d r = Ok i → length shape = length r →
  extent r shape d = Some (default 0 (shape !! i)).
Proof.
  revert shape i. induction r as [|d' r IH]; intros [|n shape] i; simpl; try done.
  case_decide; [by intros [= <-]|].
  destruct (index d r) as [j|] eqn:Hj; [|done]. simpl. intros [= <-] Hlen.
  simpl. apply (IH shape j); [done|lia].
Qed.

Lemma index_Ok_elem_of d r i : index d r = Ok i → d ∈ r.
Proof.
  revert i. induction r as [|d' r IH]; intros i; simpl; [done|].
  case_decide; subst; [left|].
  destruct (index d r) as [j|]; [|done]. intros _. right. by eapply IH.
Qed.

(** An array transposed by the positions of the labels has, along each
    label, the extent that it had. *)
Lemma extent_transpose_axes r shape names axes d :
  Forall2 (λ d i, index d r = Ok i) names axes →
  names ≡ₚ r → length shape = length r →
  extent names ((λ i, default 0 (shape !! i)) <$> axes) d = extent r shape d.
Proof.
  intros H2 Hperm Hlen.
  destruct (decide (d ∈ names)) as [Hd|Hd].
  - clear Hperm. induction H2 as [|d' i names axes Hi _ IH]; [by apply elem_of_nil in Hd|].
    simpl. case_decide as Hdd; subst.
    + symmetry. by apply index_extent.
    + apply IH. by apply elem_of_cons in Hd as [->|Hd].
  - rewrite (extent_None r) by (by rewrite <- Hperm).
    clear Hperm. induction H2 as [|d' i names axes Hi _ IH]; [done|].
    simpl. apply not_elem_of_cons in Hd as [Hne Hd].
    rewrite decide_False by done. by apply IH.
Qed.

(** ** Raster: dims that are a permutation of those of the model *)

Lemma truthy_symmetric_difference_perm (a b : list string) :
  a ≡ₚ b → truthy (symmetric_difference a b) = false.
Proof.
  intros Hperm. apply not_true_is_false. rewrite truthy_symmetric_difference.
  intros Hne. apply Hne. by apply list_to_set_perm_L.
Qed.

Lemma size_symmetric_difference_perm (a b : list string) :
  a ≡ₚ b → bool_decide (0 < size (symmetric_difference a b)) = false.
Proof.
  intros Hperm. apply bool_decide_eq_false. rewrite size_symmetric_difference.
  intros Hne. apply Hne. by apply list_to_set_perm_L.
Qed.

Lemma ne_tuple_false d t : ne_tuple d t = false → d = PyTuple t.
Proof.
  destruct d as [l|l]; simpl; [|done].
  intros Hd%bool_decide_eq_false. f_equal. by apply dec_stable.
Qed.

(** Lines 146-174 on well-labelled input. *)
Lemma resolve_dims_perm cls data dims_ r :
  resolved cls data dims_ = Some r → r ≡ₚ dims cls → well_labelled data r →
  ∃ dseq, items dseq = r
    ∧ (dims_ = Some dseq ∨ dims_ = None ∧ dseq = PyTuple r)
    ∧ (RasterSchema.resolve_dims cls data dims_).1
      = Ok (match data with
            | Labelled da => Labelled (set_da_data DaskArray da)
            | _ => DaskInput (shape_of data)
            end, dseq).
Proof.
  intros Hr Hperm Hwl.
  destruct data as [da|shape|shape|]; simpl in *; simplify_eq.
  - destruct Hwl as [Hda Hlen]. destruct dims_ as [d|]; simpl in *.
    + exists d. split; [done|]. split; [by left|].
      rewrite truthy_symmetric_difference_perm by done. simpl.
      by rewrite truthy_symmetric_difference_perm.
    + exists (PyTuple (da_dims da)). split; [done|]. split; [by right|].
      by rewrite truthy_symmetric_difference_perm.
  - destruct dims_ as [d|]; simpl in *.
    + exists d. split; [done|]. split; [by left|].
      by rewrite size_symmetric_difference_perm.
    + exists (PyTuple (dims cls)). split; [done|]. split; [by right|]. done.
  - destruct dims_ as [d|]; simpl in *.
    + exists d. split; [done|]. split; [by left|].
      by rewrite size_symmetric_difference_perm.
    + exists (PyTuple (dims cls)). split; [done|]. split; [by right|]. done.
Qed.

(** Lines 176-187 on well-labelled input. *)
Lemma transpose_to_canonical_perm cls data dims_ r dseq :
  resolved cls data dims_ = Some r → r ≡ₚ dims cls → well_labelled data r →
  transposed_by_own_labels cls data dims_ →
  items dseq = r → (dims_ = Some dseq ∨ dims_ = None ∧ dseq = PyTuple r) →
  ∃ data', RasterSchema.transpose_to_canonical cls
             (match data with
              | Labelled da => Labelled (set_da_data DaskArray da)
              | _ => DaskInput (shape_of data)
              end) dseq = Ok data'
           ∧ in_canonical_order cls data r data'.
Proof.
  intros Hr Hperm Hwl Hown Hitems Hdseq.
  unfold RasterSchema.transpose_to_canonical.
  destruct data as [da|shape|shape|]; simpl in *; [| | |done].
  - destruct Hwl as [Hda Hlen]. injection Hr as Hr.
    destruct (ne_tuple dseq (dims cls)) eqn:Hne.
    + unfold DataArray_transpose. simpl.
      rewrite bool_decide_eq_true_2 by (by rewrite Hda, Hperm). simpl.
      eexists. split; [done|]. simpl. repeat split; [by rewrite length_fmap|].
      intros d. apply extent_transpose_names; [by rewrite Hda, Hperm|done].
    + eexists. split; [done|]. simpl.
      assert (da_dims da = dims cls) as Hcanon.
      { apply ne_tuple_false in Hne. destruct Hdseq as [Hd|[Hd Hd']]; subst dims_.
        - destruct Hown as [Hown|Hown]; [|done]. subst dseq. simpl in Hown.
          by rewrite bool_decide_eq_false_2 in Hown by (by intros ?).
        - simpl in Hr. congruence. }
      repeat split; [done|congruence|by rewrite Hcanon].
  - subst r.
    destruct (ne_tuple dseq (dims cls)) eqn:Hne.
    + assert (NoDup (items dseq)) as Hnd by (rewrite Hperm; apply NoDup_dims).
      destruct (index_Permutation (dims cls) (items dseq) Hnd (symmetry Hperm))
        as (axes & Haxes & Hp).
      rewrite Haxes. simpl. unfold dask_transpose.
      rewrite bool_decide_eq_true_2 by (by rewrite Hwl). simpl.
      eexists. split; [done|]. simpl. split; [done|]. split.
      * rewrite length_fmap. apply mapM_Ok, Forall2_length in Haxes. done.
      * intros d. apply extent_transpose_axes; [by apply mapM_Ok|done..].
    + eexists. split; [done|]. simpl.
      apply ne_tuple_false in Hne. subst dseq. simpl in *.
      repeat split; done.
  - subst r.
    destruct (ne_tuple dseq (dims cls)) eqn:Hne.
    + assert (NoDup (items dseq)) as Hnd by (rewrite Hperm; apply NoDup_dims).
      destruct (index_Permutation (dims cls) (items dseq) Hnd (symmetry Hperm))
        as (axes & Haxes & Hp).
      rewrite Haxes. simpl. unfold dask_transpose.
      rewrite bool_decide_eq_true_2 by (by rewrite Hwl). simpl.
      eexists. split; [done|]. simpl. split; [done|]. split.
      * rewrite length_fmap. apply mapM_Ok, Forall2_length in Haxes. done.
      * intros d. apply extent_transpose_axes; [by apply mapM_Ok|done..].
    + eexists. split; [done|]. simpl.
      apply ne_tuple_false in Hne. subst dseq. simpl in *.
      repeat split; done.
Qed.

Lemma DataArraySchema_validate_Ok cls da :
  da_dims da = dims cls → da_transform da ≠ None → da_data da = DaskArray →
  RasterSchema.DataArraySchema_validate cls da = Ok tt.
Proof.
  intros Hd Ht Hb. unfold RasterSchema.DataArraySchema_validate.
  rewrite bool_decide_eq_false_2 by (by intros ?).
  rewrite bool_decide_eq_false_2 by done. by rewrite Hb.
Qed.

(** Line 190 on an array in the order of the model, without keyword
    arguments. *)
Lemma to_spatial_image_canonical cls data r data' :
  in_canonical_order cls data r data' →
  ∃ img, to_spatial_image data' (dims cls) no_kwargs = Ok img
         ∧ da_spatial_image img = true ∧ da_dims img = dims cls
         ∧ da_data img = DaskArray ∧ da_transform img = carried_by data
         ∧ length (da_shape img) = length (dims cls)
         ∧ ∀ d, extent (dims cls) (da_shape img) d
                = extent (axis_labels data r) (shape_of data) d.
Proof.
  unfold in_canonical_order, to_spatial_image, no_kwargs.
  rewrite bool_decide_eq_true_2 by constructor.
  destruct data' as [da|shape|shape|]; try done.
  - intros (Hd & Hb & Ht & Hlen & Hext).
    rewrite !bool_decide_eq_false_2 by lia. eexists. split; [done|]. simpl.
    repeat split; try done.
  - intros (Hdata & Hlen & Hext).
    rewrite !bool_decide_eq_false_2 by lia. eexists. split; [done|]. simpl.
    repeat split; try done. by destruct data.
Qed.

Lemma downsample_Ok f da da' :
  downsample f da = Ok da' →
  da_spatial_image da' = da_spatial_image da ∧ da_dims da' = da_dims da
  ∧ da_data da' = da_data da ∧ da_transform da' = da_transform da.
Proof. unfold downsample. case_bool_decide; [|done]. by intros [= <-]. Qed.

(** The levels that the pyramid builder adds take the mapping, keep the
    dims and the backing of the image, and are named in order. *)
Lemma set_levels_pyramid full t da scale_factors i levels :
  pyramid da scale_factors (S i) = Ok levels →
  ∃ rest, set_levels full t (S i) levels = Ok rest
    ∧ keys rest = scale_key <$> seq (S i) (length scale_factors)
    ∧ Forall (λ level : string * Dataset,
                ∃ da', level.2 = [("image", da')] ∧ da_dims da' = da_dims da
                       ∧ da_data da' = da_data da
                       ∧ da_spatial_image da' = da_spatial_image da
                       ∧ da_transform da' ≠ None)
             rest.
Proof.
  revert da i levels. induction scale_factors as [|f fs IH]; intros da i levels; simpl.
  - intros [= <-]. exists []. by repeat split.
  - destruct (downsample f da) as [da1|] eqn:Hda1; [|done]. simpl.
    destruct (pyramid da1 fs (S (S i))) as [levels1|] eqn:Hlevels1; [|done]. simpl.
    intros [= <-]. simpl.
    rewrite bool_decide_eq_false_2 by (by intros ?).
    apply downsample_Ok in Hda1 as (Hsi1 & Hd1 & Hb1 & Ht1).
    destruct (IH da1 (S i) levels1 Hlevels1) as (rest & -> & Hkeys & Hall). simpl.
    eexists. split; [done|]. split; [simpl; by rewrite Hkeys|].
    constructor; [by eexists|].
    eapply Forall_impl; [exact Hall|].
    intros level (da' & ? & ? & ? & ? & ?). exists da'.
    repeat split; congruence.
Qed.

(** The pyramid builder returns when every axis but the channel axis has
    as many elements as the product of the factors. *)
Lemma pyramid_fits da scale_factors i :
  Forall (λ dn : string * nat, dn.1 = C ∨ (product scale_factors ≤ dn.2)%nat)
         (zip (da_dims da) (da_shape da)) →
  ∃ levels, pyramid da scale_factors i = Ok levels.
Proof.
  revert da i. induction scale_factors as [|f fs IH]; intros da i Hfits; simpl.
  - eauto.
  - assert (product (f :: fs) = Pos.to_nat f * product fs) as Hproduct.
    { unfold product. simpl. apply Pos2Nat.inj_mul. }
    assert (0 < Pos.to_nat f ∧ 0 < product fs) as [Hf Hfs].
    { split; apply Pos2Nat.is_pos. }
    unfold downsample. rewrite bool_decide_eq_true_2.
    2:{ eapply Forall_impl; [exact Hfits|]. intros [d n] [?|Hn]; [by left|right].
        simpl in *. nia. }
    simpl.
    match goal with
    | |- context [pyramid ?d fs (S i)] =>
        destruct (IH d (S i)) as [levels ->]; [|simpl; eauto]
    end.
    simpl. revert Hfits. generalize (da_dims da) (da_shape da). clear -Hproduct Hf Hfs.
    induction l as [|d l IHl]; intros [|n shape] Hfits; simpl; try constructor.
    + apply Forall_cons in Hfits as [[Hd|Hn] _]; simpl in *.
      * by left.
      * case_decide; [by left|]. right.
        apply Nat.div_le_lower_bound; lia.
    + apply Forall_cons in Hfits as [_ Hfits]. by apply IHl.
Qed.

Lemma extent_zip (dims_ : list string) shape d n :
  NoDup dims_ → (d, n) ∈ zip dims_ shape → extent dims_ shape d = Some n.
Proof.
  revert shape. induction dims_ as [|d' dims_ IH]; intros [|n' shape] Hnd Hin;
    simpl in *; try by apply elem_of_nil in Hin.
  apply NoDup_cons in Hnd as [Hd' Hnd].
  apply elem_of_cons in Hin as [[= -> ->]|Hin].
  - by rewrite decide_True.
  - rewrite decide_False; [by apply IH|].
    intros ->. apply Hd'. by eapply elem_of_zip_l.
Qed.

(** Lines 189-207 on an array in the order of the model, without keyword
    arguments. *)
Lemma finish_parse_canonical cls data r data' t scale_factors :
  in_canonical_order cls data r data' →
  levels_fit data r scale_factors →
  non_empty (carried_by data) && non_empty t = false →
  ∃ el img, RasterSchema.finish_parse cls data' t scale_factors no_kwargs = Ok el
    ∧ base_image el = Some img
    ∧ da_dims img = dims cls
    ∧ (∀ d, extent (dims cls) (da_shape img) d
            = extent (axis_labels data r) (shape_of data) d)
    ∧ da_transform img = Some (parsed_transformations (carried_by data) t)
    ∧ RasterSchema.validate cls el = Ok tt.
Proof.
  intros Hcanon Hfit Htwice. unfold RasterSchema.finish_parse.
  destruct (to_spatial_image_canonical _ _ _ _ Hcanon)
    as (img & -> & Hsi & Hd & Hb & Ht & Hshape & Hext). simpl.
  rewrite run_parse_transformations_eq. simpl.
  rewrite Hsi, Ht, Htwice. simpl.
  set (m := parsed_transformations (carried_by data) t).
  destruct scale_factors as [fs|]; simpl.
  - rewrite Hsi. simpl. unfold to_multiscale.
    set (img0 := as_DataArray (set_da_transform None (set_da_transform (Some m) img))).
    destruct (pyramid_fits img0 fs 1) as [levels Hlevels].
    { apply Forall_forall. intros [d n] Hdn. simpl in *.
      destruct (decide (d = C)) as [|Hc]; [by left|right].
      apply (Hfit d n Hc). rewrite <- Hext. apply extent_zip; [|by rewrite <- Hd].
      apply NoDup_dims. }
    rewrite Hlevels. simpl.
    rewrite run_parse_transformations_eq. simpl.
    change (scale_key 0) with "scale0". simpl.
    assert (non_empty (Some m) = true) as Hm.
    { apply non_empty_Some, non_empty_parsed_transformations. }
    assert (parsed_transformations None (Some m) = m) as Hparsed.
    { unfold parsed_transformations. by rewrite Hm. }
    rewrite Hparsed.
    destruct (set_levels_pyramid (da_shape img) m img0 fs 0 levels Hlevels)
      as (rest & Hrest & Hkeys & Hall).
    rewrite Hrest. simpl.
    eexists _, _. split; [done|]. simpl. repeat split; try done.
    apply validate_MultiscaleSpatialImage_Ok. simpl.
    assert (length rest = length fs) as Hlen.
    { rewrite <- (length_fmap fst rest). fold (keys rest). rewrite Hkeys.
      by rewrite length_fmap, length_seq. }
    split; [by rewrite Hkeys, Hlen|]. split; [done|].
    exists "image". constructor.
    + eexists _, []. split; [done|].
      by apply DataArraySchema_validate_Ok.
    + eapply Forall_impl; [exact Hall|].
      intros level (da' & -> & Hd' & Hb' & _ & Ht'). eexists _, []. split; [done|].
      apply DataArraySchema_validate_Ok; [by rewrite Hd'|done|by rewrite Hb'].
  - eexists _, _. split; [done|]. simpl. repeat split; try done.
    unfold RasterSchema.validate_SpatialImage. simpl. rewrite Hsi.
    by apply DataArraySchema_validate_Ok.
Qed.

(** [RasterSchema.parse] on well-labelled input whose dims are a
    permutation of those of the model, without keyword arguments. *)
Lemma parse_permutation cls data dims_ t scale_factors r :
  resolved cls data dims_ = Some r →
  r ≡ₚ dims cls →
  well_labelled data r →
  transposed_by_own_labels cls data dims_ →
  levels_fit data r scale_factors →
  non_empty (carried_by data) && non_empty t = false →
  ∃ el img,
    (RasterSchema.parse cls data dims_ t scale_factors no_kwargs).1 = Ok el
    ∧ base_image el = Some img
    ∧ da_dims img = dims cls
    ∧ (∀ d, extent (dims cls) (da_shape img) d
            = extent (axis_labels data r) (shape_of data) d)
    ∧ RasterSchema.validate cls el = Ok tt.
Proof.
  intros Hr Hperm Hwl Hown Hfit Htwice. unfold RasterSchema.parse.
  rewrite bool_decide_eq_false_2 by apply not_elem_of_nil.
  destruct (resolve_dims_perm cls data dims_ r Hr Hperm Hwl)
    as (dseq & Hitems & Hdseq & Hres).
  destruct (RasterSchema.resolve_dims cls data dims_) as [r0 caller_data].
  simpl in Hres. subst r0. simpl.
  destruct (transpose_to_canonical_perm cls data dims_ r dseq Hr Hperm Hwl Hown
              Hitems Hdseq) as (data' & -> & Hcanon). simpl.
  destruct (finish_parse_canonical cls data r data' t scale_factors Hcanon Hfit Htwice)
    as (el & img & -> & Hbase & Hd & Hext & _ & Hvalid).
  eauto 10.
Qed.

(** A labelled array in the order (x, y), parsed as 2D labels with the dims
    passed too, as the tuple (y, x): the array is not transposed, and what
    was 3 along x comes out as 3 along y.  (This is the case that
    [transposed_by_own_labels] excludes.) *)
Lemma parse_labelled_dims_passed_in_model_order :
  (RasterSchema.parse Labels2DModel (Labelled image_xy) (Some (PyTuple [Y; X]))
     None None []).1
  = Ok (SingleScale {| da_spatial_image := true; da_dims := [Y; X]; da_shape := [3; 5];
                       da_data := DaskArray; da_transform := Some default_mapping |})
  ∧ extent (da_dims image_xy) (da_shape image_xy) X = Some 3
  ∧ extent [Y; X] [3; 5] X = Some 5.
Proof. repeat split; reflexivity. Qed.

(** C2, counterexample.  An array of three axes with the two dims (x, y), a
    permutation of the dims of 2D labels, is refused: it cannot be
    transposed.  So is an array with these dims when a [name] is passed, or
    a keyword that the conversion does not have, or scale factors that leave
    a level without an element along an axis. *)
Lemma C2_counterexample :
  [X; Y] ≡ₚ dims Labels2DModel
  ∧ RasterSchema.parse Labels2DModel (NumpyInput [2; 3; 5]) (Some (PyTuple [X; Y]))
      None None []
    = (Raise (ValueError CannotTranspose), NumpyInput [2; 3; 5])
  ∧ RasterSchema.parse Labels2DModel (NumpyInput [3; 5]) (Some (PyTuple [X; Y]))
      None None ["name"]
    = (Raise (ValueError NameNotSupported), NumpyInput [3; 5])
  ∧ RasterSchema.parse Labels2DModel (NumpyInput [3; 5]) (Some (PyTuple [X; Y]))
      None None ["array_like"]
    = (Raise TypeError, NumpyInput [3; 5])
  ∧ RasterSchema.parse Labels2DModel (NumpyInput [3; 5]) (Some (PyTuple [X; Y]))
      None (Some [2; 2]%positive) []
    = (Raise (ValueError LibraryValueError), NumpyInput [3; 5]).
Proof. split; [apply perm_swap|]. repeat split; reflexivity. Qed.

(** C2, amended.  For every raster model and every input whose resolved
    dims are a permutation of the dims of the model, which has one axis per
    label (a labelled array: its own labels are the resolved ones, up to
    their order), parsed without keyword arguments, without transformations
    given both in the metadata and as an argument and, if scale factors are
    passed, with at least as many elements along every axis but the channel
    axis as the product of the factors: the parse returns; the dims of the
    result are those of the model, in their order; along each label the
    result has the extent that the input has along it; [validate] accepts
    the result.  (Not covered: a labelled array that is not in the order of
    the model and whose dims are passed too, as the tuple of the model.)
    Resolved dims whose set is not the set of the dims of the model make
    the parse raise a [ValueError], whatever the keyword arguments. *)
Theorem C2_parse_dims cls data dims_ t scale_factors kwargs r :
  resolved cls data dims_ = Some r →
  (r ≡ₚ dims cls →
   well_labelled data r →
   transposed_by_own_labels cls data dims_ →
   levels_fit data r scale_factors →
   non_empty (carried_by data) && non_empty t = false →
   ∃ el img,
     (RasterSchema.parse cls data dims_ t scale_factors no_kwargs).1 = Ok el
     ∧ base_image el = Some img
     ∧ da_dims img = dims cls
     ∧ (∀ d, extent (dims cls) (da_shape img) d
             = extent (axis_labels data r) (shape_of data) d)
     ∧ RasterSchema.validate cls el = Ok tt)
  ∧ (list_to_set r ≠@{gset string} list_to_set (dims cls) →
     ∃ why, (RasterSchema.parse cls data dims_ t scale_factors kwargs).1
            = Raise (ValueError why)).
Proof.
  intros Hr. split.
  - by apply parse_permutation.
  - by apply parse_wrong_dims.
Qed.

Lemma C2_parse_dims_witness :
  (resolved Image2DModel (NumpyInput [64; 32; 3]) (Some (PyTuple [Y; X; C]))
   = Some [Y; X; C]
   ∧ [Y; X; C] ≡ₚ dims Image2DModel
   ∧ well_labelled (NumpyInput [64; 32; 3]) [Y; X; C]
   ∧ transposed_by_own_labels Image2DModel (NumpyInput [64; 32; 3])
       (Some (PyTuple [Y; X; C]))
   ∧ levels_fit (NumpyInput [64; 32; 3]) [Y; X; C] (Some [2; 2]%positive)
   ∧ (non_empty (carried_by (NumpyInput [64; 32; 3])) && non_empty None = false))
  ∧ ∃ el img,
      (RasterSchema.parse Image2DModel (NumpyInput [64; 32; 3])
         (Some (PyTuple [Y; X; C])) None (Some [2; 2]%positive) no_kwargs).1 = Ok el
      ∧ base_image el = Some img
      ∧ da_dims img = dims Image2DModel
      ∧ (∀ d, extent (dims Image2DModel) (da_shape img) d
              = extent [Y; X; C] [64; 32; 3] d)
      ∧ RasterSchema.validate Image2DModel el = Ok tt.
Proof.
  assert ([Y; X; C] ≡ₚ dims Image2DModel) as Hperm.
  { simpl. etrans; [apply perm_skip, perm_swap|apply perm_swap]. }
  assert (levels_fit (NumpyInput [64; 32; 3]) [Y; X; C] (Some [2; 2]%positive)) as Hfit.
  { intros d n Hc. simpl. repeat case_decide; try done; intros [= <-];
      change (product [2; 2]%positive) with 4; lia. }
  split; [by repeat split|].
  by apply (proj1 (C2_parse_dims Image2DModel (NumpyInput [64; 32; 3])
                     (Some (PyTuple [Y; X; C])) None (Some [2; 2]%positive) no_kwargs
                     [Y; X; C] eq_refl)).
Defined.

(** * Further properties *)

(** ** Which mapping is attached *)

(** X1.  After a call of [_parse_transformations] that returned, the element
    holds a mapping that is not empty: the one it held before if that was
    not empty, else the one passed if that is not empty, else the default
    mapping of ["global"] to the identity. *)
Theorem X1_parse_transformations_resolution `{LawfulElement E} (e e' : E) t m0 :
  _get_transformations e = Ok m0 →
  run (_parse_transformations t) e = Ok e' →
  ∃ m, _get_transformations e' = Ok (Some m) ∧ 0 < size m
       ∧ (non_empty m0 = true → m0 = Some m)
       ∧ (non_empty m0 = false → non_empty t = true → t = Some m)
       ∧ (non_empty m0 = false → non_empty t = false →
          m = {[ "global" := Identity ]}).
Proof.
  intros Hget. rewrite run_parse_transformations_eq, Hget.
  destruct (non_empty m0) eqn:Hm0, (non_empty t) eqn:Ht; simpl; try done;
    intros Hset; eexists; (split; [by eapply get_set|]);
    (split; [apply non_empty_parsed_transformations|]);
    unfold parsed_transformations; rewrite Hm0, ?Ht.
  - repeat split; try done. intros _. by destruct m0.
  - repeat split; try done. intros _ _. by destruct t.
  - repeat split; done.
Qed.

Lemma X1_parse_transformations_resolution_witness :
  (_get_transformations one_polygon = Ok None
   ∧ run (_parse_transformations (Some my_space)) one_polygon
     = Ok {| columns := columns one_polygon; row_labels := RangeIndex 1;
             attrs_transform := Some my_space |})
  ∧ ∃ m, _get_transformations
           {| columns := columns one_polygon; row_labels := RangeIndex 1;
              attrs_transform := Some my_space |} = Ok (Some m)
         ∧ 0 < size m
         ∧ (non_empty None = true → None = Some m)
         ∧ (non_empty None = false → non_empty (Some my_space) = true →
            Some my_space = Some m)
         ∧ (non_empty None = false → non_empty (Some my_space) = false →
            m = {[ "global" := Identity ]}).
Proof.
  split; [split; reflexivity|].
  apply (X1_parse_transformations_resolution one_polygon _ (Some my_space) None);
    reflexivity.
Defined.

(** ** Raster: what [parse] returns *)

Lemma resolve_dims_Ok cls data dims_ data1 dseq :
  (RasterSchema.resolve_dims cls data dims_).1 = Ok (data1, dseq) →
  carried_by data1 = carried_by data
  ∧ match data1 with
    | Labelled da => da_data da = DaskArray
    | DaskInput _ => True
    | _ => False
    end.
Proof.
  unfold RasterSchema.resolve_dims.
  destruct data as [da|shape|shape|]; simpl; [| | |done].
  - destruct dims_ as [d|]; simpl.
    + destruct (truthy (symmetric_difference (items d) (da_dims da))); [done|]. simpl.
      destruct (truthy _); [done|]. by intros [= <- _].
    + destruct (truthy _); [done|]. by intros [= <- _].
  - destruct dims_ as [d|]; [case_bool_decide; [done|]|]; by intros [= <- _].
  - destruct dims_ as [d|]; [case_bool_decide; [done|]|]; by intros [= <- _].
Qed.

Lemma transpose_to_canonical_Ok cls data1 dseq data2 :
  RasterSchema.transpose_to_canonical cls data1 dseq = Ok data2 →
  match data1 with
  | Labelled da => da_data da = DaskArray
  | DaskInput _ => True
  | _ => False
  end →
  carried_by data2 = carried_by data1
  ∧ match data2 with
    | Labelled da => da_data da = DaskArray
    | DaskInput _ => True
    | _ => False
    end.
Proof.
  unfold RasterSchema.transpose_to_canonical.
  destruct (ne_tuple dseq (dims cls)); [|by intros [= <-]].
  destruct data1 as [da|shape|shape|]; try done.
  - unfold DataArray_transpose. case_bool_decide; [|done]. simpl.
    by intros [= <-].
  - destruct (mapM _ _) as [axes|[]]; simpl; try done.
    unfold dask_transpose. case_bool_decide; [|done]. simpl. by intros [= <-].
Qed.

(** What lines 189-207 return for an array on dask: a single image, or a
    pyramid whose levels hold plain arrays. *)
Lemma finish_parse_Ok cls data2 t scale_factors kwargs el :
  RasterSchema.finish_parse cls data2 t scale_factors kwargs = Ok el →
  match data2 with
  | Labelled da => da_data da = DaskArray
  | DaskInput _ => True
  | _ => False
  end →
  RasterSchema.validate cls el = Ok tt
  ∧ non_empty (carried_by data2) && non_empty t = false
  ∧ match scale_factors, el with
    | None, SingleScale img =>
        da_spatial_image img = true ∧ da_dims img = dims cls
        ∧ da_data img = DaskArray ∧ length (da_shape img) = length (dims cls)
        ∧ da_transform img = Some (parsed_transformations (carried_by data2) t)
    | Some fs, MultiScale image =>
        keys (children image) = scale_key <$> seq 0 (S (length fs))
        ∧ _get_transformations image
          = Ok (Some (parsed_transformations (carried_by data2) t))
        ∧ Forall (λ level : string * Dataset,
                    ∃ da, level.2 = [("image", da)] ∧ da_spatial_image da = false
                          ∧ da_dims da = dims cls ∧ da_data da = DaskArray
                          ∧ da_transform da ≠ None)
                 (children image)
    | _, _ => False
    end.
Proof.
  intros Hfinish Hdask. unfold RasterSchema.finish_parse in Hfinish.
  destruct (to_spatial_image data2 (dims cls) kwargs) as [img|] eqn:Himg; [|done].
  assert (da_spatial_image img = true ∧ da_dims img = dims cls
          ∧ da_data img = DaskArray ∧ da_transform img = carried_by data2
          ∧ length (da_shape img) = length (dims cls))
    as (Hsi & Hd & Hb & Ht & Hshape).
  { unfold to_spatial_image in Himg. case_bool_decide; [|done].
    destruct data2 as [da|shape|shape|]; try done;
      repeat case_bool_decide; try done; injection Himg as <-; simpl;
      repeat split; try done; lia. }
  simpl in Hfinish. rewrite run_parse_transformations_eq in Hfinish.
  simpl in Hfinish. rewrite Hsi, Ht in Hfinish.
  destruct (non_empty (carried_by data2) && non_empty t) eqn:Hboth; [done|].
  simpl in Hfinish.
  set (m := parsed_transformations (carried_by data2) t) in *.
  assert (non_empty (Some m) = true) as Hm.
  { apply non_empty_Some, non_empty_parsed_transformations. }
  destruct scale_factors as [fs|]; simpl in Hfinish.
  - rewrite Hsi in Hfinish. simpl in Hfinish. unfold to_multiscale in Hfinish.
    set (img0 := as_DataArray (set_da_transform None (set_da_transform (Some m) img)))
      in *.
    destruct (pyramid img0 fs 1) as [levels|] eqn:Hlevels; [|done].
    simpl in Hfinish.
    rewrite run_parse_transformations_eq in Hfinish. simpl in Hfinish.
    change (scale_key 0) with "scale0" in Hfinish. simpl in Hfinish.
    assert (parsed_transformations None (Some m) = m) as Hparsed.
    { unfold parsed_transformations. by rewrite Hm. }
    rewrite Hparsed in Hfinish.
    destruct (set_levels_pyramid (da_shape img) m img0 fs 0 levels Hlevels)
      as (rest & Hrest & Hkeys & Hall).
    simpl in Hfinish. rewrite Hrest in Hfinish. simpl in Hfinish.
    injection Hfinish as <-. simpl.
    assert (length rest = length fs) as Hlen.
    { rewrite <- (length_fmap fst rest). fold (keys rest). rewrite Hkeys.
      by rewrite length_fmap, length_seq. }
    assert (Forall (λ level : string * Dataset,
                      ∃ da, level.2 = [("image", da)] ∧ da_spatial_image da = false
                            ∧ da_dims da = dims cls ∧ da_data da = DaskArray
                            ∧ da_transform da ≠ None)
                   (("scale0", [("image", set_da_transform (Some m) img0)]) :: rest))
      as Hlevel.
    { constructor; [by eexists|].
      eapply Forall_impl; [exact Hall|].
      intros level (da' & Hl & Hd' & Hb' & Hsi' & Ht'). exists da'.
      subst img0. simpl in Hd', Hb', Hsi'.
      repeat split; try done; congruence. }
    split; [|split; [done|split; [by rewrite Hkeys|split; [done|done]]]].
    apply validate_MultiscaleSpatialImage_Ok. simpl.
    split; [by rewrite Hkeys, Hlen|]. split; [done|].
    exists "image". eapply Forall_impl; [exact Hlevel|].
    intros level (da' & -> & _ & Hd' & Hb' & Ht'). eexists _, []. split; [done|].
    by apply DataArraySchema_validate_Ok.
  - injection Hfinish as <-. simpl.
    split; [|by repeat split].
    unfold RasterSchema.validate_SpatialImage. simpl. rewrite Hsi.
    by apply DataArraySchema_validate_Ok.
Qed.

(** What [RasterSchema.parse] returns, whenever it returns. *)
Lemma parse_Ok cls data dims_ t scale_factors kwargs el :
  (RasterSchema.parse cls data dims_ t scale_factors kwargs).1 = Ok el →
  RasterSchema.validate cls el = Ok tt
  ∧ non_empty (carried_by data) && non_empty t = false
  ∧ match scale_factors, el with
    | None, SingleScale img =>
        da_spatial_image img = true ∧ da_dims img = dims cls
        ∧ da_data img = DaskArray ∧ length (da_shape img) = length (dims cls)
        ∧ da_transform img = Some (parsed_transformations (carried_by data) t)
    | Some fs, MultiScale image =>
        keys (children image) = scale_key <$> seq 0 (S (length fs))
        ∧ _get_transformations image
          = Ok (Some (parsed_transformations (carried_by data) t))
        ∧ Forall (λ level : string * Dataset,
                    ∃ da, level.2 = [("image", da)] ∧ da_spatial_image da = false
                          ∧ da_dims da = dims cls ∧ da_data da = DaskArray
                          ∧ da_transform da ≠ None)
                 (children image)
    | _, _ => False
    end.
Proof.
  unfold RasterSchema.parse. case_bool_decide; [done|].
  destruct (RasterSchema.resolve_dims cls data dims_) as [r caller_data] eqn:Hres.
  simpl. destruct r as [[data1 dseq]|]; [|done]. simpl.
  destruct (resolve_dims_Ok cls data dims_ data1 dseq) as [Hc1 Hd1];
    [by rewrite Hres|].
  destruct (RasterSchema.transpose_to_canonical cls data1 dseq) as [data2|] eqn:Htr;
    [|done]. simpl.
  destruct (transpose_to_canonical_Ok _ _ _ _ Htr Hd1) as [Hc2 Hd2].
  intros Hfinish. rewrite <- Hc1, <- Hc2. by eapply finish_parse_Ok.
Qed.


(** X2. Whatever [RasterSchema.parse] returns, for any input and any
    arguments, is accepted by [validate] of the same model.  A single
    image, which is what is returned without scale factors, is a
    [SpatialImage] on a dask array whose dims are those of the model, in the
    order of the model; each level of a pyramid holds one variable, a plain
    array on dask with the dims of the model, in their order, which
    carries a mapping. *)
Theorem X2_raster_parse_result_validates cls data dims_ t scale_factors kwargs el :
  (RasterSchema.parse cls data dims_ t scale_factors kwargs).1 = Ok el →
  RasterSchema.validate cls el = Ok tt
  ∧ match el with
    | SingleScale img =>
        scale_factors = None ∧ da_spatial_image img = true
        ∧ da_dims img = dims cls ∧ da_data img = DaskArray
    | MultiScale image =>
        Forall (λ level : string * Dataset,
                  ∃ da, level.2 = [("image", da)] ∧ da_spatial_image da = false
                        ∧ da_dims da = dims cls ∧ da_data da = DaskArray
                        ∧ da_transform da ≠ None)
               (children image)
    end.
Proof.
  intros (Hvalid & _ & Hel)%parse_Ok. split; [done|].
  destruct scale_factors as [fs|], el as [img|image]; try done.
  - by destruct Hel as (_ & _ & Hlevels).
  - by destruct Hel as (? & ? & ? & _).
Qed.

Lemma X2_raster_parse_result_validates_witness :
  ∃ image, (RasterSchema.parse Labels2DModel (Labelled image_xy) None None
              (Some [2]%positive) no_kwargs).1 = Ok (MultiScale image)
        ∧ RasterSchema.validate Labels2DModel (MultiScale image) = Ok tt
        ∧ Forall (λ level : string * Dataset,
                    ∃ da, level.2 = [("image", da)] ∧ da_spatial_image da = false
                          ∧ da_dims da = dims Labels2DModel ∧ da_data da = DaskArray
                          ∧ da_transform da ≠ None)
                 (children image).
Proof.
  eexists. split; [reflexivity|].
  apply (X2_raster_parse_result_validates Labels2DModel (Labelled image_xy) None None
           (Some [2]%positive) no_kwargs (MultiScale _)).
  reflexivity.
Defined.

(** X3. The mapping that the result of [RasterSchema.parse] carries is the
    one the input carried, else the one passed, else the default; the input
    and the argument never both give one.  With [scale_factors] the result is
    a pyramid of one level more than there are factors, named [scale0],
    [scale1], ...; without, it is a single image. *)
Theorem X3_raster_parse_mapping_and_levels cls data dims_ t scale_factors kwargs el :
  (RasterSchema.parse cls data dims_ t scale_factors kwargs).1 = Ok el →
  non_empty (carried_by data) && non_empty t = false
  ∧ match scale_factors, el with
    | None, SingleScale image =>
        _get_transformations image
        = Ok (Some (parsed_transformations (carried_by data) t))
    | Some fs, MultiScale image =>
        keys (children image) = scale_key <$> seq 0 (S (length fs))
        ∧ _get_transformations image
          = Ok (Some (parsed_transformations (carried_by data) t))
    | _, _ => False
    end.
Proof.
  intros (_ & Hboth & Hel)%parse_Ok.
  split; [done|].
  destruct scale_factors as [fs|], el as [image|image]; try done.
  - by destruct Hel as (? & ? & _).
  - destruct Hel as (Hsi & _ & _ & _ & Ht). simpl. by rewrite Hsi, Ht.
Qed.

Lemma X3_raster_parse_mapping_and_levels_witness :
  ∃ image, (RasterSchema.parse Labels2DModel (Labelled image_xy_16) None (Some my_space)
              (Some [2; 2]%positive) no_kwargs).1 = Ok (MultiScale image)
           ∧ non_empty (carried_by (Labelled image_xy_16)) && non_empty (Some my_space)
             = false
           ∧ keys (children image) = ["scale0"; "scale1"; "scale2"]
           ∧ _get_transformations image = Ok (Some my_space).
Proof.
  eexists. split; [reflexivity|].
  apply (X3_raster_parse_mapping_and_levels Labels2DModel (Labelled image_xy_16) None
           (Some my_space) (Some [2; 2]%positive) no_kwargs (MultiScale _)).
  reflexivity.
Defined.





(** X6. An array without labels that is parsed without [dims], scale
    factors and keyword arguments is taken to be in the order of the model.
    With as many axes as the model has dims it is put on dask and labelled
    as it is, with the mapping passed or the default one.  With fewer axes
    the conversion raises [IndexError], with more axes the [ValueError] of
    the library; neither is turned into the error of the parser on
    transposing.  The caller's array is left as it was. *)
Theorem X6_raster_parse_unlabelled cls shape t :
  RasterSchema.parse cls (NumpyInput shape) None t None no_kwargs
  = (if bool_decide (length shape < length (dims cls)) then Raise IndexError
     else if bool_decide (length (dims cls) < length shape)
     then Raise (ValueError LibraryValueError)
     else Ok (SingleScale {| da_spatial_image := true; da_dims := dims cls;
                             da_shape := shape; da_data := DaskArray;
                             da_transform := Some (parsed_transformations None t) |}),
     NumpyInput shape).
Proof.
  unfold RasterSchema.parse, no_kwargs.
  rewrite bool_decide_eq_false_2 by apply not_elem_of_nil. simpl.
  unfold RasterSchema.transpose_to_canonical. simpl.
  rewrite bool_decide_eq_false_2 by (by intros ?). simpl.
  unfold RasterSchema.finish_parse, to_spatial_image.
  rewrite bool_decide_eq_true_2 by constructor.
  by repeat case_bool_decide.
Qed.

Lemma X6_raster_parse_unlabelled_witness :
  RasterSchema.parse Image2DModel (NumpyInput [3; 5]) None None None no_kwargs
  = (Raise IndexError, NumpyInput [3; 5])
  ∧ RasterSchema.parse Labels2DModel (NumpyInput [2; 3; 5]) None None None no_kwargs
    = (Raise (ValueError LibraryValueError), NumpyInput [2; 3; 5]).
Proof.
  split.
  - apply (X6_raster_parse_unlabelled Image2DModel [3; 5] None).
  - apply (X6_raster_parse_unlabelled Labels2DModel [2; 3; 5] None).
Defined.

(** ** Raster: the names of the levels *)

Lemma mapM_unit_Raise {A} (f : A → Result unit) l e :
  (∀ x, f x = Ok tt ∨ f x = Raise e) →
  Exists (λ x, f x = Raise e) l →
  mapM f l = Raise e.
Proof.
  intros Hf. induction 1 as [x l Hx|x l _ IH]; simpl.
  - by rewrite Hx.
  - destruct (Hf x) as [->| ->]; [|done]. simpl. by rewrite IH.
Qed.

Lemma zip_differ `{EqDecision A} (l1 l2 : list A) :
  length l1 = length l2 → l1 ≠ l2 → Exists (λ p, p.1 ≠ p.2) (zip l1 l2).
Proof.
  revert l2. induction l1 as [|x l1 IH]; intros [|y l2] Hlen Hne; try done.
  simpl. destruct (decide (x = y)) as [->|Hxy].
  - right. apply IH; [by injection Hlen|]. by intros ->.
  - by left.
Qed.

(** X7. A pyramid whose levels are not named [scale0], [scale1], ... in
    this order is refused by [validate] with the error on the key, whatever
    the levels hold. *)
Theorem X7_multiscale_wrong_key cls (data : MultiscaleSpatialImage) :
  keys (children data) ≠ scale_key <$> seq 0 (length (children data)) →
  RasterSchema.validate_MultiscaleSpatialImage cls data
  = Raise (ValueError WrongMultiscaleKey).
Proof.
  intros Hkeys. unfold RasterSchema.validate_MultiscaleSpatialImage.
  assert (length (keys (children data)) = length (children data)) as Hlen.
  { unfold keys. by rewrite length_fmap. }
  rewrite (mapM_unit_Raise _ _ (ValueError WrongMultiscaleKey)); [done| |].
  - intros [j k]. simpl. case_bool_decide; auto.
  - rewrite Hlen.
    eapply Exists_impl;
      [apply zip_differ; [by rewrite length_fmap, length_seq|done]|].
    intros [j k] Hjk. simpl in *. by rewrite bool_decide_eq_true_2.
Qed.

Lemma X7_multiscale_wrong_key_witness :
  RasterSchema.validate_MultiscaleSpatialImage Labels2DModel
    {| children := [("scale1", [("image", labels_yx)])] |}
  = Raise (ValueError WrongMultiscaleKey).
Proof.
  apply (X7_multiscale_wrong_key Labels2DModel
           {| children := [("scale1", [("image", labels_yx)])] |}).
  vm_compute. congruence.
Defined.

(** ** The schema of an element *)

Lemma dims_c_z cls :
  (bool_decide ("c" ∈ dims cls), bool_decide ("z" ∈ dims cls))
  = match cls with
    | Labels2DModel => (false, false)
    | Labels3DModel => (false, true)
    | Image2DModel => (true, false)
    | Image3DModel => (true, true)
    end.
Proof. by destruct cls; vm_compute. Qed.

(** X8. [get_schema] names a model only after [validate] of that model has
    accepted the element, and the model is of the type of the element; for
    a raster element it is the model whose dims agree with the axes that
    [get_dims] reads on whether there is a channel axis and whether there is
    a z axis.  This holds for every reading of the axes. *)
Theorem X8_get_schema_sound get_dims e schema :
  get_schema get_dims e = Ok schema →
  match schema, e with
  | RasterSchema_ cls, Raster el =>
      RasterSchema.validate cls el = Ok tt
      ∧ ∃ axes, get_dims el = Ok axes
                ∧ ("c" ∈ axes ↔ "c" ∈ dims cls) ∧ ("z" ∈ axes ↔ "z" ∈ dims cls)
  | ShapesModel_, Shapes data => ShapesModel.validate data = Ok tt
  | PointsModel_, Points data => PointsModel.validate data = Ok tt
  | TableModel_, Table data => TableModel.validate data = Ok tt
  | _, _ => False
  end.
Proof.
  unfold get_schema. destruct e as [el|data|data|data|]; simpl; [| | | |done].
  - destruct (match el with SingleScale image => _ | MultiScale _ => _ end); [done|].
    destruct (get_dims el) as [axes|]; [|done]. simpl.
    case_bool_decide as Hc; case_bool_decide as Hz;
      match goal with
      | |- context [RasterSchema.validate ?cls el] =>
          destruct (RasterSchema.validate cls el) as [[]|] eqn:Hvalid; [|done];
          intros [= <-]; (split; [done|]); exists axes; (split; [done|]);
          pose proof (f_equal fst (dims_c_z cls)) as Hc';
          pose proof (f_equal snd (dims_c_z cls)) as Hz';
          cbn [fst snd] in Hc', Hz';
          first [apply bool_decide_eq_true in Hc'|apply bool_decide_eq_false in Hc'];
          first [apply bool_decide_eq_true in Hz'|apply bool_decide_eq_false in Hz']
      end; tauto.
  - destruct (ShapesModel.validate data) as [[]|]; [|done]. by intros [= <-].
  - destruct (PointsModel.validate data) as [[]|]; [|done]. by intros [= <-].
  - destruct (TableModel.validate data) as [[]|]; [|done]. by intros [= <-].
Qed.

Lemma X8_get_schema_sound_witness :
  RasterSchema.validate Labels2DModel (SingleScale labels_yx) = Ok tt
  ∧ ∃ axes, Ok (da_dims labels_yx) = Ok axes
            ∧ ("c" ∈ axes ↔ "c" ∈ dims Labels2DModel)
            ∧ ("z" ∈ axes ↔ "z" ∈ dims Labels2DModel).
Proof.
  apply (X8_get_schema_sound (λ _, Ok (da_dims labels_yx)) (Raster (SingleScale labels_yx))
           (RasterSchema_ Labels2DModel)).
  reflexivity.
Defined.

(** X9. What [RasterSchema.parse] of a model returns is recognised by
    [get_schema] as of that model, when [get_dims] reads from it the dims
    of the model. *)
Theorem X9_get_schema_of_parsed get_dims cls data dims_ t scale_factors kwargs el :
  (RasterSchema.parse cls data dims_ t scale_factors kwargs).1 = Ok el →
  get_dims el = Ok (dims cls) →
  get_schema get_dims (Raster el) = Ok (RasterSchema_ cls).
Proof.
  intros (Hvalid & _ & Hel)%parse_Ok Hdims.
  unfold get_schema.
  assert (match el with
          | SingleScale image => negb (da_spatial_image image)
          | MultiScale _ => false
          end = false) as ->.
  { destruct el as [image|image]; [|done].
    destruct scale_factors; [done|]. destruct Hel as [Hsi _]. by rewrite Hsi. }
  rewrite Hdims. simpl.
  pose proof (f_equal fst (dims_c_z cls)) as Hc.
  pose proof (f_equal snd (dims_c_z cls)) as Hz.
  cbn [fst snd] in Hc, Hz. rewrite Hc, Hz.
  by destruct cls; rewrite Hvalid.
Qed.

Lemma X9_get_schema_of_parsed_witness :
  get_schema (λ _, Ok [Y; X]) (Raster (SingleScale labels_yx))
  = Ok (RasterSchema_ Labels2DModel).
Proof.
  apply (X9_get_schema_of_parsed (λ _, Ok [Y; X]) Labels2DModel (Labelled labels_yx)
           None None None no_kwargs (SingleScale labels_yx)); reflexivity.
Defined.

(** ** Shapes: what [parse] returns *)

Lemma GeometryType_of_code_Ok geometry g :
  GeometryType_of_code geometry = Ok g →
  (is_Point g = true ↔ geometry = 0%Z)
  ∧ (supported g = true → geometry = 0 ∨ geometry = 3 ∨ geometry = 6)%Z.
Proof.
  destruct geometry as [|p|p]; try done;
    do 3 (try destruct p as [p|p|]); try done;
    intros [= <-]; simpl; split; try done; intros; lia.
Qed.

(** What lines 384-390 and 410-416 return for a fresh frame. *)
Lemma shapes_finish_parse_Ok is_point radius t geoms df :
  ShapesModel.finish_parse is_point radius t (new_GeoDataFrame geoms) = Ok df →
  ShapesModel.validate df = Ok tt
  ∧ attrs_transform df = Some (parsed_transformations None t)
  ∧ columns df !! ShapesModel.GEOMETRY_KEY = Some (GeoSeries geoms)
  ∧ (∃ g rest, geoms = g :: rest ∧ supported g = true
               ∧ (is_Point g = true → is_point = true))
  ∧ (if is_point
     then ∃ r, radius = Some r ∧ length r = length geoms
               ∧ columns df !! ShapesModel.RADIUS_KEY = Some (Series r)
     else columns df !! ShapesModel.RADIUS_KEY = None).
Proof.
  unfold ShapesModel.finish_parse.
  set (s := if is_point then _ else _).
  assert (match s with
          | Ok df1 =>
              attrs_transform df1 = None
              ∧ columns df1 !! ShapesModel.GEOMETRY_KEY = Some (GeoSeries geoms)
              ∧ (if is_point
                 then ∃ r, radius = Some r ∧ length r = length geoms
                           ∧ columns df1 !! ShapesModel.RADIUS_KEY = Some (Series r)
                 else columns df1 !! ShapesModel.RADIUS_KEY = None)
          | Raise _ => True
          end) as Hs.
  { subst s. destruct is_point; [|done].
    destruct radius as [r|]; [|done]. unfold setitem.
    rewrite n_rows_new_GeoDataFrame.
    case_bool_decide; [|done]. simpl.
    split; [done|]. split; [done|]. exists r. by rewrite lookup_insert_eq. }
  destruct s as [df1|]; [|done]. destruct Hs as (Htr & Hgeom & Hradius). simpl.
  rewrite run_parse_transformations_eq. simpl. rewrite Htr. simpl.
  destruct (ShapesModel.validate _) as [[]|] eqn:Hvalid; [|done].
  simpl. intros [= <-]. simpl.
  split; [done|]. split; [done|]. split; [done|]. split; [|done].
  unfold ShapesModel.validate in Hvalid. simpl in Hvalid. rewrite Hgeom in Hvalid.
  destruct geoms as [|g rest]; [done|]. exists g, rest. split; [done|].
  destruct (supported g); [|done]. split; [done|].
  intros Hp. rewrite Hp in Hvalid. simpl in Hvalid.
  destruct is_point; [done|]. by rewrite Hradius in Hvalid.
Qed.

(** X10. When [ShapesModel.parse] of a ragged array returns, the geometry
    type is 0, 3 or 6, [validate] accepts the frame, and the frame carries
    the mapping passed, or the default one.  For type 0 a radius was passed,
    of one value per row of coordinates, and it is the radius column; for
    the other types there is no radius column, whatever was passed. *)
Theorem X10_shapes_parse_ndarray_result data geometry offsets radius t df :
  ShapesModel.parse_ndarray data geometry offsets radius t = Ok df →
  (geometry = 0 ∨ geometry = 3 ∨ geometry = 6)%Z
  ∧ ShapesModel.validate df = Ok tt
  ∧ attrs_transform df = Some (parsed_transformations None t)
  ∧ (if decide (geometry = 0%Z)
     then ∃ r, radius = Some r ∧ length r = length data
               ∧ columns df !! ShapesModel.RADIUS_KEY = Some (Series r)
     else columns df !! ShapesModel.RADIUS_KEY = None).
Proof.
  unfold ShapesModel.parse_ndarray.
  destruct (GeometryType_of_code geometry) as [g|] eqn:Hcode; [|done]. simpl.
  destruct (GeometryType_of_code_Ok _ _ Hcode) as [Hpoint Hsupported].
  destruct (from_ragged_array g data offsets) as [geoms|] eqn:Hgeoms; [|done]. simpl.
  intros (Hvalid & Htr & Hgeom & (g' & rest & -> & Hg' & _) & Hradius)%shapes_finish_parse_Ok.
  assert (g' = g) as ->.
  { unfold from_ragged_array in Hgeoms.
    assert (∃ n, g' :: rest = replicate n g) as [n Hn].
    { destruct g; try done; repeat case_bool_decide; try done;
        try (injection Hgeoms as <-; eauto);
        destruct offsets as [o|]; try done; repeat case_bool_decide; try done;
        destruct (last o) as [[|? ?]|]; try done; injection Hgeoms as <-; eauto. }
    destruct n; [done|]. by injection Hn. }
  split; [auto|]. split; [done|]. split; [done|].
  destruct (is_Point g) eqn:Hp.
  - rewrite decide_True by (by apply Hpoint).
    destruct Hradius as (r & -> & Hlen & Hcol). exists r. split; [done|]. split; [|done].
    rewrite Hlen. destruct g; try done. unfold from_ragged_array in Hgeoms.
    repeat case_bool_decide; try done. injection Hgeoms as Hgeoms.
    by rewrite <- Hgeoms, length_replicate.
  - rewrite decide_False; [done|]. intros Hzero%Hpoint. by rewrite Hzero in Hp.
Qed.

Lemma X10_shapes_parse_ndarray_result_witness :
  ∃ df, ShapesModel.parse_ndarray [[1; 2]; [3; 4]; [5; 6]]%Z 3 (Some [[0; 3]; [0; 1]])
          (Some [7%Z]) None = Ok df
        ∧ ShapesModel.validate df = Ok tt
        ∧ attrs_transform df = Some default_mapping
        ∧ columns df !! ShapesModel.RADIUS_KEY = None.
Proof.
  eexists. split; [reflexivity|].
  apply (X10_shapes_parse_ndarray_result [[1; 2]; [3; 4]; [5; 6]]%Z 3
           (Some [[0; 3]; [0; 1]]) (Some [7%Z]) None).
  reflexivity.
Defined.

(** X11. When [ShapesModel.parse] of a file returns, the file held a
    geometry collection that is not empty, whose first geometry is a point,
    a polygon or a multipolygon; the geometries are the geometry column,
    [validate] accepts the frame, and the frame carries the mapping
    passed, or the default one.  If the first geometry is a point, a radius
    was passed, of one value per geometry, and it is the radius column;
    otherwise there is no radius column, whatever was passed. *)
Theorem X11_shapes_parse_path_result data radius t df :
  ShapesModel.parse_path data radius t = Ok df →
  ∃ g rest, data = Collection (g :: rest) ∧ supported g = true
    ∧ columns df !! ShapesModel.GEOMETRY_KEY = Some (GeoSeries (g :: rest))
    ∧ ShapesModel.validate df = Ok tt
    ∧ attrs_transform df = Some (parsed_transformations None t)
    ∧ (if is_Point g
       then ∃ r, radius = Some r ∧ length r = S (length rest)
                 ∧ columns df !! ShapesModel.RADIUS_KEY = Some (Series r)
       else columns df !! ShapesModel.RADIUS_KEY = None).
Proof.
  unfold ShapesModel.parse_path. destruct data as [[|g rest]|]; try done.
  intros (Hvalid & Htr & Hgeom & (g' & rest' & [= <- <-] & Hg & _) & Hradius)
    %shapes_finish_parse_Ok.
  exists g, rest. by repeat split.
Qed.

Lemma X11_shapes_parse_path_result_witness :
  ∃ g rest, Collection [POLYGON; LINESTRING] = Collection (g :: rest)
    ∧ supported g = true
    ∧ columns (with_geometry [POLYGON; LINESTRING] one_polygon_parsed)
        !! ShapesModel.GEOMETRY_KEY = Some (GeoSeries (g :: rest))
    ∧ ShapesModel.validate (with_geometry [POLYGON; LINESTRING] one_polygon_parsed) = Ok tt
    ∧ attrs_transform (with_geometry [POLYGON; LINESTRING] one_polygon_parsed)
      = Some (parsed_transformations None None)
    ∧ (if is_Point g
       then ∃ r, Some [7%Z] = Some r ∧ length r = S (length rest)
                 ∧ columns (with_geometry [POLYGON; LINESTRING] one_polygon_parsed)
                     !! ShapesModel.RADIUS_KEY = Some (Series r)
       else columns (with_geometry [POLYGON; LINESTRING] one_polygon_parsed)
              !! ShapesModel.RADIUS_KEY = None).
Proof.
  apply (X11_shapes_parse_path_result (Collection [POLYGON; LINESTRING]) (Some [7%Z]) None).
  reflexivity.
Defined.

(** X12. When [ShapesModel.parse] of an existing frame returns, the frame
    has the columns and rows it had, [validate] accepts it, and it carries
    the mapping it carried, else the one passed, else the default; the
    frame and the argument never both give one. *)
Theorem X12_shapes_parse_frame_result t (data data' : GeoDataFrame) :
  ShapesModel.parse_GeoDataFrame t data = (Ok tt, data') →
  columns data' = columns data ∧ n_rows data' = n_rows data
  ∧ ShapesModel.validate data' = Ok tt
  ∧ non_empty (attrs_transform data) && non_empty t = false
  ∧ attrs_transform data' = Some (parsed_transformations (attrs_transform data) t).
Proof.
  unfold ShapesModel.parse_GeoDataFrame. unfold_py. simpl.
  destruct (columns data !! ShapesModel.GEOMETRY_KEY) as [column|]; [|done].
  destruct (match column with GeoSeries _ => _ | Series _ => _ end) as [b|];
    [|done].
  destruct (b && _); [done|].
  rewrite _parse_transformations_eq. simpl.
  destruct (non_empty (attrs_transform data) && non_empty t); [done|].
  destruct (ShapesModel.validate _) as [[]|] eqn:Hvalid; [|done].
  by intros [= <-].
Qed.

Lemma X12_shapes_parse_frame_result_witness :
  columns one_polygon_parsed = columns one_polygon
  ∧ n_rows one_polygon_parsed = n_rows one_polygon
  ∧ ShapesModel.validate one_polygon_parsed = Ok tt
  ∧ non_empty (attrs_transform one_polygon) && non_empty None = false
  ∧ attrs_transform one_polygon_parsed
    = Some (parsed_transformations (attrs_transform one_polygon) None).
Proof.
  apply (X12_shapes_parse_frame_result None one_polygon one_polygon_parsed).
  reflexivity.
Defined.





(** ** Points: what [parse] returns *)

(** What [PointsModel._add_metadata_and_validate] returns. *)
Lemma add_metadata_and_validate_Ok data fk ik t d :
  PointsModel._add_metadata_and_validate data fk ik t = Ok d →
  df_columns d = df_columns data
  ∧ PointsModel.validate d = Ok tt
  ∧ df_transform d = Some (parsed_transformations (df_transform data) t)
  ∧ (∀ k, fk = Some k ∨ ik = Some k → is_Some (df_columns data !! k))
  ∧ match fk, ik with
    | None, None => df_spatialdata_attrs d = df_spatialdata_attrs data
    | _, _ =>
        ∃ a, df_spatialdata_attrs d = Some a
             ∧ a !! PointsModel.FEATURE_KEY = fk ∧ a !! PointsModel.INSTANCE_KEY = ik
             ∧ ∀ key, key ≠ PointsModel.FEATURE_KEY → key ≠ PointsModel.INSTANCE_KEY →
                      a !! key = None
    end.
Proof.
  unfold PointsModel._add_metadata_and_validate.
  destruct fk as [f|], ik as [i|]; simpl.
  - case_bool_decide as Hf; [done|]. simpl. case_bool_decide as Hi; [done|]. simpl.
    rewrite run_parse_transformations_eq. simpl.
    destruct (non_empty (df_transform data) && non_empty t); [done|].
    simpl. destruct (PointsModel.validate _) as [[]|] eqn:Hvalid; [|done].
    simpl. intros [= <-]. simpl. repeat split; try done.
    + intros k [[= <-]|[= <-]]; by apply not_eq_None_Some.
    + eexists. split; [done|]. split; [|split].
      * by rewrite lookup_insert_ne, lookup_insert_eq.
      * by rewrite lookup_insert_eq.
      * intros key ? ?. by rewrite !lookup_insert_ne, lookup_empty.
  - case_bool_decide as Hf; [done|]. simpl.
    rewrite run_parse_transformations_eq. simpl.
    destruct (non_empty (df_transform data) && non_empty t); [done|].
    simpl. destruct (PointsModel.validate _) as [[]|] eqn:Hvalid; [|done].
    simpl. intros [= <-]. simpl. repeat split; try done.
    + intros k [[= <-]|[=]]. by apply not_eq_None_Some.
    + eexists. split; [done|]. split; [|split].
      * by rewrite lookup_insert_eq.
      * by rewrite lookup_insert_ne, lookup_empty.
      * intros key ? ?. by rewrite !lookup_insert_ne, lookup_empty.
  - case_bool_decide as Hi; [done|]. simpl.
    rewrite run_parse_transformations_eq. simpl.
    destruct (non_empty (df_transform data) && non_empty t); [done|].
    simpl. destruct (PointsModel.validate _) as [[]|] eqn:Hvalid; [|done].
    simpl. intros [= <-]. simpl. repeat split; try done.
    + intros k [[=]|[= <-]]. by apply not_eq_None_Some.
    + eexists. split; [done|]. split; [|split].
      * by rewrite lookup_insert_ne, lookup_empty.
      * by rewrite lookup_insert_eq.
      * intros key ? ?. by rewrite !lookup_insert_ne, lookup_empty.
  - rewrite run_parse_transformations_eq. simpl.
    destruct (non_empty (df_transform data) && non_empty t); [done|].
    simpl. destruct (PointsModel.validate _) as [[]|] eqn:Hvalid; [|done].
    simpl. intros [= <-]. simpl. repeat split; try done.
    by intros k [[=]|[=]].
Qed.

(** X14. When [PointsModel._add_metadata_and_validate] returns, the table
    has the columns it had, [validate] accepts it, and it carries the
    mapping it carried, else the one passed, else the default.  If a feature
    key or an instance key is given, each names a column, and the metadata
    block is replaced by one that holds the keys given and nothing else;
    if neither is given the block, or its absence, is left as it was. *)
Theorem X14_points_metadata data fk ik t d :
  PointsModel._add_metadata_and_validate data fk ik t = Ok d →
  df_columns d = df_columns data
  ∧ PointsModel.validate d = Ok tt
  ∧ df_transform d = Some (parsed_transformations (df_transform data) t)
  ∧ (∀ k, fk = Some k ∨ ik = Some k → is_Some (df_columns data !! k))
  ∧ match fk, ik with
    | None, None => df_spatialdata_attrs d = df_spatialdata_attrs data
    | _, _ =>
        ∃ a, df_spatialdata_attrs d = Some a
             ∧ a !! PointsModel.FEATURE_KEY = fk ∧ a !! PointsModel.INSTANCE_KEY = ik
             ∧ ∀ key, key ≠ PointsModel.FEATURE_KEY → key ≠ PointsModel.INSTANCE_KEY →
                      a !! key = None
    end.
Proof. apply add_metadata_and_validate_Ok. Qed.

Lemma X14_points_metadata_witness :
  ∃ d, PointsModel._add_metadata_and_validate
         (PointsModel.assign "gene" Category points_xy) (Some "gene") None None = Ok d
       ∧ df_columns d = df_columns (PointsModel.assign "gene" Category points_xy)
       ∧ PointsModel.validate d = Ok tt
       ∧ df_transform d = Some default_mapping
       ∧ (∀ k, Some "gene" = Some k ∨ None = Some k →
               is_Some (df_columns (PointsModel.assign "gene" Category points_xy) !! k))
       ∧ ∃ a, df_spatialdata_attrs d = Some a
              ∧ a !! PointsModel.FEATURE_KEY = Some "gene"
              ∧ a !! PointsModel.INSTANCE_KEY = None
              ∧ ∀ key, key ≠ PointsModel.FEATURE_KEY → key ≠ PointsModel.INSTANCE_KEY →
                       a !! key = None.
Proof.
  eexists. split; [reflexivity|].
  apply (X14_points_metadata (PointsModel.assign "gene" Category points_xy)
           (Some "gene") None None).
  reflexivity.
Defined.

Lemma lookup_copy_columns l table c :
  df_columns (PointsModel.copy_columns l table) !! c
  = match (list_to_map l : gmap string DType) !! c with
    | Some ty => Some ty
    | None => df_columns table !! c
    end.
Proof.
  unfold PointsModel.copy_columns. induction l as [|[k ty] l IH]; simpl.
  - by rewrite lookup_empty.
  - destruct (decide (k = c)) as [->|Hk].
    + by rewrite !lookup_insert_eq.
    + by rewrite !lookup_insert_ne.
Qed.

Lemma lookup_other_columns (annotation : gmap string DType) (fk ik : option string) c :
  (list_to_map (filter (λ kt : string * DType, Some kt.1 ≠ fk ∧ Some kt.1 ≠ ik)
                       (map_to_list annotation)) : gmap string DType) !! c
  = if bool_decide (Some c ≠ fk ∧ Some c ≠ ik) then annotation !! c else None.
Proof.
  set (l := filter _ _).
  assert (NoDup l.*1) as Hl.
  { apply (sublist_NoDup _ (map_to_list annotation).*1);
      [apply NoDup_fst_map_to_list|apply fmap_sublist, sublist_filter]. }
  destruct (list_to_map l !! c) as [ty|] eqn:Hc.
  - apply elem_of_list_to_map in Hc; [|done].
    apply list_elem_of_filter in Hc as [Hkeys Hc]. simpl in Hkeys.
    apply elem_of_map_to_list in Hc. by rewrite bool_decide_eq_true_2.
  - case_bool_decide as Hkeys; [|done].
    destruct (annotation !! c) as [ty|] eqn:Ha; [|done].
    apply not_elem_of_list_to_map in Hc. destruct Hc.
    apply list_elem_of_fmap. exists (c, ty). split; [done|].
    apply list_elem_of_filter. split; [done|]. by apply elem_of_map_to_list.
Qed.

Lemma lookup_axes_columns (axes : list string) (ty : DType) c :
  (list_to_map ((λ ax, (ax, ty)) <$> axes) : gmap string DType) !! c
  = if bool_decide (c ∈ axes) then Some ty else None.
Proof.
  induction axes as [|ax axes IH]; csimpl.
  - by rewrite lookup_empty.
  - destruct (decide (ax = c)) as [->|Hax].
    + rewrite lookup_insert_eq. by rewrite bool_decide_eq_true_2 by left.
    + rewrite lookup_insert_ne by done. rewrite IH.
      apply (f_equal (λ b : bool, if b then Some ty else None)).
      apply bool_decide_ext. rewrite elem_of_cons.
      split; [by right|]. by intros [->|?].
Qed.

Lemma points_validate_numeric d ax ty :
  PointsModel.validate d = Ok tt → ax ∈ [X; Y; Z_] → df_columns d !! ax = Some ty →
  PointsModel.numeric ty = true.
Proof.
  unfold PointsModel.validate. intros Hvalid Hax Hty.
  destruct (mapM _ _) as [r|] eqn:Hxyz; [|done].
  assert (∃ r, mapM (λ ax, match df_columns d !! ax with
                           | Some t => if PointsModel.numeric t then Ok tt
                                       else Raise AssertionError
                           | None => Ok tt
                           end) [X; Y; Z_] = Ok r) as Hall by eauto.
  apply mapM_unit_Ok in Hall. rewrite Forall_forall in Hall.
  specialize (Hall ax Hax). rewrite Hty in Hall.
  by destruct (PointsModel.numeric ty).
Qed.

(** X15. [PointsModel.parse] of an array without [annotation] returns
    only for an array of two axes with at most three columns, of a dtype
    that [validate] accepts if there is a column at all.  The table has
    one column per axis name, of the dtype of the array, and the mapping
    passed, or the default one; it has no metadata block, whatever feature
    key or instance key was passed. *)
Theorem X15_points_parse_ndarray_plain data fk ik t d :
  PointsModel.parse_ndarray data None fk ik t = Ok d →
  ∃ n ndim, PointsModel.nd_shape data = [n; ndim] ∧ (ndim ≤ 3)%nat
    ∧ ((0 < ndim)%nat → PointsModel.numeric (PointsModel.nd_dtype data) = true)
    ∧ (∀ c, df_columns d !! c
            = if bool_decide (c ∈ take ndim [X; Y; Z_]) then Some (PointsModel.nd_dtype data) else None)
    ∧ df_transform d = Some (parsed_transformations None t)
    ∧ df_spatialdata_attrs d = None.
Proof.
  unfold PointsModel.parse_ndarray.
  destruct (PointsModel.nd_shape data) as [|n [|ndim [|]]]; try done.
  case_bool_decide as Hndim; [done|].
  assert (ndim ≤ 3)%nat as Hle.
  { destruct (decide (ndim ≤ 3)%nat) as [|Hgt]; [done|].
    rewrite length_take in Hndim. simpl in Hndim. lia. }
  intros (Hcols & Hvalid & Htr & _ & Hattrs)%add_metadata_and_validate_Ok.
  exists n, ndim. split; [done|]. cbn [df_columns df_transform df_spatialdata_attrs] in *.
  split; [done|]. split; [|split; [|done]].
  - intros Hpos. apply (points_validate_numeric d X); [done|by left|].
    rewrite Hcols, lookup_axes_columns. rewrite bool_decide_eq_true_2; [done|].
    destruct ndim; [lia|]. by left.
  - intros c. by rewrite Hcols, lookup_axes_columns.
Qed.

Lemma X15_points_parse_ndarray_plain_witness :
  ∃ d, PointsModel.parse_ndarray
         {| PointsModel.nd_shape := [4; 2]; PointsModel.nd_dtype := Float64 |}
         None (Some "gene") None None = Ok d
       ∧ ∃ n ndim, [4; 2] = [n; ndim] ∧ (ndim ≤ 3)%nat
           ∧ ((0 < ndim)%nat → PointsModel.numeric Float64 = true)
           ∧ (∀ c, df_columns d !! c
                   = if bool_decide (c ∈ take ndim [X; Y; Z_]) then Some Float64 else None)
           ∧ df_transform d = Some (parsed_transformations None None)
           ∧ df_spatialdata_attrs d = None.
Proof.
  eexists. split; [reflexivity|].
  apply (X15_points_parse_ndarray_plain
           {| PointsModel.nd_shape := [4; 2]; PointsModel.nd_dtype := Float64 |}
           (Some "gene") None None).
  reflexivity.
Defined.

(** X16. When [PointsModel.parse] of an array with [annotation] returns,
    the feature key and the instance key, if given, name columns of the
    annotation, and the columns of the table are these: every column of the
    annotation, under its name and with its dtype, but for the column of the
    feature key, which is categorical unless it is the column of the
    instance key as well; and the axes that no column of the annotation is
    named after, with the dtype of the array. *)
Theorem X16_points_parse_ndarray_annotated data annotation fk ik t d :
  PointsModel.parse_ndarray data (Some annotation) fk ik t = Ok d →
  ∃ n ndim, PointsModel.nd_shape data = [n; ndim]
    ∧ (∀ k, fk = Some k ∨ ik = Some k → is_Some (annotation !! k))
    ∧ ∀ c, df_columns d !! c
           = match annotation !! c with
             | Some ty =>
                 Some (if bool_decide (fk = Some c ∧ ik ≠ Some c) then Category else ty)
             | None =>
                 if bool_decide (c ∈ take ndim [X; Y; Z_])
                 then Some (PointsModel.nd_dtype data) else None
             end.
Proof.
  unfold PointsModel.parse_ndarray.
  destruct (PointsModel.nd_shape data) as [|n [|ndim [|]]]; try done.
  case_bool_decide as Hndim; [done|].
  set (table0 := {| df_columns := list_to_map _ |}).
  assert (∀ c, df_columns table0 !! c
               = if bool_decide (c ∈ take ndim [X; Y; Z_])
                 then Some (PointsModel.nd_dtype data) else None) as H0.
  { intros c. apply lookup_axes_columns. }
  clearbody table0.
  set (s1 := match fk with Some _ => _ | None => _ end).
  assert (match s1 with
          | Ok table1 =>
              (∀ k, fk = Some k → is_Some (annotation !! k))
              ∧ ∀ c, df_columns table1 !! c
                     = if bool_decide (fk = Some c) then Some Category
                       else df_columns table0 !! c
          | Raise _ => True
          end) as H1.
  { subst s1. destruct fk as [f|]; [|split; [done|]; intros c; by case_bool_decide].
    unfold PointsModel.annotation_column.
    destruct (annotation !! f) as [ty|] eqn:Hf; [|done]. simpl.
    split; [by intros k [= <-]|]. intros c.
    case_bool_decide as Hc; [injection Hc as ->; by rewrite lookup_insert_eq|].
    rewrite lookup_insert_ne; [done|]. by intros ->. }
  destruct s1 as [table1|]; [|done]. destruct H1 as [Hfk H1]. simpl.
  set (s2 := match ik with Some _ => _ | None => _ end).
  assert (match s2 with
          | Ok table2 =>
              (∀ k, ik = Some k → is_Some (annotation !! k))
              ∧ ∀ c, df_columns table2 !! c
                     = if bool_decide (ik = Some c) then annotation !! c
                       else df_columns table1 !! c
          | Raise _ => True
          end) as H2.
  { subst s2. destruct ik as [i|]; [|split; [done|]; intros c; by case_bool_decide].
    unfold PointsModel.annotation_column.
    destruct (annotation !! i) as [ty|] eqn:Hi; [|done]. simpl.
    split; [by intros k [= <-]|]. intros c.
    case_bool_decide as Hc; [injection Hc as <-; by rewrite lookup_insert_eq|].
    rewrite lookup_insert_ne; [done|]. by intros ->. }
  destruct s2 as [table2|]; [|done]. destruct H2 as [Hik H2]. simpl.
  intros (Hcols & _)%add_metadata_and_validate_Ok.
  exists n, ndim. split; [done|]. split; [intros k [?|?]; auto|].
  intros c. rewrite Hcols, lookup_copy_columns, lookup_other_columns, H2, H1, H0.
  destruct (decide (ik = Some c)) as [Hi|Hi].
  - rewrite (bool_decide_eq_false_2 (_ ∧ _)) by (intros [_ ?]; congruence).
    rewrite (bool_decide_eq_true_2 (ik = Some c)) by done.
    destruct (Hik c Hi) as [ty ->].
    by rewrite bool_decide_eq_false_2 by (by intros [_ ?]).
  - rewrite (bool_decide_eq_false_2 (ik = Some c)) by done.
    destruct (decide (fk = Some c)) as [Hf|Hf].
    + rewrite (bool_decide_eq_false_2 (_ ∧ _)) by (intros [? _]; congruence).
      rewrite (bool_decide_eq_true_2 (fk = Some c)) by done.
      destruct (Hfk c Hf) as [ty ->]. by rewrite bool_decide_eq_true_2.
    + rewrite (bool_decide_eq_true_2 (_ ∧ _)) by (split; congruence).
      rewrite (bool_decide_eq_false_2 (fk = Some c)) by done.
      destruct (annotation !! c) as [ty|]; [|done].
      by rewrite bool_decide_eq_false_2 by (by intros [? _]).
Qed.

Lemma X16_points_parse_ndarray_annotated_witness :
  ∃ d, PointsModel.parse_ndarray
         {| PointsModel.nd_shape := [4; 2]; PointsModel.nd_dtype := Float64 |}
         (Some {[ "gene" := OtherDType; "cell" := Int64 ]})
         (Some "gene") (Some "cell") None = Ok d
       ∧ ∃ n ndim, [4; 2] = [n; ndim]
           ∧ (∀ k, Some "gene" = Some k ∨ Some "cell" = Some k →
                   is_Some (({[ "gene" := OtherDType; "cell" := Int64 ]}
                             : gmap string DType) !! k))
           ∧ ∀ c, df_columns d !! c
                  = match ({[ "gene" := OtherDType; "cell" := Int64 ]}
                           : gmap string DType) !! c with
                    | Some ty =>
                        Some (if bool_decide (Some "gene" = Some c ∧ Some "cell" ≠ Some c)
                              then Category else ty)
                    | None =>
                        if bool_decide (c ∈ take ndim [X; Y; Z_])
                        then Some Float64 else None
                    end.
Proof.
  eexists. split; [vm_compute; reflexivity|].
  apply (X16_points_parse_ndarray_annotated
           {| PointsModel.nd_shape := [4; 2]; PointsModel.nd_dtype := Float64 |}
           {[ "gene" := OtherDType; "cell" := Int64 ]} (Some "gene") (Some "cell") None).
  vm_compute. reflexivity.
Defined.

Lemma mapM_Raise {A B} (f : A → Result B) l e :
  mapM f l = Raise e → ∃ x, x ∈ l ∧ f x = Raise e.
Proof.
  induction l as [|x l IH]; [done|]. simpl.
  destruct (f x) as [y|e'] eqn:Hx; simpl.
  - destruct (mapM f l) as [r|e'] eqn:Hl; [done|]. simpl. intros [= ->].
    destruct IH as (x' & ? & ?); [done|]. exists x'. split; [by right|done].
  - intros [= ->]. exists x. split; [by left|done].
Qed.

Lemma lookup_filter_columns (P : string * DType → Prop) `{∀ kt, Decision (P kt)}
    (m : gmap string DType) c :
  (list_to_map (filter P (map_to_list m)) : gmap string DType) !! c
  = match m !! c with
    | Some ty => if decide (P (c, ty)) then Some ty else None
    | None => None
    end.
Proof.
  set (l := filter _ _).
  assert (NoDup l.*1) as Hl.
  { apply (sublist_NoDup _ (map_to_list m).*1);
      [apply NoDup_fst_map_to_list|apply fmap_sublist, sublist_filter]. }
  destruct (list_to_map l !! c) as [ty|] eqn:Hc.
  - apply elem_of_list_to_map in Hc; [|done].
    apply list_elem_of_filter in Hc as [HP Hc].
    apply elem_of_map_to_list in Hc. rewrite Hc. by rewrite decide_True.
  - destruct (m !! c) as [ty|] eqn:Hm; [|done].
    case_decide as HP; [|done].
    apply not_elem_of_list_to_map in Hc. destruct Hc.
    apply list_elem_of_fmap. exists (c, ty). split; [done|].
    apply list_elem_of_filter. split; [done|]. by apply elem_of_map_to_list.
Qed.

(** X17. When [PointsModel.parse] of a dask frame returns, [validate]
    accepts the table, and the table carries the mapping that the frame
    carried, else the one passed, else the default.  A column of the frame
    that is neither a key nor the source of a coordinate is in the table
    under its own name, also when this is the name of an axis; the column
    of the instance key is in the table as it is in the frame; and the
    column of a feature key that is not the instance key is categorical in
    the table if it is not in the frame. *)
Theorem X17_points_parse_frame_result data coordinates fk ik t d :
  PointsModel.parse_DaskDataFrame data coordinates fk ik t = Ok d →
  PointsModel.validate d = Ok tt
  ∧ df_transform d = Some (parsed_transformations (df_transform data) t)
  ∧ (∀ c ty, df_columns data !! c = Some ty →
             Some c ≠ fk → Some c ≠ ik → c ∉ (map_to_list coordinates).*2 →
             df_columns d !! c = Some ty)
  ∧ (∀ k, ik = Some k →
          is_Some (df_columns data !! k) ∧ df_columns d !! k = df_columns data !! k)
  ∧ (∀ k, fk = Some k → ik ≠ Some k → df_columns data !! k ≠ Some Category →
          df_columns d !! k = Some Category).
Proof.
  unfold PointsModel.parse_DaskDataFrame.
  destruct (mapM _ _) as [selected|]; [|done]. simpl.
  set (table0 := {| df_columns := list_to_map selected |}).
  assert (df_transform table0 = df_transform data) as Htr0 by done.
  clearbody table0.
  set (s1 := match fk with Some _ => _ | None => _ end).
  assert (match s1 with
          | Ok table1 =>
              df_transform table1 = df_transform data
              ∧ ∀ k, fk = Some k → df_columns data !! k ≠ Some Category →
                     df_columns table1 !! k = Some Category
          | Raise _ => True
          end) as H1.
  { subst s1. destruct fk as [f|]; [|split; [done|]; by intros k [=]].
    unfold PointsModel.column.
    destruct (df_columns data !! f) as [ty|] eqn:Hf; [|done]. simpl.
    split; [by destruct ty|]. intros k [= <-] Hty.
    destruct ty; simpl; try (by rewrite lookup_insert_eq). by destruct Hty. }
  destruct s1 as [table1|]; [|done]. destruct H1 as [Htr1 H1]. simpl.
  set (s2 := match ik with Some _ => _ | None => _ end).
  assert (match s2 with
          | Ok table2 =>
              df_transform table2 = df_transform data
              ∧ (∀ k, ik = Some k →
                      is_Some (df_columns data !! k)
                      ∧ df_columns table2 !! k = df_columns data !! k)
              ∧ (∀ k, ik ≠ Some k → df_columns table2 !! k = df_columns table1 !! k)
          | Raise _ => True
          end) as H2.
  { subst s2. destruct ik as [i|]; [|split; [done|]; split; [by intros k [=]|done]].
    unfold PointsModel.column.
    destruct (df_columns data !! i) as [ty|] eqn:Hi; [|done]. simpl.
    split; [done|]. split.
    - intros k [= <-]. rewrite Hi. split; [done|]. by rewrite lookup_insert_eq.
    - intros k Hk. rewrite lookup_insert_ne; [done|]. by intros ->. }
  destruct s2 as [table2|]; [|done]. destruct H2 as (Htr2 & Hik & H2). simpl.
  fold (PointsModel.copy_columns
          (filter (λ kt : string * DType,
                     Some kt.1 ≠ fk ∧ Some kt.1 ≠ ik
                     ∧ kt.1 ∉ (map_to_list coordinates).*2)
                  (map_to_list (df_columns data))) table2).
  intros (Hcols & Hvalid & Htr & _)%add_metadata_and_validate_Ok.
  split; [done|]. split.
  { rewrite Htr. unfold PointsModel.copy_columns.
    by rewrite df_transform_foldr_assign, Htr2. }
  assert (∀ c, df_columns d !! c
               = match df_columns data !! c with
                 | Some ty =>
                     if decide (Some c ≠ fk ∧ Some c ≠ ik
                                ∧ c ∉ (map_to_list coordinates).*2)
                     then Some ty else df_columns table2 !! c
                 | None => df_columns table2 !! c
                 end) as Hd.
  { intros c. rewrite Hcols, lookup_copy_columns, lookup_filter_columns. simpl.
    destruct (df_columns data !! c) as [ty|]; [|done]. by case_decide. }
  split; [|split].
  - intros c ty Hc ? ? ?. rewrite Hd, Hc. by rewrite decide_True.
  - intros k Hk. destruct (Hik k Hk) as [[ty Hty] Htable]. split; [by exists ty|].
    rewrite Hd, Hty, decide_False by (intros (_ & ? & _); congruence).
    by rewrite Htable, Hty.
  - intros k Hfk Hnik Hcat. rewrite Hd.
    rewrite (H2 k Hnik), (H1 k Hfk Hcat).
    destruct (df_columns data !! k) as [ty|]; [|done].
    by rewrite decide_False by (intros (? & _); congruence).
Qed.

Lemma X17_points_parse_frame_result_witness :
  ∃ d, PointsModel.parse_DaskDataFrame
         (PointsModel.assign "gene" OtherDType (PointsModel.assign Z_ Int64 points_xy))
         {[ X := X; Y := Y ]} (Some "gene") None None = Ok d
       ∧ PointsModel.validate d = Ok tt
       ∧ df_transform d = Some default_mapping
       ∧ df_columns d !! Z_ = Some Int64
       ∧ df_columns d !! "gene" = Some Category.
Proof.
  eexists. split; [vm_compute; reflexivity|].
  lazymatch goal with
  | |- PointsModel.validate ?d = _ ∧ _ =>
      destruct (X17_points_parse_frame_result
                  (PointsModel.assign "gene" OtherDType
                     (PointsModel.assign Z_ Int64 points_xy))
                  {[ X := X; Y := Y ]} (Some "gene") None None d)
        as (Hvalid & Htr & Hother & _ & Hfeature); [vm_compute; reflexivity|]
  end.
  split; [exact Hvalid|]. split; [exact Htr|]. split.
  - apply Hother; [reflexivity|discriminate|discriminate|].
    vm_compute. intros H. repeat (apply elem_of_cons in H as [H|H]; [discriminate H|]).
    by apply elem_of_nil in H.
  - apply Hfeature; [reflexivity|discriminate|]. vm_compute. discriminate.
Defined.

(** X18. [PointsModel.parse] of a dask frame refuses a feature key whose
    column is categorical already, unless the key is the name of an axis
    that is selected or is the instance key as well: the column is not
    carried into the table, and the parse stops at the assertion that the
    table has it; or earlier, with [KeyError], at a column that the frame
    does not have. *)
Theorem X18_points_categorical_feature data coordinates f ik t :
  df_columns data !! f = Some Category →
  f ∉ take (size coordinates) [X; Y; Z_] →
  ik ≠ Some f →
  PointsModel.parse_DaskDataFrame data coordinates (Some f) ik t = Raise AssertionError
  ∨ PointsModel.parse_DaskDataFrame data coordinates (Some f) ik t = Raise KeyError.
Proof.
  intros Hf Haxes Hik. unfold PointsModel.parse_DaskDataFrame.
  destruct (mapM _ _) as [selected|e] eqn:Hselected; simpl.
  2:{ right. apply mapM_Raise in Hselected as (ax & _ & Hax).
      destruct (coordinates !! ax) as [c|]; [|by injection Hax as <-].
      unfold PointsModel.column in Hax.
      destruct (df_columns data !! c); simpl in Hax; [done|].
      congruence. }
  assert (selected.*1 = take (size coordinates) [X; Y; Z_]) as Hkeys.
  { apply mapM_Ok in Hselected. revert Hselected.
    generalize (take (size coordinates) [X; Y; Z_]). clear. intros axes Hselected.
    induction Hselected as [|ax [k ty] axes sel Hax _ IH]; [done|]. csimpl.
    rewrite IH. f_equal.
    destruct (coordinates !! ax) as [c|]; [|done].
    destruct (PointsModel.column data c); [|done]. by injection Hax as ->. }
  unfold PointsModel.column. rewrite Hf. simpl.
  set (table0 := {| df_columns := list_to_map selected |}).
  assert (df_columns table0 !! f = None) as H0.
  { apply not_elem_of_list_to_map. by rewrite Hkeys. }
  clearbody table0.
  set (s2 := match ik with Some _ => _ | None => _ end).
  assert (match s2 with
          | Ok table2 => df_columns table2 !! f = None
          | Raise e => e = KeyError
          end) as H2.
  { subst s2. destruct ik as [i|]; [|done]. unfold PointsModel.column.
    destruct (df_columns data !! i); [|done]. simpl.
    rewrite lookup_insert_ne; [done|]. by intros ->. }
  destruct s2 as [table2|e]; simpl; [|right; by rewrite H2].
  left. unfold PointsModel._add_metadata_and_validate. simpl.
  rewrite bool_decide_eq_true_2; [done|].
  fold (PointsModel.copy_columns
          (filter (λ kt : string * DType,
                     Some kt.1 ≠ Some f ∧ Some kt.1 ≠ ik
                     ∧ kt.1 ∉ (map_to_list coordinates).*2)
                  (map_to_list (df_columns data))) table2).
  rewrite lookup_copy_columns.
  rewrite (not_elem_of_list_to_map_1 _ f); [done|].
  intros ([k ty] & -> & [Hne _]%list_elem_of_filter)%list_elem_of_fmap. by destruct Hne.
Qed.

Lemma X18_points_categorical_feature_witness :
  PointsModel.parse_DaskDataFrame (PointsModel.assign "gene" Category points_xy)
    {[ X := X; Y := Y ]} (Some "gene") None None = Raise AssertionError
  ∨ PointsModel.parse_DaskDataFrame (PointsModel.assign "gene" Category points_xy)
      {[ X := X; Y := Y ]} (Some "gene") None None = Raise KeyError.
Proof.
  apply (X18_points_categorical_feature (PointsModel.assign "gene" Category points_xy)
           {[ X := X; Y := Y ]} "gene" None None).
  - reflexivity.
  - vm_compute. intros H. repeat (apply elem_of_cons in H as [H|H]; [discriminate H|]).
    by apply elem_of_nil in H.
  - discriminate.
Defined.

(** X19. [PointsModel.validate] accepts a table exactly when each of the
    columns x, y and z that it has is of a dtype float32, float64 or int64,
    it carries a mapping, and the feature key and the instance key that its
    metadata block holds name columns.  No column has to be there, and no
    column has to be categorical. *)
Theorem X19_points_validate data :
  PointsModel.validate data = Ok tt ↔
    (∀ ax ty, ax ∈ [X; Y; Z_] → df_columns data !! ax = Some ty →
              PointsModel.numeric ty = true)
    ∧ df_transform data ≠ None
    ∧ (∀ a key k, df_spatialdata_attrs data = Some a →
                  key ∈ [PointsModel.FEATURE_KEY; PointsModel.INSTANCE_KEY] →
                  a !! key = Some k → is_Some (df_columns data !! k)).
Proof.
  split.
  - intros Hvalid. split; [intros ax ty ? ?; by eapply points_validate_numeric|].
    unfold PointsModel.validate, PointsModel.column in Hvalid.
    destruct (mapM _ _) as [r|]; [|done]. simpl in Hvalid.
    case_bool_decide as Htr; [done|]. split; [done|].
    intros a key k Ha Hkey Hk. rewrite Ha in Hvalid.
    apply elem_of_cons in Hkey as [->|Hkey].
    + rewrite Hk in Hvalid. by destruct (df_columns data !! k).
    + apply list_elem_of_singleton in Hkey as ->. rewrite Hk in Hvalid.
      destruct (a !! PointsModel.FEATURE_KEY) as [f|];
        [destruct (df_columns data !! f); [|done]|];
        by destruct (df_columns data !! k).
  - intros (Hnumeric & Htr & Hkeys). unfold PointsModel.validate, PointsModel.column.
    destruct (proj2 (mapM_unit_Ok
                (λ ax, match df_columns data !! ax with
                       | Some t => if PointsModel.numeric t then Ok tt
                                   else Raise AssertionError
                       | None => Ok tt
                       end) [X; Y; Z_])) as [r ->].
    { apply Forall_forall. intros ax Hax.
      destruct (df_columns data !! ax) as [ty|] eqn:Hty; [|done].
      by rewrite (Hnumeric ax ty). }
    simpl. rewrite bool_decide_eq_false_2 by done.
    destruct (df_spatialdata_attrs data) as [a|]; [|done].
    destruct (a !! PointsModel.FEATURE_KEY) as [f|] eqn:Hf.
    + destruct (Hkeys a PointsModel.FEATURE_KEY f) as [ty ->]; [done|by left|done|].
      simpl. destruct (a !! PointsModel.INSTANCE_KEY) as [i|] eqn:Hi; [|done].
      by destruct (Hkeys a PointsModel.INSTANCE_KEY i) as [ty' ->];
        [done|right; left|done|].
    + destruct (a !! PointsModel.INSTANCE_KEY) as [i|] eqn:Hi; [|done].
      by destruct (Hkeys a PointsModel.INSTANCE_KEY i) as [ty' ->];
        [done|right; left|done|].
Qed.

Lemma X19_points_validate_witness :
  PointsModel.validate
    {| df_columns := ∅; df_transform := Some default_mapping;
       df_spatialdata_attrs := None |} = Ok tt.
Proof.
  apply (proj2 (X19_points_validate
                  {| df_columns := ∅; df_transform := Some default_mapping;
                     df_spatialdata_attrs := None |})).
  split; [|split].
  - intros ax ty _ Hty. simpl in Hty. by rewrite lookup_empty in Hty.
  - discriminate.
  - intros a key k Ha. discriminate Ha.
Defined.

(** ** Tables: what [parse] returns *)

(** What [TableModel.parse] leaves, when it returns: the block written, and
    what was checked on the way. *)
Lemma TableModel_parse_Ok region region_key instance_key adata adata' :
  TableModel.parse region region_key instance_key adata = (Ok tt, adata') →
  ∃ r rk ik,
    uns adata' = <[ TableModel.ATTRS_KEY := TableModel.attr_of r rk ik ]> (uns adata)
    ∧ match r with
      | VNone => obs adata' = obs adata
      | VStr _ => rk = VNone ∧ ik ≠ VNone ∧ obs adata' = obs adata
      | VList l =>
          ik ≠ VNone
          ∧ ∃ k column, rk = VStr k ∧ obs adata !! k = Some column
              ∧ Forall (λ v, v ∈ l) (obs_values column)
              ∧ obs adata' = if categorical column then obs adata
                             else <[ k := TableModel.Categorical column ]> (obs adata)
      | VOther => False
      end.
Proof.
  unfold TableModel.parse, TableModel.obs_getitem, TableModel.dict_getitem.
  unfold_py. simpl. intros Hparse.
  repeat first [case_bool_decide | case_match]; simplify_eq/=; try done;
    repeat first [case_bool_decide | case_match]; simplify_eq/=; try done.
  all: eexists _, _, _; (split; [reflexivity|]); simpl.
  all: try done.
  all: split; [done|]; eexists _, _; (split; [done|]); (split; [done|]).
  all: split; [by apply forallb_elem_of, negb_false_iff|].
  all: by destruct (categorical _).
Qed.

Lemma attr_of_lookup r rk ik :
  TableModel.attr_of r rk ik !! TableModel.REGION_KEY = Some r
  ∧ TableModel.attr_of r rk ik !! TableModel.REGION_KEY_KEY = Some rk
  ∧ TableModel.attr_of r rk ik !! TableModel.INSTANCE_KEY = Some ik.
Proof. by vm_compute. Qed.

(** X20. When [TableModel.parse] returns, [validate] accepts the table.
    The other blocks of [uns] and the values of every column of [obs] are
    as before.  The block written holds the three keys; if the region in it
    is a string, the region key is [None] and the instance key is not; if
    it is a list, the instance key is not [None], and the region key names a
    column of [obs] that is categorical and holds members of the list
    only; it is of no other type. *)
Theorem X20_table_parse_result region region_key instance_key adata adata' :
  TableModel.parse region region_key instance_key adata = (Ok tt, adata') →
  TableModel.validate adata' = Ok tt
  ∧ (∀ k, k ≠ TableModel.ATTRS_KEY → uns adata' !! k = uns adata !! k)
  ∧ (∀ k, obs_values <$> obs adata' !! k = obs_values <$> obs adata !! k)
  ∧ ∃ r rk ik,
      uns adata' !! TableModel.ATTRS_KEY = Some (TableModel.attr_of r rk ik)
      ∧ match r with
        | VNone => True
        | VStr _ => rk = VNone ∧ ik ≠ VNone
        | VList l =>
            ik ≠ VNone
            ∧ ∃ k column, rk = VStr k ∧ obs adata' !! k = Some column
                ∧ categorical column = true
                ∧ Forall (λ v, v ∈ l) (obs_values column)
        | VOther => False
        end.
Proof.
  intros (r & rk & ik & Huns & Hr)%TableModel_parse_Ok.
  destruct (attr_of_lookup r rk ik) as (Hregion & Hregion_key & Hinstance_key).
  assert (uns adata' !! TableModel.ATTRS_KEY = Some (TableModel.attr_of r rk ik)) as Hblock.
  { by rewrite Huns, lookup_insert_eq. }
  split; [|split; [|split]].
  - unfold TableModel.validate, TableModel.dict_getitem.
    rewrite Hblock, Hregion, Hregion_key, Hinstance_key.
    destruct r as [|s|l|]; try done. by destruct Hr as (-> & _).
  - intros k Hk. by rewrite Huns, lookup_insert_ne.
  - intros k. destruct r as [|s|l|]; try done.
    + by rewrite Hr.
    + by destruct Hr as (_ & _ & ->).
    + destruct Hr as (_ & k' & column & _ & Hcolumn & _ & ->).
      destruct (categorical column); [done|].
      destruct (decide (k' = k)) as [->|Hk].
      * by rewrite lookup_insert_eq, Hcolumn.
      * by rewrite lookup_insert_ne.
  - exists r, rk, ik. split; [done|]. destruct r as [|s|l|]; try done.
    + by destruct Hr as (? & ? & _).
    + destruct Hr as (Hik & k & column & -> & Hcolumn & Hall & Hobs).
      split; [done|]. rewrite Hobs.
      destruct (categorical column) eqn:Hcat.
      * exists k, column. by repeat split.
      * exists k, (TableModel.Categorical column). rewrite lookup_insert_eq.
        by repeat split.
Qed.

Lemma X20_table_parse_result_witness :
  ∃ adata',
    TableModel.parse (VList ["sample1"; "sample2"]) (VStr "annotated_region")
      (VStr "cell_id") table_ab = (Ok tt, adata')
    ∧ TableModel.validate adata' = Ok tt
    ∧ (∀ k, k ≠ TableModel.ATTRS_KEY → uns adata' !! k = uns table_ab !! k)
    ∧ (∀ k, obs_values <$> obs adata' !! k = obs_values <$> obs table_ab !! k)
    ∧ ∃ r rk ik,
        uns adata' !! TableModel.ATTRS_KEY = Some (TableModel.attr_of r rk ik)
        ∧ match r with
          | VNone => True
          | VStr _ => rk = VNone ∧ ik ≠ VNone
          | VList l =>
              ik ≠ VNone
              ∧ ∃ k column, rk = VStr k ∧ obs adata' !! k = Some column
                  ∧ categorical column = true
                  ∧ Forall (λ v, v ∈ l) (obs_values column)
          | VOther => False
          end.
Proof.
  eexists. split; [vm_compute; reflexivity|].
  apply (X20_table_parse_result (VList ["sample1"; "sample2"]) (VStr "annotated_region")
           (VStr "cell_id") table_ab).
  vm_compute. reflexivity.
Defined.

(** X21. [TableModel.parse] is idempotent: a table that it returned is
    returned as it is when it is parsed again without arguments. *)
Theorem X21_table_parse_idempotent region region_key instance_key adata adata' :
  TableModel.parse region region_key instance_key adata = (Ok tt, adata') →
  TableModel.parse VNone VNone VNone adata' = (Ok tt, adata').
Proof.
  intros (r & rk & ik & Huns & Hr)%TableModel_parse_Ok.
  destruct (attr_of_lookup r rk ik) as (Hregion & Hregion_key & Hinstance_key).
  assert (uns adata' !! TableModel.ATTRS_KEY = Some (TableModel.attr_of r rk ik)) as Hblock.
  { by rewrite Huns, lookup_insert_eq. }
  assert (TableModel.set_uns TableModel.ATTRS_KEY (TableModel.attr_of r rk ik) adata'
          = adata') as Hsame.
  { unfold TableModel.set_uns. rewrite Huns, insert_insert_eq, <- Huns.
    by destruct adata'. }
  unfold TableModel.parse, TableModel.obs_getitem, TableModel.dict_getitem.
  unfold_py. simpl. rewrite Hblock, Hregion, Hregion_key, Hinstance_key. simpl.
  destruct r as [|s|l|]; try done.
  - by rewrite Hsame.
  - destruct Hr as (-> & Hik & _). simpl.
    rewrite bool_decide_eq_false_2 by done. by rewrite Hsame.
  - destruct Hr as (Hik & k & column & -> & Hcolumn & Hall & Hobs). simpl.
    assert (∃ column', obs adata' !! k = Some column' ∧ categorical column' = true
                       ∧ obs_values column' = obs_values column)
      as (column' & -> & -> & ->).
    { rewrite Hobs. destruct (categorical column) eqn:Hcat; [by exists column|].
      exists (TableModel.Categorical column). by rewrite lookup_insert_eq. }
    simpl. apply forallb_elem_of in Hall. rewrite Hall. simpl.
    rewrite bool_decide_eq_false_2 by done. by rewrite Hsame.
Qed.

Lemma X21_table_parse_idempotent_witness :
  TableModel.parse VNone VNone VNone table_ab_parsed = (Ok tt, table_ab_parsed).
Proof.
  apply (X21_table_parse_idempotent VNone VNone VNone table_ab table_ab_parsed).
  reflexivity.
Defined.

(** X22. [validate] accepts blocks that [parse] refuses: a table whose
    block holds a region that is not [None] and is neither a string nor a
    list (a number, say) is accepted by [TableModel.validate], whatever
    else the block holds, and refused by [TableModel.parse] without
    arguments, which leaves the table as it is. *)
Theorem X22_table_validate_weaker adata attr :
  uns adata !! TableModel.ATTRS_KEY = Some attr →
  attr !! TableModel.REGION_KEY = Some VOther →
  TableModel.validate adata = Ok tt
  ∧ ∃ e, TableModel.parse VNone VNone VNone adata = (Raise e, adata).
Proof.
  intros Hblock Hregion. split.
  - unfold TableModel.validate. by rewrite Hblock, Hregion.
  - unfold TableModel.parse, TableModel.dict_getitem. unfold_py. simpl.
    rewrite Hblock, Hregion.
    destruct (attr !! TableModel.REGION_KEY_KEY); [|eauto].
    destruct (attr !! TableModel.INSTANCE_KEY); eauto.
Qed.

Lemma X22_table_validate_weaker_witness :
  TableModel.validate
    {| obs := ∅; uns := {[ TableModel.ATTRS_KEY := {[ TableModel.REGION_KEY := VOther ]} ]} |}
  = Ok tt
  ∧ ∃ e, TableModel.parse VNone VNone VNone
           {| obs := ∅;
              uns := {[ TableModel.ATTRS_KEY := {[ TableModel.REGION_KEY := VOther ]} ]} |}
         = (Raise e,
            {| obs := ∅;
               uns := {[ TableModel.ATTRS_KEY := {[ TableModel.REGION_KEY := VOther ]} ]} |}).
Proof.
  apply (X22_table_validate_weaker
           {| obs := ∅;
              uns := {[ TableModel.ATTRS_KEY := {[ TableModel.REGION_KEY := VOther ]} ]} |}
           {[ TableModel.REGION_KEY := VOther ]}); reflexivity.
Defined.

(** ** The assignment matrix *)

Lemma index_spec d r :
  match index d r with
  | Ok i => r !! i = Some d ∧ i < length r
  | Raise e => e = ValueError LibraryValueError ∧ d ∉ r
  end.
Proof.
  induction r as [|d' r IH]; simpl.
  - split; [done|]. by intros ?%elem_of_nil.
  - case_decide as Hd; [subst; split; [done|lia]|].
    destruct (index d r) as [i|e]; simpl.
    + destruct IH. split; [done|lia].
    + destruct IH as [-> IH]. split; [done|].
      intros [?|?]%elem_of_cons; [by subst|done].
Qed.

Lemma length_set_where cat value values col :
  length col = length values → length (set_where cat value values col) = length values.
Proof. intros Hlen. unfold set_where. rewrite length_zip_with. lia. Qed.

Lemma lookup_set_where cat value values col i :
  length col = length values →
  set_where cat value values col !! i
  = if bool_decide (values !! i = Some (Some cat)) then Some (Some value) else col !! i.
Proof.
  intros Hlen. unfold set_where. rewrite lookup_zip_with.
  destruct (values !! i) as [v|] eqn:Hv; simpl.
  - destruct (lookup_lt_is_Some_2 col i) as [c ->].
    { rewrite Hlen. by eapply lookup_lt_Some. }
    simpl. case_decide as Hcat; subst.
    + by rewrite bool_decide_eq_true_2.
    + rewrite bool_decide_eq_false_2; [done|]. by intros [= ->].
  - symmetry. apply lookup_ge_None.
    rewrite Hlen. by apply lookup_ge_None.
Qed.

(** The columns after the loop over the categories. *)
Lemma fill_columns_Ok var_names cats values col col' :
  length col = length values →
  fill_columns var_names cats values col = Ok col' →
  length col' = length values
  ∧ ∀ i, match values !! i with
         | Some (Some c) =>
             if bool_decide (c ∈ cats)
             then ∃ j, index c var_names = Ok j ∧ col' !! i = Some (Some j)
             else col' !! i = col !! i
         | _ => col' !! i = col !! i
         end.
Proof.
  revert col. induction cats as [|cat cats IH]; intros col Hlen; simpl.
  - intros [= <-]. split; [done|]. intros i. by destruct (values !! i) as [[c|]|].
  - destruct (index cat var_names) as [value|] eqn:Hvalue; [|done]. simpl.
    intros Hfill. apply IH in Hfill as [Hlen' Hfill]; [|by apply length_set_where].
    split; [done|]. intros i. specialize (Hfill i).
    rewrite lookup_set_where in Hfill by done.
    destruct (values !! i) as [[c|]|] eqn:Hv; [|done..].
    destruct (decide (c ∈ cats)) as [Hc|Hc].
    + rewrite bool_decide_eq_true_2 in Hfill by done.
      by rewrite bool_decide_eq_true_2 by (by right).
    + rewrite bool_decide_eq_false_2 in Hfill by done.
      destruct (decide (c = cat)) as [->|Hcat].
      * rewrite bool_decide_eq_true_2 by left.
        rewrite bool_decide_eq_true_2 in Hfill by done. eauto.
      * rewrite bool_decide_eq_false_2
          by (intros [?|?]%elem_of_cons; [by subst|done]).
        rewrite bool_decide_eq_false_2 in Hfill; [done|]. by intros [= ->].
Qed.

Lemma fill_columns_total var_names cats values col :
  Forall (λ c, c ∈ var_names) cats →
  ∃ col', fill_columns var_names cats values col = Ok col'.
Proof.
  intros Hcats. revert col. induction Hcats as [|cat cats Hcat _ IH]; intros col; simpl.
  - eauto.
  - pose proof (index_spec cat var_names) as Hindex.
    destruct (index cat var_names) as [value|]; [|by destruct Hindex]. simpl. apply IH.
Qed.

Lemma fill_columns_Raise var_names cats values col :
  Exists (λ c, c ∉ var_names) cats →
  fill_columns var_names cats values col = Raise (ValueError LibraryValueError).
Proof.
  intros Hcats. revert col. induction cats as [|cat cats IH]; intros col.
  - by apply Exists_nil in Hcats.
  - simpl. pose proof (index_spec cat var_names) as Hindex.
    destruct (index cat var_names) as [value|e]; simpl.
    + apply IH. apply Exists_cons in Hcats as [Hcat|Hcats]; [|done].
      destruct Hcat. eapply list_elem_of_lookup_2, Hindex.
    + by destruct Hindex as [-> _].
Qed.

Lemma omap_id_fmap_Some {A} (l : list A) : omap id (Some <$> l) = l.
Proof. induction l as [|x l IH]; [done|]. csimpl. by rewrite IH. Qed.

Lemma all_Some {A} (col : list (option A)) :
  ¬ Exists (λ c, c = None) col → ∃ l, col = Some <$> l.
Proof.
  induction col as [|[x|] col IH]; intros Hcol.
  - by exists [].
  - destruct IH as [l ->]; [intros ?; apply Hcol; by right|]. by exists (x :: l).
  - destruct Hcol. by left.
Qed.

(** X23. When [_sparse_matrix_from_assignment] returns, the matrix has
    [n_obs] rows and one column per variable name; the assignment has at
    most [n_obs] values, none of them missing; and the matrix has one entry
    per value: in the row of the value, in the column at the first position
    of the value among the variable names. *)
Theorem X23_sparse_matrix_entries n_obs var_names assignment m :
  _sparse_matrix_from_assignment n_obs (NamesList var_names) assignment = Ok m →
  csr_shape m = (n_obs, length var_names)
  ∧ (length (cat_values assignment) ≤ n_obs)%nat
  ∧ length (csr_entries m) = length (cat_values assignment)
  ∧ ∀ i, i < length (cat_values assignment) →
         ∃ c j, cat_values assignment !! i = Some (Some c)
                ∧ index c var_names = Ok j
                ∧ csr_entries m !! i = Some (i, j).
Proof.
  unfold _sparse_matrix_from_assignment.
  set (n := length (cat_values assignment)).
  destruct (fill_columns _ _ _ _) as [col|] eqn:Hfill; [|done]. simpl.
  apply fill_columns_Ok in Hfill as [Hlen Hfill]; [|by rewrite length_replicate].
  case_bool_decide as Hnone; [done|].
  destruct (all_Some col Hnone) as [js ->]. rewrite omap_id_fmap_Some.
  rewrite length_fmap in Hlen. fold n in Hlen.
  unfold new_csr_matrix. case_bool_decide as Hbounds; [|done].
  intros [= <-]. simpl. destruct Hbounds as [Hrows _]. simpl in Hrows.
  split; [done|]. split; [|split].
  - destruct n as [|n'] eqn:Hn; [lia|].
    rewrite Forall_forall in Hrows. specialize (Hrows n').
    assert (n' < n_obs); [|lia]. apply Hrows, elem_of_seq. lia.
  - rewrite length_zip_with, length_seq. lia.
  - intros i Hi. specialize (Hfill i).
    destruct (lookup_lt_is_Some_2 (cat_values assignment) i Hi) as [v Hv].
    destruct (lookup_lt_is_Some_2 js i) as [j Hj]; [lia|].
    rewrite Hv in Hfill. rewrite list_lookup_fmap, Hj in Hfill. simpl in Hfill.
    assert (zip (seq 0 n) js !! i = Some (i, j)) as Hentry.
    { rewrite lookup_zip_with, lookup_seq_lt by done. simpl. by rewrite Hj. }
    destruct v as [c|].
    + exists c, j. case_bool_decide.
      * destruct Hfill as (j' & Hindex & [= ->]). done.
      * rewrite lookup_replicate_2 in Hfill by done. done.
    + rewrite lookup_replicate_2 in Hfill by done. done.
Qed.

Lemma X23_sparse_matrix_entries_witness :
  ∃ m, _sparse_matrix_from_assignment 3 (NamesList ["a"; "b"])
         {| categories := ["a"; "b"]; cat_values := [Some "b"; Some "a"; Some "b"] |}
       = Ok m
       ∧ csr_shape m = (3, 2)
       ∧ (3 ≤ 3)%nat
       ∧ length (csr_entries m) = 3
       ∧ ∀ i, i < 3 →
              ∃ c j, [Some "b"; Some "a"; Some "b"] !! i = Some (Some c)
                     ∧ index c ["a"; "b"] = Ok j
                     ∧ csr_entries m !! i = Some (i, j).
Proof.
  eexists. split; [vm_compute; reflexivity|].
  apply (X23_sparse_matrix_entries 3 ["a"; "b"]
           {| categories := ["a"; "b"]; cat_values := [Some "b"; Some "a"; Some "b"] |}).
  vm_compute. reflexivity.
Defined.

(** X24. A category that is not among the variable names makes
    [_sparse_matrix_from_assignment] raise the [ValueError] of [index],
    whether a value of the assignment is of this category or not. *)
Theorem X24_sparse_matrix_unknown_category n_obs var_names assignment c :
  c ∈ categories assignment → c ∉ var_names →
  _sparse_matrix_from_assignment n_obs (NamesList var_names) assignment
  = Raise (ValueError LibraryValueError).
Proof.
  intros Hc Hnames. unfold _sparse_matrix_from_assignment.
  rewrite fill_columns_Raise; [done|]. apply Exists_exists. eauto.
Qed.

Lemma X24_sparse_matrix_unknown_category_witness :
  _sparse_matrix_from_assignment 1 (NamesList ["a"])
    {| categories := ["a"; "b"]; cat_values := [Some "a"] |}
  = Raise (ValueError LibraryValueError).
Proof.
  apply (X24_sparse_matrix_unknown_category 1 ["a"]
           {| categories := ["a"; "b"]; cat_values := [Some "a"] |} "b").
  - right. left.
  - intros H. apply elem_of_cons in H as [H|H]; [discriminate H|].
    by apply elem_of_nil in H.
Defined.

(** X25. When every category is among the variable names, a missing value
    in the assignment makes [_sparse_matrix_from_assignment] fail its
    assertion. *)
Theorem X25_sparse_matrix_missing_value n_obs var_names assignment i :
  Forall (λ c, c ∈ var_names) (categories assignment) →
  cat_values assignment !! i = Some None →
  _sparse_matrix_from_assignment n_obs (NamesList var_names) assignment
  = Raise AssertionError.
Proof.
  intros Hcats Hmissing. unfold _sparse_matrix_from_assignment.
  destruct (fill_columns_total var_names (categories assignment) (cat_values assignment)
              (replicate (length (cat_values assignment)) None) Hcats) as [col Hfill].
  rewrite Hfill. simpl.
  apply fill_columns_Ok in Hfill as [Hlen Hfill]; [|by rewrite length_replicate].
  specialize (Hfill i). rewrite Hmissing in Hfill.
  rewrite lookup_replicate_2 in Hfill by (by eapply lookup_lt_Some).
  rewrite bool_decide_eq_true_2; [done|].
  apply Exists_exists. exists None. split; [|done]. by eapply list_elem_of_lookup_2.
Qed.

Lemma X25_sparse_matrix_missing_value_witness :
  _sparse_matrix_from_assignment 2 (NamesList ["a"; "b"])
    {| categories := ["a"]; cat_values := [Some "a"; None] |}
  = Raise AssertionError.
Proof.
  apply (X25_sparse_matrix_missing_value 2 ["a"; "b"]
           {| categories := ["a"]; cat_values := [Some "a"; None] |} 1).
  - repeat constructor.
  - reflexivity.
Defined.
